(** * Shared test-dependency brokers: a shallow embedding of the Go test helper

    The development follows the package [testhelper]:
    - [Go]        : the few runtime notions the helper relies on (errors and
                    [fmt.Errorf], [panic], [strconv.ParseBool], [os.Getenv],
                    [int32] atomics, [encoding/hex], [%d] formatting);
    - [Search]    : [SearchResult.TotalHits] over decoded JSON;
    - [Tenant]    : [GenerateTenantID];
    - [Broker]    : [SharedElasticsearch] / [SharedMongoDB] / [SharedPostgreSQL]
                    ([Start], [Stop], [stopContainer], [shouldReuseContainer]);
    - [Race]      : goroutines calling [Start] on one broker, interleaved;
    - [Builder]   : [TestDependenciesBuilder.Build] and [cleanup];
    - [Suite]     : [IntegrationTestSuite.WaitForIndexing];
    - [Lifecycle], [RaceFailure], [Bundle] : sequences of calls on one
                    broker, the race on a broker that cannot be provisioned,
                    and bundles in use;
    - [SearchDocuments], [Product] : [SearchResult.Documents], the product
                    repository and the product service;
    - [ElasticClean], [MongoClean], [PostgresClean] : the cleaners run
                    between tests and [executeInitialSQL].

    Calls that leave the process (container runtime, HTTP probes, the entropy
    source, the clock) are answered by an explicit environment value, so that
    every function below is total and can be evaluated. *)

From Stdlib Require Import ZArith Lia Ascii String Strings.Byte DecimalString.
From stdpp Require Import base strings gmap list.

#[local] Set Warnings "-register-all".
#[local] Open Scope Z_scope.

(* ===================================================================== *)
(** ** Go runtime notions                                                 *)
(* ===================================================================== *)

Module Go.

(** Go [error] values.  [errorString] is what [errors.New] and a
    [fmt.Errorf] without a wrapped operand build; [wrapError] is what
    [fmt.Errorf] builds around a non-nil [%w] operand. *)
Inductive error : Type :=
| errorString (s : string)
| wrapError (msg : string) (err : error).

(** [err.Error()] *)
Definition Error (e : error) : string :=
  match e with
  | errorString s => s
  | wrapError msg _ => msg
  end.

(** [errors.Unwrap(err)] *)
Definition Unwrap (e : error) : option error :=
  match e with
  | errorString _ => None
  | wrapError _ err => Some err
  end.

(** [fmt.Errorf(prefix + "%w", err)].  A nil operand is not an [error]:
    [fmt] prints the bad-verb marker and wraps nothing. *)
Definition Errorf_w (prefix : string) (err : option error) : error :=
  match err with
  | Some e => wrapError (prefix +:+ Error e) e
  | None => errorString (prefix +:+ "%!w(<nil>)")
  end.

(** How a call that returns an [error] ends: it returns, nil or an error,
    or it panics with a value and returns nothing.  A panic that nobody
    recovers ends the process. *)
Inductive exit : Type :=
| Returns (err : option error)
| Panics (v : error).

(** [strconv.ParseBool]: the value and the error, as Go returns them. *)
Definition ParseBool (str : string) : bool * option error :=
  if bool_decide (str ∈ ["1"; "t"; "T"; "TRUE"; "true"; "True"]) then (true, None)
  else if bool_decide (str ∈ ["0"; "f"; "F"; "FALSE"; "false"; "False"]) then (false, None)
  else (false, Some (errorString ("strconv.ParseBool: parsing " +:+ str +:+ ": invalid syntax"))).

(** The process environment and [os.Getenv]: an unset variable reads as
    the empty string. *)
Definition environ : Type := gmap string string.

Definition Getenv (env : environ) (key : string) : string :=
  default "" (env !! key).

(** [int32] with its wrap-around, and [atomic.AddInt32], which returns
    the new value. *)
Definition wrap32 (z : Z) : Z := (z + 2 ^ 31) mod 2 ^ 32 - 2 ^ 31.

Definition is_int32 (z : Z) : Prop := - 2 ^ 31 <= z < 2 ^ 31.

Definition AddInt32 (addr delta : Z) : Z := wrap32 (addr + delta).

(** [encoding/hex]: [hextable] and [EncodeToString]. *)
Definition hextable (i : N) : ascii :=
  nth (N.to_nat i)
      (list_ascii_of_string "0123456789abcdef") "0"%char.

Fixpoint EncodeToString (src : list byte) : string :=
  match src with
  | [] => ""
  | v :: rest =>
      String (hextable (N.shiftr (Byte.to_N v) 4))
        (String (hextable (N.land (Byte.to_N v) 15)) (EncodeToString rest))
  end.

(** [fromHexChar] and [DecodeString] of [encoding/hex]; [None] stands for
    [InvalidByteError] or [ErrLength]. *)
Definition fromHexChar (c : ascii) : option N :=
  let n := N_of_ascii c in
  if ((48 <=? n) && (n <=? 57))%N then Some (n - 48)%N
  else if ((97 <=? n) && (n <=? 102))%N then Some (n - 97 + 10)%N
  else if ((65 <=? n) && (n <=? 70))%N then Some (n - 65 + 10)%N
  else None.

Fixpoint DecodeString (s : string) : option (list byte) :=
  match s with
  | EmptyString => Some []
  | String a (String b rest) =>
      hi ← fromHexChar a;
      lo ← fromHexChar b;
      v ← Byte.of_N (N.shiftl hi 4 + lo);
      tl ← DecodeString rest;
      Some (v :: tl)
  | String _ EmptyString => None
  end.

(** [fmt.Sprintf("%d", v)] for a signed integer. *)
Definition FormatInt (v : Z) : string := NilZero.string_of_int (Z.to_int v).

(** An [io.Reader] as the caller sees it: [Read b] overwrites a prefix of
    [b] and reports how many bytes it wrote and an error. *)
Record Reader : Type := mkReader {
  reader_data : list byte;
  reader_err : option error
}.

Definition Read (r : Reader) (b : list byte) : list byte * nat * option error :=
  let n := Nat.min (length (reader_data r)) (length b) in
  (take n (reader_data r) ++ drop n b, n, reader_err r).

(** [make([]byte, n)] *)
Definition make_bytes (n : nat) : list byte := replicate n x00%byte.

End Go.

(* ===================================================================== *)
(** ** SearchResult                                                       *)
(* ===================================================================== *)

Module Search.

Section WithFloat.

(** [float64] and the conversion [int(f)] are kept abstract: the JSON
    decoder hands every number over as a [float64], and [TotalHits]
    only converts it. *)
Variable float64 : Type.
Variable int : float64 -> Z.

(** What [encoding/json] decodes into an [interface{}]. *)
Inductive any : Type :=
| AnyNil
| AnyBool (b : bool)
| AnyFloat64 (f : float64)
| AnyString (s : string)
| AnySlice (l : list any)
| AnyMap (m : gmap string any).

(** [m[key]]: a missing key reads as the nil interface. *)
Definition index (m : gmap string any) (key : string) : any :=
  default AnyNil (m !! key).

(** [v.(map[string]interface{})] and [v.(float64)] in their two-result
    form: [Some] stands for [ok == true]. *)
Definition assert_map (v : any) : option (gmap string any) :=
  match v with
  | AnyMap m => Some m
  | _ => None
  end.

Definition assert_float64 (v : any) : option float64 :=
  match v with
  | AnyFloat64 f => Some f
  | _ => None
  end.

Record SearchResult : Type := mkSearchResult {
  response : gmap string any
}.

Definition TotalHits (r : SearchResult) : Z :=
  match assert_map (index (response r) "hits") with
  | None => 0
  | Some hits =>
      match assert_map (index hits "total") with
      | None =>
          (* Elasticsearch 6.x format *)
          match assert_float64 (index hits "total") with
          | Some totalValue => int totalValue
          | None => 0
          end
      | Some total =>
          (* Elasticsearch 7.x+ format *)
          match assert_float64 (index total "value") with
          | None => 0
          | Some value => int value
          end
      end
  end.

(** The two response shapes. *)
Definition shape7 (r : SearchResult) (v : float64) : Prop :=
  ∃ hits total : gmap string any,
    response r !! "hits" = Some (AnyMap hits) ∧
    hits !! "total" = Some (AnyMap total) ∧
    total !! "value" = Some (AnyFloat64 v).

Definition shape6 (r : SearchResult) (v : float64) : Prop :=
  ∃ hits : gmap string any,
    response r !! "hits" = Some (AnyMap hits) ∧
    hits !! "total" = Some (AnyFloat64 v).

End WithFloat.

Arguments AnyNil {float64}.
Arguments AnyBool {float64}.
Arguments AnyFloat64 {float64}.
Arguments AnyString {float64}.
Arguments AnySlice {float64}.
Arguments AnyMap {float64}.
Arguments index {float64}.
Arguments assert_map {float64}.
Arguments assert_float64 {float64}.
Arguments mkSearchResult {float64}.
Arguments response {float64}.
Arguments TotalHits {float64}.
Arguments shape7 {float64}.
Arguments shape6 {float64}.

End Search.

(* ===================================================================== *)
(** ** Tenant identifiers                                                 *)
(* ===================================================================== *)

Module Tenant.
Import Go.

(** [GenerateTenantID], given the entropy source behind [rand.Read] and
    the value [time.Now().UnixNano()] would return. *)
Definition GenerateTenantID (rand : Reader) (now_UnixNano : Z) : string :=
  let bytes := make_bytes 8 in
  let '(bytes, _, err) := Read rand bytes in
  match err with
  | Some _ =>
      (* Fallback para timestamp se crypto/rand falhar *)
      "test_" +:+ FormatInt now_UnixNano
  | None => "test_" +:+ EncodeToString bytes
  end.

End Tenant.

(* ===================================================================== *)
(** ** Shared brokers                                                     *)
(* ===================================================================== *)

Module Broker.
Import Go.

(** The three brokers of the package are the same code up to names and
    to what [stopContainer] closes; one model serves them, indexed by
    [Kind]. *)
Inductive Kind : Type := Elasticsearch | MongoDB | PostgreSQL.

#[global] Instance Kind_eq_dec : EqDecision Kind.
Proof. solve_decision. Defined.

(** Clients and containers are heap objects; each is identified by the
    provisioning attempt that allocated it. *)
Definition Handle : Type := nat.
Definition Container : Type := nat.

(** [SharedElasticsearch], [SharedMongoDB], [SharedPostgreSQL].  [mu] is
    not a field here: a locked region is one atomic function.
    [startOnce] is the [done] flag of the [sync.Once].  [client] is
    PostgreSQL's [connection].  The last four fields are not Go fields:
    they record what the broker has asked of the outside world. *)
Record Shared : Type := mkShared {
  container : option Container;
  client : option Handle;
  url : string;
  refCount : Z;
  startOnce : bool;
  started : bool;
  sqlFilePaths : list string;
  attempts : nat;               (* calls of startContainer *)
  probes : nat;                 (* liveness probes sent *)
  terminated : list Container;  (* container.Terminate calls *)
  closed : list Handle          (* client.Disconnect / connection.Close calls *)
}.

(** The zero value [&SharedElasticsearch{}] of the singleton getters. *)
Definition zero : Shared :=
  mkShared None None "" 0 false false [] 0%nat 0%nat [] [].

Definition set_container (v : option Container) (s : Shared) : Shared :=
  mkShared v (client s) (url s) (refCount s) (startOnce s) (started s)
           (sqlFilePaths s) (attempts s) (probes s) (terminated s) (closed s).
Definition set_client (v : option Handle) (s : Shared) : Shared :=
  mkShared (container s) v (url s) (refCount s) (startOnce s) (started s)
           (sqlFilePaths s) (attempts s) (probes s) (terminated s) (closed s).
Definition set_url (v : string) (s : Shared) : Shared :=
  mkShared (container s) (client s) v (refCount s) (startOnce s) (started s)
           (sqlFilePaths s) (attempts s) (probes s) (terminated s) (closed s).
Definition set_refCount (v : Z) (s : Shared) : Shared :=
  mkShared (container s) (client s) (url s) v (startOnce s) (started s)
           (sqlFilePaths s) (attempts s) (probes s) (terminated s) (closed s).
Definition set_startOnce (v : bool) (s : Shared) : Shared :=
  mkShared (container s) (client s) (url s) (refCount s) v (started s)
           (sqlFilePaths s) (attempts s) (probes s) (terminated s) (closed s).
Definition set_started (v : bool) (s : Shared) : Shared :=
  mkShared (container s) (client s) (url s) (refCount s) (startOnce s) v
           (sqlFilePaths s) (attempts s) (probes s) (terminated s) (closed s).
Definition set_sqlFilePaths (v : list string) (s : Shared) : Shared :=
  mkShared (container s) (client s) (url s) (refCount s) (startOnce s) (started s)
           v (attempts s) (probes s) (terminated s) (closed s).
Definition set_attempts (v : nat) (s : Shared) : Shared :=
  mkShared (container s) (client s) (url s) (refCount s) (startOnce s) (started s)
           (sqlFilePaths s) v (probes s) (terminated s) (closed s).
Definition set_probes (v : nat) (s : Shared) : Shared :=
  mkShared (container s) (client s) (url s) (refCount s) (startOnce s) (started s)
           (sqlFilePaths s) (attempts s) v (terminated s) (closed s).
Definition set_terminated (v : list Container) (s : Shared) : Shared :=
  mkShared (container s) (client s) (url s) (refCount s) (startOnce s) (started s)
           (sqlFilePaths s) (attempts s) (probes s) v (closed s).
Definition set_closed (v : list Handle) (s : Shared) : Shared :=
  mkShared (container s) (client s) (url s) (refCount s) (startOnce s) (started s)
           (sqlFilePaths s) (attempts s) (probes s) (terminated s) v.

(** What the outside world answers.  [provision k n] is what the [n]-th
    [startContainer] of kind [k] meets: the service comes up at an address
    and its client answers; or the service cannot be reached or brought up,
    and the setup function returns [err] before it has stored anything; or
    the container comes up at an address but the client for it cannot be
    built or does not answer, with [err].  In the last case every setup
    function returns [err] as well, except [setupTestcontainer] of
    [SharedElasticsearch], which calls [panic(err)]. *)
Inductive answer : Type :=
| Up (address : string)
| Down (err : error)
| Broken (address : string) (err : error).

Record World : Type := mkWorld {
  env : environ;
  provision : Kind -> nat -> answer;
  initial_sql : list string -> option error;
  probe : Kind -> nat -> Handle -> option error;
  terminate : Kind -> Container -> option error
}.

Definition use_external_var (k : Kind) : string :=
  match k with
  | Elasticsearch => "USE_EXTERNAL_ES"
  | MongoDB => "USE_EXTERNAL_MONGO"
  | PostgreSQL => "USE_EXTERNAL_PG"
  end.

Definition url_var (k : Kind) : string :=
  match k with
  | Elasticsearch => "ES_URL"
  | MongoDB => "MONGO_URL"
  | PostgreSQL => "PG_URL"
  end.

Definition default_url (k : Kind) : string :=
  match k with
  | Elasticsearch => "http://localhost:9209"
  | MongoDB => "mongodb://localhost:27017"
  | PostgreSQL => "host=localhost port=5432 user=test password=test sslmode=disable"
  end.

Definition not_started_prefix (k : Kind) : string :=
  match k with
  | Elasticsearch => "shared elasticsearch not started: "
  | MongoDB => "shared mongodb not started: "
  | PostgreSQL => "shared postgresql not started: "
  end.

Definition nil_client_message (k : Kind) : string :=
  match k with
  | PostgreSQL => "connection is nil"
  | _ => "client is nil"
  end.

(** [shouldReuseContainer] *)
Definition shouldReuseContainer (w : World) : bool :=
  let '(reuse, _) := ParseBool (Getenv (env w) "TEST_CONTAINER_REUSE") in
  reuse || true.

(** [executeInitialSQL] (PostgreSQL) *)
Definition executeInitialSQL (w : World) (s : Shared) : option error :=
  if bool_decide (length (sqlFilePaths s) = 0%nat) then None
  else initial_sql w (sqlFilePaths s).

(** [setupExternal...]: the address comes from the environment; no
    container is stored. *)
Definition setupExternal (w : World) (k : Kind) (n : nat) (s : Shared)
  : Shared * exit :=
  match provision w k n with
  | Down err | Broken _ err => (s, Returns (Some err))
  | Up _ =>
      let u := Getenv (env w) (url_var k) in
      let u := if bool_decide (u = "") then default_url k else u in
      let s := set_url u (set_client (Some n) s) in
      match k with
      | PostgreSQL =>
          match executeInitialSQL w s with
          | Some err =>
              (s, Returns (Some (Errorf_w "failed to execute initial SQL: " (Some err))))
          | None => (s, Returns None)
          end
      | _ => (s, Returns None)
      end
  end.

(** [setupTestcontainer]: container, client and url are stored together,
    after the client has answered.  In [SharedElasticsearch] an error of
    [elasticsearch.NewClient] or of [esClient.Info] is not returned: the
    function panics with it, before it has stored anything. *)
Definition setupTestcontainer (w : World) (k : Kind) (n : nat) (s : Shared)
  : Shared * exit :=
  match provision w k n with
  | Down err => (s, Returns (Some err))
  | Broken _ err =>
      match k with
      | Elasticsearch => (s, Panics err)
      | _ => (s, Returns (Some err))
      end
  | Up address =>
      let s := set_url address (set_client (Some n) (set_container (Some n) s)) in
      match k with
      | PostgreSQL =>
          match executeInitialSQL w s with
          | Some err =>
              (s, Returns (Some (Errorf_w "failed to execute initial SQL: " (Some err))))
          | None => (s, Returns None)
          end
      | _ => (s, Returns None)
      end
  end.

(** [startContainer] *)
Definition startContainer (w : World) (k : Kind) (s : Shared)
  : Shared * exit :=
  let n := attempts s in
  let s := set_attempts (S n) s in
  let '(useExternal, _) := ParseBool (Getenv (env w) (use_external_var k)) in
  if useExternal then setupExternal w k n s
  else setupTestcontainer w k n s.

(** [testConnection] *)
Definition testConnection (w : World) (k : Kind) (s : Shared)
  : Shared * option error :=
  match client s with
  | None => (s, Some (errorString (nil_client_message k)))
  | Some h => (set_probes (S (probes s)) s, probe w k (probes s) h)
  end.

(** [s.started && s.client != nil] *)
Definition reusable (s : Shared) : bool :=
  started s && bool_decide (client s ≠ None).

(** [atomic.AddInt32(&s.refCount, delta)] *)
Definition addRef (delta : Z) (s : Shared) : Shared :=
  set_refCount (AddInt32 (refCount s) delta) s.

(** [s.startOnce.Do(func() { err = s.startContainer(ctx); if err == nil
    { s.started = true } })], ending with the captured [err].  A
    [sync.Once] whose function panics counts as done all the same. *)
Definition startOnce_Do (w : World) (k : Kind) (s : Shared)
  : Shared * exit :=
  if startOnce s then (s, Returns None)
  else
    let '(s, e) := startContainer w k s in
    let s := match e with
             | Returns None => set_started true s
             | Returns (Some _) | Panics _ => s
             end in
    (set_startOnce true s, e).

(** [s.sqlFilePaths = sqlFilePaths], which only the PostgreSQL broker has. *)
Definition with_paths (k : Kind) (paths : list string) (s : Shared) : Shared :=
  match k with
  | PostgreSQL => set_sqlFilePaths paths s
  | _ => s
  end.

(** [Start], from [var err error] on: the provisioning guarded by the
    [sync.Once], still inside the exclusive section. *)
Definition Start_provision (w : World) (k : Kind) (paths : list string)
  (s : Shared) : Shared * exit :=
  let s := with_paths k paths s in
  let '(s, e) := startOnce_Do w k s in
  match e with
  | Panics v => (s, Panics v)
  | Returns err =>
      if negb (started s)
      then (s, Returns (Some (Errorf_w (not_started_prefix k) err)))
      else (addRef 1 s, Returns None)
  end.

(** [Start], from [s.mu.Lock()] on: the exclusive section, which opens
    with the double-check. *)
Definition Start_exclusive (w : World) (k : Kind) (paths : list string)
  (s : Shared) : Shared * exit :=
  if reusable s then
    let '(s, err) := testConnection w k s in
    match err with
    | None => (addRef 1 s, Returns None)
    | Some _ =>
        (* Conexao perdida, reset para tentar novamente *)
        Start_provision w k paths (set_startOnce false (set_started false s))
    end
  else Start_provision w k paths s.

(** [Start].  [paths] is the variadic argument of the PostgreSQL broker
    and is ignored by the other two, which do not take it.  The deferred
    [s.mu.Unlock()] runs on a panic too. *)
Definition Start (w : World) (k : Kind) (paths : list string) (s : Shared)
  : Shared * exit :=
  if reusable s then
    let '(s, err) := testConnection w k s in
    match err with
    | None => (addRef 1 s, Returns None)
    | Some _ => Start_exclusive w k paths s
    end
  else Start_exclusive w k paths s.

(** [stopContainer] *)
Definition stopContainer (w : World) (k : Kind) (s : Shared)
  : Shared * option error :=
  let s := match k, client s with
           | Elasticsearch, _ => s
           | _, Some h => set_closed (h :: closed s) s
           | _, None => s
           end in
  match container s with
  | Some c =>
      if negb (shouldReuseContainer w)
      then (set_terminated (c :: terminated s) s, terminate w k c)
      else (s, None)
  | None => (s, None)
  end.

(** [Stop] *)
Definition Stop (w : World) (k : Kind) (s : Shared) : Shared * option error :=
  let s := addRef (-1) s in
  if refCount s <=? 0 then stopContainer w k s
  else (s, None).

(** [GetClient] *)
Definition GetClient (s : Shared) : option Handle := client s.

(** K acquires in a row, with the way each ended: nothing is called after
    one that panicked.  K releases. *)
Fixpoint Start_n (w : World) (k : Kind) (paths : list string) (K : nat)
  (s : Shared) : Shared * list exit :=
  match K with
  | O => (s, [])
  | S K' =>
      let '(s, e) := Start w k paths s in
      match e with
      | Panics _ => (s, [e])
      | Returns _ =>
          let '(s, es) := Start_n w k paths K' s in
          (s, e :: es)
      end
  end.

Fixpoint Stop_n (w : World) (k : Kind) (K : nat) (s : Shared)
  : Shared * list (option error) :=
  match K with
  | O => (s, [])
  | S K' =>
      let '(s, err) := Stop w k s in
      let '(s, errs) := Stop_n w k K' s in
      (s, err :: errs)
  end.

End Broker.

(* ===================================================================== *)
(** ** Goroutines racing on [Start]                                       *)
(* ===================================================================== *)

Module Race.
Import Go Broker.

(** Where a goroutine stands inside [Start].  The regions guarded by
    [mu] are atomic; the probe of the fast path and the [atomic.AddInt32]
    after it run outside any lock and are steps of their own. *)
Inductive pc : Type :=
| AtCheck                         (* before [s.mu.RLock()] *)
| AtProbe                         (* before the unlocked [testConnection] *)
| AtAdd                           (* before the fast path's [AddInt32] *)
| AtLock                          (* before [s.mu.Lock()] *)
| Returned (err : option error)
| Panicked (v : error).

Record Conc : Type := mkConc {
  shared : Shared;
  goroutines : list pc
}.

Definition is_panicked (p : pc) : bool :=
  match p with
  | Panicked _ => true
  | _ => false
  end.

(** A goroutine has panicked: the process is gone. *)
Definition crashed (c : Conc) : bool := existsb is_panicked (goroutines c).

(** Goroutine [i] takes its next step; in a process that is gone nobody
    takes a step. *)
Definition step (w : World) (k : Kind) (paths : list string) (i : nat)
  (c : Conc) : Conc :=
  if crashed c then c else
  match goroutines c !! i with
  | Some AtCheck =>
      let next := if reusable (shared c) then AtProbe else AtLock in
      mkConc (shared c) (<[i := next]> (goroutines c))
  | Some AtProbe =>
      let '(s, err) := testConnection w k (shared c) in
      let next := match err with
                  | None => AtAdd
                  | Some _ => AtLock
                  end in
      mkConc s (<[i := next]> (goroutines c))
  | Some AtAdd =>
      mkConc (addRef 1 (shared c)) (<[i := Returned None]> (goroutines c))
  | Some AtLock =>
      let '(s, e) := Start_exclusive w k paths (shared c) in
      let next := match e with
                  | Returns err => Returned err
                  | Panics v => Panicked v
                  end in
      mkConc s (<[i := next]> (goroutines c))
  | Some (Returned _) | Some (Panicked _) | None => c
  end.

(** A schedule names the goroutine that moves at each instant. *)
Definition run (w : World) (k : Kind) (paths : list string)
  (sched : list nat) (c : Conc) : Conc :=
  foldl (fun c i => step w k paths i c) c sched.

(** [N] goroutines about to call [Start] on the broker [s]. *)
Definition spawn (N : nat) (s : Shared) : Conc :=
  mkConc s (replicate N AtCheck).

Definition is_returned (p : pc) : bool :=
  match p with
  | Returned _ => true
  | _ => false
  end.

Definition returned (l : list pc) : nat := length (List.filter is_returned l).

(** Steps a goroutine still has before it returns, at most. *)
Definition rank (p : pc) : nat :=
  match p with
  | AtCheck => 3
  | AtProbe => 2
  | AtAdd => 1
  | AtLock => 1
  | Returned _ | Panicked _ => 0
  end.

(** The two phases of a race that starts on the broker [s0]: before the
    provisioning, nobody has got past the lock and the broker is untouched;
    after it, the broker is started on the handle of that one attempt and
    has counted one reference per goroutine that returned. *)
Definition before (s0 : Shared) (c : Conc) : Prop :=
  shared c = s0 /\ Forall (fun p => p = AtCheck \/ p = AtLock) (goroutines c).

Definition after (s0 : Shared) (c : Conc) : Prop :=
  started (shared c) = true /\
  client (shared c) = Some (attempts s0) /\
  attempts (shared c) = S (attempts s0) /\
  refCount (shared c) = wrap32 (refCount s0 + Z.of_nat (returned (goroutines c))) /\
  Forall (fun p => is_panicked p = false /\ forall e, p = Returned e -> e = None)
         (goroutines c).

(** How often goroutine [i] is scheduled. *)
Definition turns (i : nat) (sched : list nat) : nat :=
  length (List.filter (Nat.eqb i) sched).

End Race.

(* ===================================================================== *)
(** ** TestDependenciesBuilder                                            *)
(* ===================================================================== *)

Module Builder.
Import Go Broker.

(** [TestDependenciesBuilder].  Connections are the handles the brokers
    hand out; a function field or a broker reference is [true] when it
    is non-nil; a registered cleanup closure [func() { b.sharedX.Stop(ctx) }]
    is named by the kind whose broker it stops. *)
Record TestDependenciesBuilder : Type := mkBuilder {
  PostgresConn : option Handle;
  MongoConn : option Handle;
  MongoConnDW : option Handle;
  ESConn : option Handle;
  ESClearFunc : bool;
  MongoClearFunc : bool;
  PostgresClearFunc : bool;
  sharedES : bool;
  sharedMongo : bool;
  sharedPG : bool;
  needsPostgres : bool;
  needsMongo : bool;
  needsElasticsearch : bool;
  sqlFilePaths : list string;
  cleanupFuncs : list Kind;
  built : bool
}.

(** [NewTestDependenciesBuilder] and the [With...] options. *)
Definition NewTestDependenciesBuilder : TestDependenciesBuilder :=
  mkBuilder None None None None false false false false false false
            false false false [] [] false.

Definition WithPostgres (paths : list string) (b : TestDependenciesBuilder)
  : TestDependenciesBuilder :=
  mkBuilder (PostgresConn b) (MongoConn b) (MongoConnDW b) (ESConn b)
            (ESClearFunc b) (MongoClearFunc b) (PostgresClearFunc b)
            (sharedES b) (sharedMongo b) (sharedPG b)
            true (needsMongo b) (needsElasticsearch b)
            paths (cleanupFuncs b) (built b).

Definition WithMongo (b : TestDependenciesBuilder) : TestDependenciesBuilder :=
  mkBuilder (PostgresConn b) (MongoConn b) (MongoConnDW b) (ESConn b)
            (ESClearFunc b) (MongoClearFunc b) (PostgresClearFunc b)
            (sharedES b) (sharedMongo b) (sharedPG b)
            (needsPostgres b) true (needsElasticsearch b)
            (sqlFilePaths b) (cleanupFuncs b) (built b).

Definition WithElasticsearch (b : TestDependenciesBuilder) : TestDependenciesBuilder :=
  mkBuilder (PostgresConn b) (MongoConn b) (MongoConnDW b) (ESConn b)
            (ESClearFunc b) (MongoClearFunc b) (PostgresClearFunc b)
            (sharedES b) (sharedMongo b) (sharedPG b)
            (needsPostgres b) (needsMongo b) true
            (sqlFilePaths b) (cleanupFuncs b) (built b).

(** The package-level singletons [sharedPG], [sharedMongo], [sharedES].
    A singleton not yet created is identified with the zero value its
    getter creates. *)
Record Globals : Type := mkGlobals {
  globalPG : Shared;
  globalMongo : Shared;
  globalES : Shared
}.

Definition broker (k : Kind) (g : Globals) : Shared :=
  match k with
  | PostgreSQL => globalPG g
  | MongoDB => globalMongo g
  | Elasticsearch => globalES g
  end.

Definition set_broker (k : Kind) (s : Shared) (g : Globals) : Globals :=
  match k with
  | PostgreSQL => mkGlobals s (globalMongo g) (globalES g)
  | MongoDB => mkGlobals (globalPG g) s (globalES g)
  | Elasticsearch => mkGlobals (globalPG g) (globalMongo g) s
  end.

(** Builders live on the heap; a [*TestDependenciesBuilder] is an index
    into it. *)
Record Process : Type := mkProcess {
  heap : list TestDependenciesBuilder;
  globals : Globals
}.

Definition needs (b : TestDependenciesBuilder) (k : Kind) : bool :=
  match k with
  | PostgreSQL => needsPostgres b
  | MongoDB => needsMongo b
  | Elasticsearch => needsElasticsearch b
  end.

Definition setup_failed_prefix (k : Kind) : string :=
  match k with
  | PostgreSQL => "postgres setup failed: "
  | MongoDB => "mongo setup failed: "
  | Elasticsearch => "elasticsearch setup failed: "
  end.

(** The arguments a goroutine of [Build] passes to [Start]. *)
Definition start_args (b : TestDependenciesBuilder) (k : Kind) : list string :=
  match k with
  | PostgreSQL => sqlFilePaths b
  | _ => []
  end.

(** What a goroutine stores in [b] under [mu] when its [Start] returned
    nil. *)
Definition initialized (k : Kind) (s : Shared) (b : TestDependenciesBuilder)
  : TestDependenciesBuilder :=
  match k with
  | PostgreSQL =>
      mkBuilder (GetClient s) (MongoConn b) (MongoConnDW b) (ESConn b)
                (ESClearFunc b) (MongoClearFunc b) true
                (sharedES b) (sharedMongo b) (sharedPG b)
                (needsPostgres b) (needsMongo b) (needsElasticsearch b)
                (sqlFilePaths b) (cleanupFuncs b ++ [PostgreSQL]) (built b)
  | MongoDB =>
      mkBuilder (PostgresConn b) (GetClient s) (GetClient s) (ESConn b)
                (ESClearFunc b) true (PostgresClearFunc b)
                (sharedES b) (sharedMongo b) (sharedPG b)
                (needsPostgres b) (needsMongo b) (needsElasticsearch b)
                (sqlFilePaths b) (cleanupFuncs b ++ [MongoDB]) (built b)
  | Elasticsearch =>
      mkBuilder (PostgresConn b) (MongoConn b) (MongoConnDW b) (GetClient s)
                true (MongoClearFunc b) (PostgresClearFunc b)
                (sharedES b) (sharedMongo b) (sharedPG b)
                (needsPostgres b) (needsMongo b) (needsElasticsearch b)
                (sqlFilePaths b) (cleanupFuncs b ++ [Elasticsearch]) (built b)
  end.

(** [b.sharedX = GetSharedX()] *)
Definition referenced (k : Kind) (b : TestDependenciesBuilder)
  : TestDependenciesBuilder :=
  mkBuilder (PostgresConn b) (MongoConn b) (MongoConnDW b) (ESConn b)
            (ESClearFunc b) (MongoClearFunc b) (PostgresClearFunc b)
            (if k is Elasticsearch then true else sharedES b)
            (if k is MongoDB then true else sharedMongo b)
            (if k is PostgreSQL then true else sharedPG b)
            (needsPostgres b) (needsMongo b) (needsElasticsearch b)
            (sqlFilePaths b) (cleanupFuncs b) (built b).

(** One goroutine of [Build], for kind [k]: it starts its broker, then
    records the outcome under the local mutex.  The last component is the
    value of a panic nobody recovered: the goroutines do not recover, so a
    [Start] that panics ends the process, and with it every goroutine
    that had not run yet. *)
Definition goroutine (w : World) (k : Kind)
  (st : TestDependenciesBuilder * Globals * list error * option error)
  : TestDependenciesBuilder * Globals * list error * option error :=
  let '(b, g, errors, crash) := st in
  match crash with
  | Some _ => st
  | None =>
      let b := referenced k b in
      let '(s, e) := Start w k (start_args b k) (broker k g) in
      let g := set_broker k s g in
      match e with
      | Panics v => (b, g, errors, Some v)
      | Returns (Some e) =>
          (b, g, errors ++ [Errorf_w (setup_failed_prefix k) (Some e)], None)
      | Returns None => (initialized k s b, g, errors, None)
      end
  end.

(** [cleanup]: the registered closures, last one first. *)
Definition cleanup (w : World) (b : TestDependenciesBuilder) (g : Globals)
  : Globals :=
  foldl (fun g k => set_broker k (Stop w k (broker k g)).1 g) g
        (reverse (cleanupFuncs b)).

(** [%v] of a [[]error]. *)
Definition format_errors (errors : list error) : string :=
  "[" +:+ String.concat " " (map Error errors) +:+ "]".

Definition aggregate (errors : list error) : error :=
  errorString ("initialization errors: " +:+ format_errors errors).

(** The instance [Build] returns on success. *)
Definition bundle (b : TestDependenciesBuilder) : TestDependenciesBuilder :=
  mkBuilder (PostgresConn b) (MongoConn b) (MongoConnDW b) (ESConn b)
            (ESClearFunc b) (MongoClearFunc b) (PostgresClearFunc b)
            (sharedES b) (sharedMongo b) (sharedPG b)
            false false false [] (cleanupFuncs b) true.

Definition set_built (v : bool) (b : TestDependenciesBuilder)
  : TestDependenciesBuilder :=
  mkBuilder (PostgresConn b) (MongoConn b) (MongoConnDW b) (ESConn b)
            (ESClearFunc b) (MongoClearFunc b) (PostgresClearFunc b)
            (sharedES b) (sharedMongo b) (sharedPG b)
            (needsPostgres b) (needsMongo b) (needsElasticsearch b)
            (sqlFilePaths b) (cleanupFuncs b) v.

(** [Build] on the builder at address [b].  [order] is the order in
    which the goroutines of the three kinds get to run; the brokers and
    the builder fields of different kinds are disjoint, apart from
    [errors] and [cleanupFuncs], which are appended to under the mutex.
    [None] stands for a call through a dangling pointer.  When a goroutine
    panics, [Build] does not return: the result holds the process as the
    panic found it and the value of the panic. *)
Definition Build (w : World) (order : list Kind) (b : nat) (p : Process)
  : option (Process * option nat * exit) :=
  bv ← heap p !! b;
  if built bv then Some (p, Some b, Returns None)
  else
    let '(bv, g, errors, crash) :=
      foldl (fun st k => goroutine w k st) (bv, globals p, [], None)
            (filter (fun k => needs bv k = true) order) in
    match crash with
    | Some v => Some (mkProcess (<[b := bv]> (heap p)) g, None, Panics v)
    | None =>
        if (0 <? length errors)%nat then
          let g := cleanup w bv g in
          Some (mkProcess (<[b := bv]> (heap p)) g, None,
                Returns (Some (aggregate errors)))
        else
          let bv := set_built true bv in
          Some (mkProcess (<[b := bv]> (heap p) ++ [bundle bv]) g,
                Some (length (heap p)), Returns None)
    end.

(** [Cleanup] *)
Definition Cleanup (w : World) (b : nat) (p : Process) : option Process :=
  bv ← heap p !! b;
  Some (mkProcess (heap p) (cleanup w bv (globals p))).

(** [new(TestDependenciesBuilder)]-style allocation of a builder value. *)
Definition alloc (bv : TestDependenciesBuilder) (p : Process) : Process * nat :=
  (mkProcess (heap p ++ [bv]) (globals p), length (heap p)).

Definition all_kinds : list Kind := [PostgreSQL; MongoDB; Elasticsearch].

(** How [Start] ends for the goroutine of kind [k], and the entry that
    goroutine appends to [errors] when [Start] returns an error. *)
Definition outcome (w : World) (b : TestDependenciesBuilder) (g : Globals)
  (k : Kind) : Shared * exit :=
  Start w k (start_args b k) (broker k g).

Definition failure (w : World) (b : TestDependenciesBuilder) (g : Globals)
  (k : Kind) : option error :=
  match (outcome w b g k).2 with
  | Returns (Some e) => Some (Errorf_w (setup_failed_prefix k) (Some e))
  | Returns None | Panics _ => None
  end.

Definition succeeds (w : World) (b : TestDependenciesBuilder) (g : Globals)
  (k : Kind) : bool :=
  match (outcome w b g k).2 with
  | Returns None => true
  | Returns (Some _) | Panics _ => false
  end.

Definition panics (w : World) (b : TestDependenciesBuilder) (g : Globals)
  (k : Kind) : option error :=
  match (outcome w b g k).2 with
  | Panics v => Some v
  | Returns _ => None
  end.

(** How many of the closures in [l] stop the broker of kind [k]. *)
Definition releases (k : Kind) (l : list Kind) : nat :=
  length (List.filter (fun j => bool_decide (j = k)) l).

End Builder.

(* ===================================================================== *)
(** ** IntegrationTestSuite                                               *)
(* ===================================================================== *)

Module Suite.
Import Go Broker.

(** What a helper does that the test can observe from outside.  The last
    one is a panic of the runtime, which ends the process. *)
Inductive call : Type :=
| IndicesRefresh (index : string)
| FailNow (msg : string)
| Sleep (milliseconds : Z)
| RuntimePanic (msg : string).

(** The answer of the cluster to a refresh request. *)
Inductive refresh_response : Type :=
| RefreshDone
| RefreshTransportError (err : error)
| RefreshStatusError (status : string).

(** [SharedElasticsearch.RefreshIndices] *)
Definition RefreshIndices (resp : refresh_response) (s : Shared)
  : list call * option error :=
  match GetClient s with
  | None => ([], Some (errorString "elasticsearch client not available"))
  | Some _ =>
      ([IndicesRefresh "_all"],
       match resp with
       | RefreshTransportError err =>
           Some (Errorf_w "failed to refresh indices: " (Some err))
       | RefreshStatusError status =>
           Some (errorString ("elasticsearch refresh error: " +:+ status))
       | RefreshDone => None
       end)
  end.

(** [IntegrationTestSuite].  [sharedES] is a pointer: the constructor of
    [integration_test_base.go] always sets it, and
    [NewIntegrationTestSuiteWithBuilder] of the builder-integrated suite
    leaves it nil unless the builder holds an Elasticsearch connection. *)
Record IntegrationTestSuite : Type := mkSuite {
  sharedES : option Shared;
  tenantID : string
}.

Definition nil_dereference : string :=
  "runtime error: invalid memory address or nil pointer dereference".

(** The statements both versions of [WaitForIndexing] spell out:
    [RefreshIndices], [require.NoError] on its result, and a sleep of 50ms.
    On a nil [sharedES] the call reaches [s.mu.RLock()] in [GetClient]
    with a nil receiver, and panics there. *)
Definition refresh_and_wait (resp : refresh_response) (s : IntegrationTestSuite)
  : list call :=
  match sharedES s with
  | None => [RuntimePanic nil_dereference]
  | Some broker =>
      let '(calls, err) := RefreshIndices resp broker in
      match err with
      | Some e => calls ++ [FailNow ("Failed to refresh indices: " +:+ Error e)]
      | None => calls ++ [Sleep 50]
      end
  end.

(** [WaitForIndexing] of [integration_test_base.go]: its body opens with
    a bare [return], so the statements after it are never run. *)
Definition WaitForIndexing (resp : refresh_response) (s : IntegrationTestSuite)
  : list call :=
  let unreachable := refresh_and_wait resp s in
  [].

(** [WaitForIndexing] of the suite integrated with the builder, which has
    no such [return]. *)
Definition WaitForIndexing_builder_suite (resp : refresh_response)
  (s : IntegrationTestSuite) : list call :=
  refresh_and_wait resp s.

End Suite.


(* ===================================================================== *)
(** ** Histories of one broker                                            *)
(* ===================================================================== *)

Module Lifecycle.
Import Go Broker.

(** What a test does to a broker: it acquires it ([Start], with the script
    paths the PostgreSQL broker takes) or releases it ([Stop]). *)
Inductive call : Type :=
| Acquire (paths : list string)
| Release.

Definition perform (w : World) (k : Kind) (c : call) (s : Shared)
  : Shared * exit :=
  match c with
  | Acquire paths => Start w k paths s
  | Release => let '(s, err) := Stop w k s in (s, Returns err)
  end.

(** A sequence of calls, one after the other, with the way each ended;
    nothing is called after one that panicked. *)
Fixpoint history (w : World) (k : Kind) (calls : list call) (s : Shared)
  : Shared * list exit :=
  match calls with
  | [] => (s, [])
  | c :: rest =>
      let '(s, e) := perform w k c s in
      match e with
      | Panics _ => (s, [e])
      | Returns _ =>
          let '(s, es) := history w k rest s in
          (s, e :: es)
      end
  end.

(** The references a history leaves behind, read off the results alone:
    one more for each acquire that returned nil, one less for each
    release; an acquire that returned an error or panicked counts for
    nothing. *)
Fixpoint balance (calls : list call) (exits : list exit) : Z :=
  match calls, exits with
  | Acquire _ :: calls, Returns None :: exits => balance calls exits + 1
  | Acquire _ :: calls, Returns (Some _) :: exits => balance calls exits
  | Acquire _ :: calls, Panics _ :: exits => balance calls exits
  | Release :: calls, _ :: exits => balance calls exits - 1
  | _, _ => 0
  end.

(** What every broker reached from the zero value satisfies. *)
Definition sound (s : Shared) : Prop :=
  (started s = true -> client s <> None /\ startOnce s = true) /\
  (forall h, client s = Some h -> (h < attempts s)%nat) /\
  (forall c, container s = Some c -> (c < attempts s)%nat) /\
  is_int32 (refCount s) /\
  terminated s = [].

(** A broker whose one provisioning attempt is spent and failed. *)
Definition spent (s : Shared) : Prop :=
  started s = false /\ startOnce s = true.

(** What a call on a spent broker returns. *)
Definition spent_result (k : Kind) (c : call) (e : exit) : Prop :=
  match c with
  | Acquire _ =>
      e = Returns (Some (errorString (not_started_prefix k +:+ "%!w(<nil>)")))
  | Release => e = Returns None
  end.

End Lifecycle.

(* ===================================================================== *)
(** ** A race on a broker that cannot be provisioned                      *)
(* ===================================================================== *)

Module RaceFailure.
Import Go Broker Race.

(** The two errors [Start] has for a broker that is not started: the one
    that wraps what [startContainer] returned, and the one that wraps
    nothing. *)
Definition with_cause (k : Kind) (cause : error) : error :=
  Errorf_w (not_started_prefix k) (Some cause).

Definition without_cause (k : Kind) : error :=
  Errorf_w (not_started_prefix k) None.

(** A goroutine that returned an error wrapping a cause. *)
Definition carries_cause (p : pc) : bool :=
  match p with
  | Returned (Some (wrapError _ _)) => true
  | _ => false
  end.

Definition causes (l : list pc) : nat := length (List.filter carries_cause l).

(** The phase of the race after the one attempt has failed, on a broker
    that was [s0] before. *)
Definition failed (k : Kind) (cause : error) (s0 : Shared) (c : Conc) : Prop :=
  started (shared c) = false /\
  startOnce (shared c) = true /\
  attempts (shared c) = S (attempts s0) /\
  refCount (shared c) = refCount s0 /\
  client (shared c) = client s0 /\
  causes (goroutines c) = 1%nat /\
  Forall (fun p => p = AtCheck \/ p = AtLock \/
                   p = Returned (Some (with_cause k cause)) \/
                   p = Returned (Some (without_cause k)))
         (goroutines c).

End RaceFailure.

(* ===================================================================== *)
(** ** Bundles in use                                                     *)
(* ===================================================================== *)

Module Bundle.
Import Go Broker Builder.

(** The connection field of a builder for the kind [k] ([MongoConn] for
    MongoDB, whose [MongoConnDW] is set along with it). *)
Definition conn (k : Kind) (b : TestDependenciesBuilder) : option Handle :=
  match k with
  | PostgreSQL => PostgresConn b
  | MongoDB => MongoConn b
  | Elasticsearch => ESConn b
  end.

(** [Cleanup], called [n] times in a row on the builder at address [b]. *)
Fixpoint Cleanup_n (w : World) (n : nat) (b : nat) (p : Process) : option Process :=
  match n with
  | O => Some p
  | S n' => p' ← Cleanup w b p; Cleanup_n w n' b p'
  end.

(** The kinds a builder asks for, in the order their goroutines run. *)
Definition requested (b : TestDependenciesBuilder) (order : list Kind) : list Kind :=
  filter (fun k => needs b k = true) order.

End Bundle.

(* ===================================================================== *)
(** ** SearchResult.Documents                                             *)
(* ===================================================================== *)

Module SearchDocuments.
Import Search.

Section WithFloat.

Variable float64 : Type.

(** [v.([]interface{})] in its two-result form. *)
Definition assert_slice (v : any float64) : option (list (any float64)) :=
  match v with
  | AnySlice l => Some l
  | _ => None
  end.

(** One turn of the loop over [hitsArray]: a hit that is no object, or
    whose [_source] is no object, is skipped. *)
Definition collect (documents : list (gmap string (any float64)))
  (hit : any float64) : list (gmap string (any float64)) :=
  match assert_map hit with
  | None => documents
  | Some hitMap =>
      match assert_map (index hitMap "_source") with
      | None => documents
      | Some source => documents ++ [source]
      end
  end.

(** [Documents]; the nil slice is the empty list. *)
Definition Documents (r : SearchResult float64)
  : list (gmap string (any float64)) :=
  match assert_map (index (response r) "hits") with
  | None => []
  | Some hits =>
      match assert_slice (index hits "hits") with
      | None => []
      | Some hitsArray => foldl collect [] hitsArray
      end
  end.

(** The document a hit carries, if it carries one. *)
Definition source_of (hit : any float64) : option (gmap string (any float64)) :=
  match hit with
  | AnyMap hitMap =>
      match hitMap !! "_source" with
      | Some (AnyMap d) => Some d
      | _ => None
      end
  | _ => None
  end.

(** A hit that carries the document [d]. *)
Definition carries (hit : any float64) (d : gmap string (any float64)) : Prop :=
  exists hitMap : gmap string (any float64),
    hit = AnyMap hitMap /\ hitMap !! "_source" = Some (AnyMap d).

End WithFloat.

Arguments assert_slice {float64}.
Arguments collect {float64}.
Arguments Documents {float64}.
Arguments carries {float64}.
Arguments source_of {float64}.

End SearchDocuments.

(* ===================================================================== *)
(** ** The product repository and service                                 *)
(* ===================================================================== *)

Module Product.
Import Go Search.

Section WithFloat.

(** [float64] with the two comparisons the service makes on prices, and
    what [encoding/json] does between a decoded [_source] and a [Product]
    ([json.Marshal] followed by [json.Unmarshal]). *)
Variable float64 : Type.
Variable float_lt : float64 -> float64 -> bool.
Variable float_ge : float64 -> float64 -> bool.
Variable float_zero : float64.

Record Product : Type := mkProduct {
  ID : string;
  Name : string;
  Description : string;
  Price : float64;
  Category : string;
  TenantID : string
}.

Variable json_text : Type.
Variable Marshal : any float64 -> error + json_text.
Variable Unmarshal : json_text -> error + Product.

(** What [req.Do] gives back: an error of the transport, or a response
    with its status and its body, decoded into a map or not decodable. *)
Record Response : Type := mkResponse {
  StatusCode : Z;
  Status : string;
  Body : error + gmap string (any float64)
}.

(** [res.IsError()] *)
Definition IsError (res : Response) : bool := 299 <? StatusCode res.

(** [ProductRepository.GetByID], given what the cluster answers to the
    get request on index [products]. *)
Definition GetByID (do : error + Response) (id tenantID : string)
  : option Product * option error :=
  match do with
  | inl err => (None, Some (Errorf_w "failed to get product: " (Some err)))
  | inr res =>
      if StatusCode res =? 404 then (None, None)
      else if IsError res
      then (None, Some (errorString ("elasticsearch error: " +:+ Status res)))
      else
        match Body res with
        | inl err => (None, Some (Errorf_w "failed to decode response: " (Some err)))
        | inr response =>
            match response !! "_source" with
            | None => (None, Some (errorString "product source not found"))
            | Some source =>
                match Marshal source with
                | inl err =>
                    (None, Some (Errorf_w "failed to marshal source: " (Some err)))
                | inr sourceJSON =>
                    match Unmarshal sourceJSON with
                    | inl err =>
                        (None,
                         Some (Errorf_w "failed to unmarshal product: " (Some err)))
                    | inr product =>
                        (* Validar tenantID para isolamento *)
                        if negb (String.eqb (TenantID product) tenantID)
                        then (None, None)
                        else (Some product, None)
                    end
                end
            end
        end
  end.

(** One turn of the loop of [SearchByCategory] over [hitsArray]. *)
Definition collect_product (products : list Product) (hit : any float64)
  : list Product :=
  match assert_map hit with
  | None => products
  | Some hitMap =>
      match assert_map (index hitMap "_source") with
      | None => products
      | Some source =>
          match Marshal (AnyMap source) with
          | inl _ => products
          | inr sourceJSON =>
              match Unmarshal sourceJSON with
              | inl _ => products
              | inr product => products ++ [product]
              end
          end
      end
  end.

(** [ProductRepository.SearchByCategory], given what the cluster answers
    to the search request.  The query is a map of strings, which
    [json.Marshal] always encodes; it does not show in the result. *)
Definition SearchByCategory (do : error + Response) (category tenantID : string)
  : list Product * option error :=
  match do with
  | inl err => ([], Some (Errorf_w "failed to search products: " (Some err)))
  | inr res =>
      if IsError res
      then ([], Some (errorString ("elasticsearch search error: " +:+ Status res)))
      else
        match Body res with
        | inl err =>
            ([], Some (Errorf_w "failed to decode search response: " (Some err)))
        | inr searchResponse =>
            match assert_map (index searchResponse "hits") with
            | None => ([], None)
            | Some hits =>
                match SearchDocuments.assert_slice (index hits "hits") with
                | None => ([], None)
                | Some hitsArray => (foldl collect_product [] hitsArray, None)
                end
            end
        end
  end.

(** The product a hit decodes to, if it does. *)
Definition decodes_to (hit : any float64) (product : Product) : Prop :=
  exists (hitMap source : gmap string (any float64)) (sourceJSON : json_text),
    hit = AnyMap hitMap /\ hitMap !! "_source" = Some (AnyMap source) /\
    Marshal (AnyMap source) = inr sourceJSON /\ Unmarshal sourceJSON = inr product.

(** The repository as the service sees it, and the calls the service
    makes on it. *)
(** The product a hit decodes to, if it decodes. *)
Definition product_of (hit : any float64) : option Product :=
  match hit with
  | AnyMap hitMap =>
      match hitMap !! "_source" with
      | Some (AnyMap source) =>
          match Marshal (AnyMap source) with
          | inr sourceJSON =>
              match Unmarshal sourceJSON with
              | inr product => Some product
              | inl _ => None
              end
          | inl _ => None
          end
      | _ => None
      end
  | _ => None
  end.

Record Repository : Type := mkRepository {
  repo_Create : Product -> option error;
  repo_GetByID : string -> string -> option Product * option error;
  repo_SearchByCategory : string -> string -> list Product * option error
}.

Inductive repo_call : Type :=
| CallCreate (product : Product)
| CallGetByID (id tenantID : string)
| CallSearchByCategory (category tenantID : string).

(** [ProductService.CreateProduct] *)
Definition CreateProduct (repo : Repository) (product : Product)
  : option error * list repo_call :=
  if String.eqb (Name product) "" then
    (Some (errorString "product name is required"), [])
  else if float_lt (Price product) float_zero then
    (Some (errorString "product price must be positive"), [])
  else (repo_Create repo product, [CallCreate product]).

(** [ProductService.GetProductByID] *)
Definition GetProductByID (repo : Repository) (id tenantID : string)
  : option Product * option error * list repo_call :=
  if String.eqb id "" then
    (None, Some (errorString "product ID is required"), [])
  else if String.eqb tenantID "" then
    (None, Some (errorString "tenant ID is required"), [])
  else (repo_GetByID repo id tenantID, [CallGetByID id tenantID]).

(** [ProductService.GetProductsByCategory] *)
Definition GetProductsByCategory (repo : Repository) (category tenantID : string)
  : list Product * option error * list repo_call :=
  if String.eqb category "" then
    ([], Some (errorString "category is required"), [])
  else if String.eqb tenantID "" then
    ([], Some (errorString "tenant ID is required"), [])
  else (repo_SearchByCategory repo category tenantID,
        [CallSearchByCategory category tenantID]).

(** One turn of the loop of [GetExpensiveProducts]. *)
Definition keep_expensive (minPrice : float64) (expensive : list Product)
  (product : Product) : list Product :=
  if float_ge (Price product) minPrice then expensive ++ [product]
  else expensive.

(** [ProductService.GetExpensiveProducts] *)
Definition GetExpensiveProducts (repo : Repository) (minPrice : float64)
  (tenantID : string) : list Product * option error * list repo_call :=
  if String.eqb tenantID "" then
    ([], Some (errorString "tenant ID is required"), [])
  else
    let '(electronics, err) := repo_SearchByCategory repo "electronics" tenantID in
    match err with
    | Some e => ([], Some e, [CallSearchByCategory "electronics" tenantID])
    | None =>
        (foldl (keep_expensive minPrice) [] electronics, None,
         [CallSearchByCategory "electronics" tenantID])
    end.

End WithFloat.

Arguments mkProduct {float64}.
Arguments ID {float64}.
Arguments Name {float64}.
Arguments Description {float64}.
Arguments Price {float64}.
Arguments Category {float64}.
Arguments TenantID {float64}.
Arguments mkResponse {float64}.
Arguments StatusCode {float64}.
Arguments Status {float64}.
Arguments Body {float64}.
Arguments IsError {float64}.
Arguments GetByID {float64 json_text}.
Arguments collect_product {float64 json_text}.
Arguments SearchByCategory {float64 json_text}.
Arguments decodes_to {float64 json_text}.
Arguments product_of {float64 json_text}.
Arguments mkRepository {float64}.
Arguments repo_Create {float64}.
Arguments repo_GetByID {float64}.
Arguments repo_SearchByCategory {float64}.
Arguments CallCreate {float64}.
Arguments CallGetByID {float64}.
Arguments CallSearchByCategory {float64}.
Arguments CreateProduct {float64}.
Arguments GetProductByID {float64}.
Arguments GetProductsByCategory {float64}.
Arguments keep_expensive {float64}.
Arguments GetExpensiveProducts {float64}.

End Product.

(* ===================================================================== *)
(** ** Cleaning between tests                                             *)
(* ===================================================================== *)

(** [isDebugEnabled], and a line the cleaners print only under it.  The
    line is kept as its parts: what failed, on which object, with which
    error. *)
Module Debug.
Import Go.

Definition isDebugEnabled (env : environ) : bool :=
  (ParseBool (Getenv env "DEBUG_TEST_CONTAINERS")).1.

Record line : Type := mkLine {
  what : string;
  object : string;
  cause : error
}.

(** [if err != nil && isDebugEnabled() { fmt.Printf(...) }] *)
Definition warn (env : environ) (what object : string) (err : option error)
  : list line :=
  match err with
  | Some e => if isDebugEnabled env then [mkLine what object e] else []
  | None => []
  end.

End Debug.

(** [SharedElasticsearch.CleanIndices] *)
Module ElasticClean.
Import Go Search Broker Debug.

(** What a call leaves behind when it does not return: a type assertion
    in its one-result form panics. *)
Inductive outcome (A : Type) : Type :=
| Done (a : A)
| Panic.

Arguments Done {A}.
Arguments Panic {A}.

Inductive event : Type :=
| CatIndices
| IndicesDelete (indexName : string)
| Printf (l : line)
| Sleep (milliseconds : Z).

Section WithFloat.

Variable float64 : Type.

(** The answer to [Cat.Indices]: the status, and the body as
    [json.Decoder.Decode] reads it into a [[]map[string]interface{}]. *)
Record CatResponse : Type := mkCatResponse {
  StatusCode : Z;
  Status : string;
  Body : error + list (gmap string (any float64))
}.

Definition IsError (res : CatResponse) : bool := 299 <? StatusCode res.

(** The loop over [indices]: the events of the turns taken, and whether
    a turn panicked on [index["index"].(string)]. *)
Fixpoint delete_indices (env : environ) (delete : string -> option error)
  (indices : list (gmap string (any float64))) : list event * bool :=
  match indices with
  | [] => ([], false)
  | row :: rest =>
      match index row "index" with
      | AnyString indexName =>
          let here :=
            if String.prefix "." indexName then []
            else IndicesDelete indexName
                 :: map Printf (warn env "Failed to delete index" indexName
                                  (delete indexName)) in
          let '(later, panicked) := delete_indices env delete rest in
          (here ++ later, panicked)
      | _ => ([], true)
      end
  end.

Definition CleanIndices (env : environ) (cat : error + CatResponse)
  (delete : string -> option error) (s : Shared)
  : outcome (option error) * list event :=
  match GetClient s with
  | None => (Done (Some (errorString "elasticsearch client not available")), [])
  | Some _ =>
      match cat with
      | inl err =>
          (Done (Some (Errorf_w "failed to list indices: " (Some err))),
           [CatIndices])
      | inr res =>
          if IsError res then
            (Done (Some (errorString ("elasticsearch error: " +:+ Status res))),
             [CatIndices])
          else
            match Body res with
            | inl err =>
                (Done (Some (Errorf_w "failed to decode indices response: "
                               (Some err))),
                 [CatIndices])
            | inr indices =>
                let '(events, panicked) := delete_indices env delete indices in
                if panicked then (Panic, CatIndices :: events)
                else (Done None, CatIndices :: events ++ [Sleep 100])
            end
      end
  end.

(** A row of the listing that names the index [indexName]. *)
Definition names (row : gmap string (any float64)) (indexName : string) : Prop :=
  row !! "index" = Some (AnyString indexName).

End WithFloat.

Arguments mkCatResponse {float64}.
Arguments StatusCode {float64}.
Arguments Status {float64}.
Arguments Body {float64}.
Arguments IsError {float64}.
Arguments delete_indices {float64}.
Arguments CleanIndices {float64}.
Arguments names {float64}.

(** The indices a run asked the cluster to delete, in order. *)
Definition deleted (events : list event) : list string :=
  omap (fun e => match e with IndicesDelete n => Some n | _ => None end) events.

Definition user_index (indexName : string) : bool :=
  negb (String.prefix "." indexName).

End ElasticClean.

(** [SharedMongoDB.CleanDatabase] *)
Module MongoClean.
Import Go Broker Debug.

(** The two databases the broker keeps beside its client. *)
Record Databases : Type := mkDatabases {
  database : option Handle;
  databaseDW : option Handle
}.

Inductive event : Type :=
| ListCollectionNames (db : Handle)
| Drop (db : Handle) (collection : string)
| Printf (l : line).

(** One loop over the collections of [db]. *)
Definition drop_all (env : environ) (drop : Handle -> string -> option error)
  (what : string) (db : Handle) (collections : list string) : list event :=
  flat_map (fun collection =>
              Drop db collection
              :: map Printf (warn env what collection (drop db collection)))
           collections.

Definition CleanDatabase (env : environ)
  (list_names : Handle -> error + list string)
  (drop : Handle -> string -> option error)
  (s : Shared) (dbs : Databases) : option error * list event :=
  match GetClient s with
  | None => (Some (errorString "mongodb client not available"), [])
  | Some _ =>
      let main :=
        match database dbs with
        | None => (None, [])
        | Some db =>
            match list_names db with
            | inl err =>
                (Some (Errorf_w "failed to list collections: " (Some err)),
                 [ListCollectionNames db])
            | inr collections =>
                (None,
                 ListCollectionNames db
                 :: drop_all env drop "Failed to drop collection" db collections)
            end
        end in
      match main with
      | (Some err, events) => (Some err, events)
      | (None, events) =>
          match databaseDW dbs with
          | None => (None, events)
          | Some db =>
              match list_names db with
              | inl err =>
                  (Some (Errorf_w "failed to list DW collections: " (Some err)),
                   events ++ [ListCollectionNames db])
              | inr collections =>
                  (None,
                   events ++ ListCollectionNames db
                   :: drop_all env drop "Failed to drop DW collection" db
                        collections)
              end
          end
      end
  end.

(** The collections of [db] a run asked to drop, in order. *)
Definition dropped (db : Handle) (events : list event) : list string :=
  omap (fun e => match e with
                 | Drop db' c => if Nat.eqb db db' then Some c else None
                 | _ => None
                 end) events.

End MongoClean.

(** [SharedPostgreSQL.CleanDatabase] and [executeInitialSQL] *)
Module PostgresClean.
Import Go Broker Debug.

Definition quote : string := String (Ascii.ascii_of_nat 34) EmptyString.

Inductive statement : Type :=
| SetReplica
| Truncate (table : string)
| SetDefault.

(** The text sent to the server. *)
Definition sql (st : statement) : string :=
  match st with
  | SetReplica => "SET session_replication_role = replica;"
  | Truncate table => "TRUNCATE TABLE " +:+ quote +:+ table +:+ quote +:+ " CASCADE"
  | SetDefault => "SET session_replication_role = DEFAULT;"
  end.

Inductive event : Type :=
| QueryTables
| Exec (st : statement)
| Printf (l : line).

(** The loop over [rows]: a row whose [Scan] fails is skipped. *)
Definition scan (rows : list (error + string)) : list string :=
  omap (fun row => match row with inr name => Some name | inl _ => None end) rows.

Definition truncate_all (env : environ) (exec : string -> option error)
  (tables : list string) : list event :=
  flat_map (fun table =>
              Exec (Truncate table)
              :: map Printf (warn env "Failed to truncate table" table
                               (exec (sql (Truncate table)))))
           tables.

Definition CleanDatabase (env : environ)
  (query : error + list (error + string)) (exec : string -> option error)
  (s : Shared) : option error * list event :=
  match GetClient s with
  | None => (Some (errorString "postgresql connection not available"), [])
  | Some _ =>
      match query with
      | inl err =>
          (Some (Errorf_w "failed to get table list: " (Some err)), [QueryTables])
      | inr rows =>
          let tables := scan rows in
          if (0 <? length tables)%nat then
            match exec (sql SetReplica) with
            | Some err =>
                (Some (Errorf_w "failed to disable foreign keys: " (Some err)),
                 [QueryTables; Exec SetReplica])
            | None =>
                (None,
                 [QueryTables; Exec SetReplica]
                 ++ truncate_all env exec tables
                 ++ Exec SetDefault
                    :: map Printf (warn env "Failed to re-enable foreign keys"
                                     EmptyString (exec (sql SetDefault))))
            end
          else (None, [QueryTables])
      end
  end.

(** The statements a run sent, in order. *)
Definition sent (events : list event) : list statement :=
  omap (fun e => match e with Exec st => Some st | _ => None end) events.

(** What [executeInitialSQL] does to the outside, file by file. *)
Inductive file_event : Type :=
| ReadFile (path : string)
| ExecScript (initSQL : string).

(** The loop of [executeInitialSQL] over [s.sqlFilePaths]. *)
Fixpoint run_files (ReadFile_ : string -> error + string)
  (Exec_ : string -> option error) (paths : list string)
  : option error * list file_event :=
  match paths with
  | [] => (None, [])
  | path :: rest =>
      match ReadFile_ path with
      | inl err =>
          (Some (Errorf_w ("failed to read SQL file " +:+ path +:+ ": ") (Some err)),
           [ReadFile path])
      | inr initSQL =>
          match Exec_ initSQL with
          | Some err =>
              (Some (Errorf_w ("failed to execute SQL from " +:+ path +:+ ": ")
                       (Some err)),
               [ReadFile path; ExecScript initSQL])
          | None =>
              let '(err, events) := run_files ReadFile_ Exec_ rest in
              (err, ReadFile path :: ExecScript initSQL :: events)
          end
      end
  end.

(** [executeInitialSQL] with the file system and the connection spelled
    out; the early return on an empty list is the empty loop. *)
Definition executeInitialSQL_files (ReadFile_ : string -> error + string)
  (Exec_ : string -> option error) (s : Shared)
  : option error * list file_event :=
  if bool_decide (length (sqlFilePaths s) = 0%nat) then (None, [])
  else run_files ReadFile_ Exec_ (sqlFilePaths s).

(** Scripts that are read and run without an error. *)
Definition runs (ReadFile_ : string -> error + string)
  (Exec_ : string -> option error) (path : string) : Prop :=
  exists initSQL, ReadFile_ path = inr initSQL /\ Exec_ initSQL = None.

(** A script that cannot be read, or that the server refuses. *)
Definition fails (ReadFile_ : string -> error + string)
  (Exec_ : string -> option error) (path : string) (cause : error) : Prop :=
  ReadFile_ path = inl cause \/
  exists initSQL, ReadFile_ path = inr initSQL /\ Exec_ initSQL = Some cause.

(** The files a run read, in order. *)
Definition files_read (events : list file_event) : list string :=
  omap (fun e => match e with ReadFile p => Some p | _ => None end) events.

End PostgresClean.

(* ===================================================================== *)
(** ** Concrete inputs                                                    *)
(* ===================================================================== *)

(** Inputs on which the statements below are run. *)
Module Samples.
Import Go Broker.

(** A conversion for responses whose numbers are integral. *)
Definition int_of_Z (z : Z) : Z := z.

(** [{"hits": {"total": {"value": 7}}}] and [{"hits": {"total": 3}}] *)
Definition response7 : Search.SearchResult Z :=
  Search.mkSearchResult
    (<["hits" := Search.AnyMap
         (<["total" := Search.AnyMap (<["value" := Search.AnyFloat64 7]> ∅)]> ∅)]> ∅).

Definition response6 : Search.SearchResult Z :=
  Search.mkSearchResult
    (<["hits" := Search.AnyMap (<["total" := Search.AnyFloat64 3]> ∅)]> ∅).

(** An entropy source that delivers, and one that fails. *)
Definition entropy : Reader :=
  mkReader [x01; xab; xff; x00; x10; x7f; x80; x9c]%byte None.

Definition no_entropy : Reader := mkReader [] (Some (errorString "EOF")).

(** A world in which every service comes up and answers its probes, run
    with container reuse switched off in the environment. *)
Definition world_no_reuse : World :=
  mkWorld (<["TEST_CONTAINER_REUSE" := "false"]> ∅)
          (fun _ _ => Up "http://127.0.0.1:9200")
          (fun _ => None) (fun _ _ _ => None) (fun _ _ => None).

(** A world without a container runtime. *)
Definition world_down : World :=
  mkWorld ∅ (fun _ _ => Down (errorString "Cannot connect to the Docker daemon"))
          (fun _ => None) (fun _ _ _ => None) (fun _ _ => None).

(** A world in which the first handle has died and a new service can be
    brought up. *)
Definition world_restarted : World :=
  mkWorld ∅ (fun _ _ => Up "mongodb://127.0.0.1:27017")
          (fun _ => None)
          (fun _ _ h => if (h =? 0)%nat
                        then Some (errorString "connection refused") else None)
          (fun _ _ => None).

(** A broker that was started once, on handle 0, and has one user; the
    same broker with no user left. *)
Definition running : Shared :=
  mkShared (Some 0%nat) (Some 0%nat) "mongodb://127.0.0.1:27017" 1 true true []
           1 0 [] [].

Definition idle : Shared := set_refCount 0 running.

(** A world in which MongoDB cannot be brought up and the rest can. *)
Definition world_no_mongo : World :=
  mkWorld ∅
          (fun k _ => match k with
                      | MongoDB => Down (errorString "failed to start mongodb container: no runtime")
                      | _ => Up "http://127.0.0.1:9200"
                      end)
          (fun _ => None) (fun _ _ _ => None) (fun _ _ => None).

(** A world in which the Elasticsearch container comes up but its client
    gets no answer from it, and the rest comes up. *)
Definition world_broken_client : World :=
  mkWorld ∅
          (fun k _ => match k with
                      | Elasticsearch => Broken "http://127.0.0.1:9200" (errorString "EOF")
                      | _ => Up "mongodb://127.0.0.1:27017"
                      end)
          (fun _ => None) (fun _ _ _ => None) (fun _ _ => None).

(** A process holding one builder, configured with
    [NewTestDependenciesBuilder().WithMongo().WithElasticsearch()], before
    any broker exists; the same process after a first [Build] in a world
    where everything comes up. *)
Definition fresh_process : Builder.Process :=
  Builder.mkProcess
    [Builder.WithElasticsearch (Builder.WithMongo Builder.NewTestDependenciesBuilder)]
    (Builder.mkGlobals zero zero zero).

Definition built_process : Builder.Process :=
  match Builder.Build world_no_reuse Builder.all_kinds 0 fresh_process with
  | Some (p, _, _) => p
  | None => fresh_process
  end.

(** An order in which the goroutines of [Build] may run. *)
Definition some_order : list Kind := [Elasticsearch; PostgreSQL; MongoDB].

(** A world in which PostgreSQL comes up and refuses the initial script. *)
Definition world_bad_script : World :=
  mkWorld ∅ (fun _ _ => Up "host=127.0.0.1 port=5432")
          (fun _ => Some (errorString "pq: syntax error at or near CREAT"))
          (fun _ _ _ => None) (fun _ _ => None).

(** A history of one broker: two tests acquire it, one releases it. *)
Definition two_in_one_out : list Lifecycle.call :=
  [Lifecycle.Acquire []; Lifecycle.Acquire []; Lifecycle.Release].

(** A broker whose one attempt failed for want of a container runtime. *)
Definition spent_broker : Shared := (Start world_down Elasticsearch [] zero).1.

(** The schedule of two goroutines used for the races. *)
Definition two_goroutines : list nat := [0; 1; 1; 0; 0; 1; 1; 0]%nat.

(** The process of [fresh_process] after one [Build] that failed for
    want of MongoDB, and after a second one. *)
Definition failed_once : Builder.Process :=
  match Builder.Build world_no_mongo some_order 0 fresh_process with
  | Some (p, _, _) => p
  | None => fresh_process
  end.

Definition failed_twice : Builder.Process :=
  match Builder.Build world_no_mongo some_order 0 failed_once with
  | Some (p, _, _) => p
  | None => failed_once
  end.

(** Two documents of one tenant, and a search response with three hits,
    the second of which carries no document. *)
Definition laptop : gmap string (Search.any Z) :=
  <["id" := Search.AnyString "p1"]>
    (<["name" := Search.AnyString "Laptop"]>
       (<["price" := Search.AnyFloat64 1500]>
          (<["category" := Search.AnyString "electronics"]>
             (<["tenant_id" := Search.AnyString "test_a"]> ∅)))).

Definition cable : gmap string (Search.any Z) :=
  <["id" := Search.AnyString "p2"]>
    (<["name" := Search.AnyString "Cable"]>
       (<["price" := Search.AnyFloat64 9]>
          (<["category" := Search.AnyString "electronics"]>
             (<["tenant_id" := Search.AnyString "test_a"]> ∅)))).

Definition hit (source : gmap string (Search.any Z)) : Search.any Z :=
  Search.AnyMap (<["_source" := Search.AnyMap source]> ∅).

Definition three_hits : list (Search.any Z) :=
  [hit laptop; Search.AnyString "shard failure"; hit cable].

Definition hits_object : gmap string (Search.any Z) :=
  <["hits" := Search.AnySlice three_hits]> ∅.

Definition found : gmap string (Search.any Z) :=
  <["hits" := Search.AnyMap hits_object]> ∅.

Definition response_hits : Search.SearchResult Z := Search.mkSearchResult found.

(** A JSON codec for products over decoded values: [Marshal] keeps the
    value, [Unmarshal] reads the fields of [Product] by their tags. *)
Definition text_field (m : gmap string (Search.any Z)) (tag : string) : string :=
  match m !! tag with
  | Some (Search.AnyString s) => s
  | _ => EmptyString
  end.

Definition Marshal (v : Search.any Z) : error + Search.any Z := inr v.

Definition Unmarshal (v : Search.any Z) : error + Product.Product Z :=
  match v with
  | Search.AnyMap m =>
      inr (Product.mkProduct (text_field m "id") (text_field m "name")
             (text_field m "description")
             (match m !! "price" with Some (Search.AnyFloat64 z) => z | _ => 0 end)
             (text_field m "category") (text_field m "tenant_id"))
  | _ => inl (errorString "json: cannot unmarshal into Go value of type Product")
  end.

Definition Laptop : Product.Product Z :=
  Product.mkProduct "p1" "Laptop" EmptyString 1500 "electronics" "test_a".

Definition Cable : Product.Product Z :=
  Product.mkProduct "p2" "Cable" EmptyString 9 "electronics" "test_a".

(** The answers of the cluster to a get of [p1] and to a search. *)
Definition got_laptop : error + Product.Response Z :=
  inr (Product.mkResponse 200 "200 OK" (inr (<["_source" := Search.AnyMap laptop]> ∅))).

Definition search_answer : Product.Response Z :=
  Product.mkResponse 200 "200 OK" (inr found).

(** A repository that holds the two products of tenant [test_a]. *)
Definition stocked : Product.Repository Z :=
  Product.mkRepository (fun _ => None) (fun _ _ => (None, None))
    (fun _ _ => ([Laptop; Cable], None)).

(** The listing of a cluster holding a system index and a user index, and
    the same listing with a row that names nothing in between. *)
Definition row (indexName : string) : gmap string (Search.any Z) :=
  <["index" := Search.AnyString indexName]> ∅.

Definition listing : ElasticClean.CatResponse Z :=
  ElasticClean.mkCatResponse 200 "200 OK" (inr [row ".kibana_1"; row "products"]).

Definition broken_listing : ElasticClean.CatResponse Z :=
  ElasticClean.mkCatResponse 200 "200 OK"
    (inr ([row "orders"] ++ (∅ : gmap string (Search.any Z)) :: [row "products"])).

(** A cluster that refuses every delete. *)
Definition refuse (indexName : string) : option error :=
  Some (errorString "index_not_found_exception").

(** The two databases of a MongoDB broker; a server on which the DW
    database cannot be listed, and one on which both can. *)
Definition both_databases : MongoClean.Databases :=
  MongoClean.mkDatabases (Some 1%nat) (Some 2%nat).

Definition no_DW_listing (db : Handle) : error + list string :=
  if (db =? 1)%nat then inr ["surveys"; "tickets"]
  else inl (errorString "not authorized on testdb_dw").

Definition both_listings (db : Handle) : error + list string :=
  if (db =? 1)%nat then inr ["surveys"; "tickets"] else inr ["facts"].

(** The rows of [pg_tables], one of which cannot be scanned. *)
Definition table_rows : list (error + string) :=
  [inr "users"; inl (errorString "sql: Scan error"); inr "orders"].

(** A PostgreSQL broker asked to run three scripts, on a file system
    where the second one is missing. *)
Definition three_scripts : Shared :=
  set_sqlFilePaths ["schema.sql"; "seed.sql"; "views.sql"] running.

Definition read_script (path : string) : error + string :=
  if String.eqb path "seed.sql"
  then inl (errorString "open seed.sql: no such file or directory")
  else inr ("-- " +:+ path).

(** A server that accepts the role switches and refuses every other
    statement, and one that runs every script. *)
Definition accept_role_switch (statement : string) : option error :=
  if String.prefix "SET" statement then None
  else Some (errorString "pq: permission denied").

Definition run_script (initSQL : string) : option error := None.

End Samples.

(* ===================================================================== *)
(** * Properties                                                          *)
(* ===================================================================== *)

Module GoFacts.
Import Go.

Lemma wrap32_range (z : Z) : is_int32 (wrap32 z).
Proof.
  unfold is_int32, wrap32.
  pose proof (Z.mod_pos_bound (z + 2 ^ 31) (2 ^ 32) ltac:(lia)). lia.
Qed.

Lemma wrap32_id (z : Z) : is_int32 z -> wrap32 z = z.
Proof.
  unfold is_int32, wrap32. intros Hz.
  rewrite Z.mod_small by lia. lia.
Qed.

Lemma wrap32_add_l (a b : Z) : wrap32 (wrap32 a + b) = wrap32 (a + b).
Proof.
  unfold wrap32. f_equal.
  replace ((a + 2 ^ 31) mod 2 ^ 32 - 2 ^ 31 + b + 2 ^ 31)
    with ((a + 2 ^ 31) mod 2 ^ 32 + b) by lia.
  rewrite Zplus_mod_idemp_l. f_equal. lia.
Qed.

Lemma AddInt32_range (r d : Z) : is_int32 (AddInt32 r d).
Proof. apply wrap32_range. Qed.

Lemma AddInt32_inverse (r : Z) : is_int32 r -> AddInt32 (AddInt32 r 1) (-1) = r.
Proof.
  intros Hr. unfold AddInt32. rewrite wrap32_add_l.
  replace (r + 1 + -1) with r by lia. by apply wrap32_id.
Qed.

(** Every byte survives encoding and decoding. *)
Lemma decode_encode_byte (v : byte) :
  (hi ← fromHexChar (hextable (N.shiftr (Byte.to_N v) 4));
   lo ← fromHexChar (hextable (N.land (Byte.to_N v) 15));
   Byte.of_N (N.shiftl hi 4 + lo)) = Some v.
Proof. destruct v; vm_compute; reflexivity. Qed.

Lemma DecodeString_EncodeToString (src : list byte) :
  DecodeString (EncodeToString src) = Some src.
Proof.
  induction src as [|v src IH]; [done|].
  cbn [EncodeToString DecodeString].
  pose proof (decode_encode_byte v) as Hv.
  destruct (fromHexChar (hextable (N.shiftr (to_N v) 4))) as [hi|]; [|done].
  destruct (fromHexChar (hextable (N.land (to_N v) 15))) as [lo|]; [|done].
  cbn in *. rewrite Hv. cbn. rewrite IH. done.
Qed.

Lemma EncodeToString_inj (a b : list byte) :
  EncodeToString a = EncodeToString b -> a = b.
Proof.
  intros H. apply (f_equal DecodeString) in H.
  rewrite !DecodeString_EncodeToString in H. congruence.
Qed.

Lemma EncodeToString_length (src : list byte) :
  String.length (EncodeToString src) = (2 * length src)%nat.
Proof.
  induction src as [|v src IH]; cbn [EncodeToString String.length length]; lia.
Qed.

Lemma Read_length (r : Reader) (b : list byte) : length (Read r b).1.1 = length b.
Proof.
  unfold Read. cbn. rewrite length_app, length_take, length_drop. lia.
Qed.

Lemma Read_full (r : Reader) (b : list byte) :
  (length b <= length (reader_data r))%nat ->
  (Read r b).1.1 = take (length b) (reader_data r).
Proof.
  intros Hlen. unfold Read. cbn.
  rewrite Nat.min_r by lia. rewrite drop_all. by rewrite app_nil_r.
Qed.

End GoFacts.

Module SearchFacts.
Import Search Samples.

Section WithFloat.
Context {float64 : Type} (int : float64 -> Z).

(** C10.  [TotalHits] is defined on every decoded response: it is the
    converted [hits.total.value] when the response has the 7.x shape, the
    converted [hits.total] when it has the 6.x shape, and 0 when it has
    neither (a key is missing or holds a value of another type). *)
Theorem TotalHits_by_shape (r : SearchResult float64) :
  (forall v, shape7 r v -> TotalHits int r = int v) /\
  (forall v, shape6 r v -> TotalHits int r = int v) /\
  ((forall v, ~ shape7 r v) -> (forall v, ~ shape6 r v) -> TotalHits int r = 0).
Proof.
  unfold TotalHits, shape7, shape6, index. repeat split.
  - intros v (hits & total & Hh & Ht & Hv).
    rewrite Hh. cbn. rewrite Ht. cbn. by rewrite Hv.
  - intros v (hits & Hh & Ht).
    rewrite Hh. cbn. by rewrite Ht.
  - intros H7 H6.
    destruct (response r !! "hits") as [[| | | | |hits]|] eqn:Hh; cbn; try done.
    destruct (hits !! "total") as [[| |f| | |total]|] eqn:Ht; cbn; try done.
    + exfalso. apply (H6 f). by exists hits.
    + destruct (total !! "value") as [[| |f| | |]|] eqn:Hv; cbn; try done.
      exfalso. apply (H7 f). by exists hits, total.
Qed.

End WithFloat.

Lemma TotalHits_by_shape_witness :
  TotalHits int_of_Z response7 = 7 /\ TotalHits int_of_Z response6 = 3.
Proof.
  split.
  - apply (proj1 (TotalHits_by_shape int_of_Z response7) 7).
    eexists _, _. repeat split; reflexivity.
  - apply (proj1 (proj2 (TotalHits_by_shape int_of_Z response6)) 3).
    eexists. repeat split; reflexivity.
Defined.

(** The two shapes exclude each other, so the three cases above do not
    overlap. *)
Lemma shapes_disjoint {float64 : Type} (r : SearchResult float64) (v v' : float64) :
  shape7 r v -> shape6 r v' -> False.
Proof.
  intros (h & t & Hh & Ht & _) (h' & Hh' & Ht'). congruence.
Qed.

End SearchFacts.

Module TenantFacts.
Import Go Tenant GoFacts Samples.

(** With a working entropy source the token spells out the first 8 bytes
    it delivered. *)
Lemma GenerateTenantID_entropy (rand : Reader) (now_UnixNano : Z) :
  reader_err rand = None -> (8 <= length (reader_data rand))%nat ->
  GenerateTenantID rand now_UnixNano
  = "test_" +:+ EncodeToString (take 8 (reader_data rand)).
Proof.
  intros Herr Hlen. unfold GenerateTenantID.
  pose proof (Read_full rand (make_bytes 8) Hlen) as Hfull.
  destruct (Read rand (make_bytes 8)) as [[bytes n] err] eqn:HR.
  assert (err = reader_err rand) as -> by (unfold Read in HR; congruence).
  rewrite Herr. cbn in Hfull. by rewrite Hfull.
Qed.

(** C8.  [GenerateTenantID] returns a token whatever the entropy source
    does: when [rand.Read] reports no error the token is ["test_"] followed
    by the hexadecimal form of the 8 bytes it filled (21 characters), and
    when it reports an error the token is ["test_"] followed by the decimal
    [UnixNano] timestamp. *)
Theorem GenerateTenantID_total (rand : Reader) (now_UnixNano : Z) :
  (reader_err rand = None ->
     exists bytes : list byte,
       length bytes = 8%nat /\
       ((8 <= length (reader_data rand))%nat -> bytes = take 8 (reader_data rand)) /\
       GenerateTenantID rand now_UnixNano = "test_" +:+ EncodeToString bytes /\
       String.length (GenerateTenantID rand now_UnixNano) = 21%nat) /\
  (forall e, reader_err rand = Some e ->
     GenerateTenantID rand now_UnixNano = "test_" +:+ FormatInt now_UnixNano).
Proof.
  unfold GenerateTenantID.
  pose proof (Read_length rand (make_bytes 8)) as Hlen.
  pose proof (Read_full rand (make_bytes 8)) as Hfull.
  destruct (Read rand (make_bytes 8)) as [[bytes n] err] eqn:HR.
  assert (err = reader_err rand) as -> by (unfold Read in HR; congruence).
  cbn in Hlen, Hfull. split.
  - intros ->. exists bytes. repeat split; try done.
    change (String.length ("test_" +:+ EncodeToString bytes))
      with (5 + String.length (EncodeToString bytes))%nat.
    rewrite EncodeToString_length, Hlen. reflexivity.
  - intros e ->. done.
Qed.

Lemma GenerateTenantID_total_witness :
  GenerateTenantID entropy 17 = "test_01abff00107f809c" /\
  GenerateTenantID no_entropy 1700000000123456789 = "test_1700000000123456789".
Proof.
  split.
  - destruct (proj1 (GenerateTenantID_total entropy 17) eq_refl)
      as (bytes & _ & Hb & -> & _).
    rewrite (Hb ltac:(cbn; lia)). reflexivity.
  - exact (proj2 (GenerateTenantID_total no_entropy 1700000000123456789)
             (errorString "EOF") eq_refl).
Defined.

(** X26.  Tenant tokens minted from entropy are injective in the random
    bytes: two tokens are equal only if the 8 bytes read were equal. *)
Lemma GenerateTenantID_fresh (r1 r2 : Reader) (t1 t2 : Z) :
  reader_err r1 = None -> reader_err r2 = None ->
  (8 <= length (reader_data r1))%nat -> (8 <= length (reader_data r2))%nat ->
  GenerateTenantID r1 t1 = GenerateTenantID r2 t2 ->
  take 8 (reader_data r1) = take 8 (reader_data r2).
Proof.
  intros E1 E2 L1 L2.
  rewrite (GenerateTenantID_entropy r1 t1 E1 L1), (GenerateTenantID_entropy r2 t2 E2 L2).
  cbn. intros [= H]. by apply EncodeToString_inj.
Qed.

Lemma GenerateTenantID_fresh_witness :
  take 8 (reader_data entropy) = take 8 (reader_data entropy).
Proof.
  assert (8 <= length (reader_data entropy))%nat as Hlen by (cbn; lia).
  assert (GenerateTenantID entropy 17 = GenerateTenantID entropy 18) as Hsame
    by (vm_compute; reflexivity).
  exact (GenerateTenantID_fresh entropy entropy 17 18 eq_refl eq_refl Hlen Hlen Hsame).
Defined.

End TenantFacts.

Module SuiteFacts.
Import Go Broker Suite.

(** C9, as the code has it.  [WaitForIndexing] of
    [integration_test_base.go] returns before it does anything: no refresh
    request leaves the process, whatever the suite holds.  The same helper
    in the builder-integrated suite does send the refresh of [_all] as
    soon as the suite has a broker and the broker has a client. *)
Theorem WaitForIndexing_returns_at_once (resp : refresh_response)
  (s : IntegrationTestSuite) :
  WaitForIndexing resp s = [] /\
  (forall broker h, sharedES s = Some broker -> client broker = Some h ->
     exists rest, WaitForIndexing_builder_suite resp s = IndicesRefresh "_all" :: rest).
Proof.
  split; [done|]. intros broker h Hb Hh.
  unfold WaitForIndexing_builder_suite, refresh_and_wait, RefreshIndices, GetClient.
  rewrite Hb, Hh.
  destruct resp; eexists; reflexivity.
Qed.

End SuiteFacts.

Module BrokerFacts.
Import Go Broker GoFacts Samples.

Lemma shouldReuseContainer_always (w : World) : shouldReuseContainer w = true.
Proof.
  unfold shouldReuseContainer.
  destruct (ParseBool _) as [reuse err]. apply orb_true_r.
Qed.

(** Unfolds one call of the broker down to the answers of the world. *)
Ltac unfold_broker :=
  unfold Start, Start_exclusive, Start_provision, with_paths, startOnce_Do,
    startContainer, setupExternal,
    setupTestcontainer, executeInitialSQL, testConnection, Stop, stopContainer,
    addRef, reusable in *.

Ltac split_cases :=
  repeat (cbn in *; simplify_eq;
          match goal with
          | |- context [match ?x with _ => _ end] => destruct x eqn:?
          | H : context [match ?x with _ => _ end] |- _ => destruct x eqn:?
          end);
  cbn in *; simplify_eq.

Lemma stopContainer_spec (w : World) (k : Kind) (s : Shared) :
  (stopContainer w k s).2 = None /\
  terminated (stopContainer w k s).1 = terminated s /\
  refCount (stopContainer w k s).1 = refCount s /\
  container (stopContainer w k s).1 = container s.
Proof.
  unfold stopContainer. rewrite shouldReuseContainer_always.
  destruct k, (client s); cbn; destruct (container s) eqn:Hc; cbn; rewrite ?Hc; done.
Qed.

Lemma Stop_spec (w : World) (k : Kind) (s : Shared) :
  (Stop w k s).2 = None /\
  refCount (Stop w k s).1 = AddInt32 (refCount s) (-1) /\
  terminated (Stop w k s).1 = terminated s /\
  container (Stop w k s).1 = container s.
Proof.
  unfold Stop.
  destruct (refCount (addRef (-1) s) <=? 0); [|done].
  destruct (stopContainer_spec w k (addRef (-1) s)) as (-> & -> & -> & ->). done.
Qed.

Lemma Start_spec (w : World) (k : Kind) (paths : list string) (s : Shared) :
  refCount (Start w k paths s).1 =
    (if (Start w k paths s).2 is Returns None
     then AddInt32 (refCount s) 1 else refCount s) /\
  terminated (Start w k paths s).1 = terminated s.
Proof.
  unfold_broker. split_cases; done.
Qed.


Lemma Start_n_counts (w : World) (k : Kind) (paths : list string) (K : nat) (s : Shared) :
  is_int32 (refCount s) ->
  Forall (fun e => e = Returns None) (Start_n w k paths K s).2 ->
  refCount (Start_n w k paths K s).1 = wrap32 (refCount s + Z.of_nat K) /\
  terminated (Start_n w k paths K s).1 = terminated s.
Proof.
  revert s. induction K as [|K IH]; intros s Hr Hall; cbn in *.
  - rewrite Z.add_0_r. by rewrite wrap32_id.
  - destruct (Start_spec w k paths s) as [Hc Ht].
    destruct (Start w k paths s) as [s1 [e1|v]]; cbn in *;
      [|by apply Forall_cons in Hall as [? _]].
    specialize (IH s1).
    destruct (Start_n w k paths K s1) as [s2 errs]; cbn in *.
    apply Forall_cons in Hall as [[= ->] Hall].
    destruct IH as [IH1 IH2]; [rewrite Hc; apply AddInt32_range|done|].
    rewrite IH1, IH2, Ht, Hc. split; [|done].
    unfold AddInt32. rewrite wrap32_add_l. f_equal. lia.
Qed.

Lemma Stop_n_counts (w : World) (k : Kind) (K : nat) (s : Shared) :
  is_int32 (refCount s) ->
  refCount (Stop_n w k K s).1 = wrap32 (refCount s - Z.of_nat K) /\
  terminated (Stop_n w k K s).1 = terminated s /\
  Forall (fun e => e = None) (Stop_n w k K s).2.
Proof.
  revert s. induction K as [|K IH]; intros s Hr; cbn in *.
  - rewrite Z.sub_0_r. by rewrite wrap32_id.
  - destruct (Stop_spec w k s) as (He & Hc & Ht & _).
    destruct (Stop w k s) as [s1 e1]; cbn in *.
    specialize (IH s1).
    destruct (Stop_n w k K s1) as [s2 errs]; cbn in *.
    destruct IH as (IH1 & IH2 & IH3); [rewrite Hc; apply AddInt32_range|].
    rewrite IH1, IH2, Ht, Hc, He. repeat split; [|by constructor].
    unfold AddInt32. rewrite <- Z.add_opp_r, wrap32_add_l. f_equal. lia.
Qed.

(** C2, as the code has it.  After K acquires that all succeeded and K
    releases, [refCount] is back at its value before the first acquire, and
    every release returned nil; but no container is ever terminated on the
    way, whatever the environment says about reuse: this holds in every
    world, among them those with [TEST_CONTAINER_REUSE=false] in which the
    count comes back to zero. *)
Theorem matched_releases_never_terminate (w : World) (k : Kind)
  (paths : list string) (K : nat) (s : Shared) :
  is_int32 (refCount s) ->
  Forall (fun e => e = Returns None) (Start_n w k paths K s).2 ->
  let s1 := (Start_n w k paths K s).1 in
  let s2 := (Stop_n w k K s1).1 in
  refCount s2 = refCount s /\
  terminated s2 = terminated s /\
  Forall (fun e => e = None) (Stop_n w k K s1).2.
Proof.
  intros Hr Hall s1 s2.
  destruct (Start_n_counts w k paths K s Hr Hall) as [H1 H2].
  destruct (Stop_n_counts w k K s1) as (H3 & H4 & H5).
  { subst s1. rewrite H1. apply wrap32_range. }
  subst s1 s2. rewrite H3, H4, H1, H2. repeat split; [|done].
  rewrite <- Z.add_opp_r, wrap32_add_l.
  replace (refCount s + Z.of_nat K + - Z.of_nat K) with (refCount s) by lia.
  by apply wrap32_id.
Qed.

(** C7, amended.  [Stop] on a broker whose count is 0 or below, that is a
    release that no acquire matches, is not rejected: the count is
    decremented like on any other release and becomes negative, and
    since it is not above zero the teardown is entered: what [Stop]
    does and returns is what [stopContainer] does and returns on the
    broker with the decremented count, which for the MongoDB and
    PostgreSQL brokers closes the client when there is one. *)
Theorem Stop_without_acquire (w : World) (k : Kind) (s : Shared) :
  - 2 ^ 31 < refCount s <= 0 ->
  refCount (Stop w k s).1 = refCount s - 1 /\
  refCount (Stop w k s).1 < 0 /\
  Stop w k s = stopContainer w k (set_refCount (refCount s - 1) s) /\
  closed (Stop w k s).1 =
    match k, client s with
    | Elasticsearch, _ | _, None => closed s
    | _, Some h => h :: closed s
    end.
Proof.
  intros Hr.
  assert (Stop w k s = stopContainer w k (set_refCount (refCount s - 1) s)) as ->.
  { unfold Stop, addRef, AddInt32.
    rewrite wrap32_id by (unfold is_int32; lia). cbn [refCount set_refCount].
    replace (refCount s + -1) with (refCount s - 1) by lia.
    destruct (Z.leb_spec (refCount s - 1) 0); [done|lia]. }
  assert (refCount (stopContainer w k (set_refCount (refCount s - 1) s)).1
          = refCount s - 1) as Hc.
  { unfold stopContainer. cbn -[shouldReuseContainer].
    destruct k, (client s); cbn -[shouldReuseContainer];
      destruct (container s); cbn -[shouldReuseContainer];
      destruct (shouldReuseContainer w); done. }
  rewrite Hc. split; [done|]. split; [lia|]. split; [done|].
  unfold stopContainer. cbn -[shouldReuseContainer].
  destruct k, (client s); cbn -[shouldReuseContainer];
    destruct (container s); cbn -[shouldReuseContainer];
    destruct (shouldReuseContainer w); done.
Qed.

Lemma startContainer_frame (w : World) (k : Kind) (s : Shared) :
  let s' := (startContainer w k s).1 in
  started s' = started s /\ startOnce s' = startOnce s /\
  refCount s' = refCount s /\ terminated s' = terminated s /\
  closed s' = closed s /\ probes s' = probes s /\
  sqlFilePaths s' = sqlFilePaths s /\ attempts s' = S (attempts s).
Proof.
  unfold startContainer, setupExternal, setupTestcontainer.
  destruct (ParseBool _) as [[] ?]; destruct (provision w k (attempts s));
    destruct k; cbn; try done.
  all: destruct (executeInitialSQL _ _); cbn; done.
Qed.

(** Only the Elasticsearch broker panics, and only on a container whose
    client cannot be built or does not answer. *)
Lemma startContainer_panics (w : World) (k : Kind) (s : Shared) (v : error) :
  (startContainer w k s).2 = Panics v ->
  k = Elasticsearch /\ exists address, provision w k (attempts s) = Broken address v.
Proof.
  unfold startContainer, setupExternal, setupTestcontainer.
  destruct (ParseBool _) as [[] ?]; cbn;
    destruct (provision w k (attempts s)) as [a|e|a e] eqn:Hp;
    destruct k; cbn; try done;
    try (destruct (executeInitialSQL _ _); cbn; done).
  intros [= ->]. split; [done|by exists a].
Qed.

(** [Start] on a broker whose [started] flag is down: the fast path and
    the double-check are skipped, and everything hangs on the [sync.Once]. *)
Lemma Start_provision_spec (w : World) (k : Kind) (paths : list string) (s : Shared) :
  started s = false ->
  Start_provision w k paths s =
    if startOnce s
    then (with_paths k paths s, Returns (Some (Errorf_w (not_started_prefix k) None)))
    else
      let r := startContainer w k (with_paths k paths s) in
      match r.2 with
      | Returns None =>
          (addRef 1 (set_startOnce true (set_started true r.1)), Returns None)
      | Returns (Some e) =>
          (set_startOnce true r.1,
           Returns (Some (Errorf_w (not_started_prefix k) (Some e))))
      | Panics v => (set_startOnce true r.1, Panics v)
      end.
Proof.
  intros Hs. unfold Start_provision.
  assert (started (with_paths k paths s) = false) as Hs'
    by (destruct k; cbn; done).
  assert (startOnce (with_paths k paths s) = startOnce s) as Ho'
    by (destruct k; cbn; done).
  unfold startOnce_Do. rewrite Ho'.
  destruct (startOnce s); [by rewrite Hs'|].
  destruct (startContainer_frame w k (with_paths k paths s)) as (Hf & _).
  destruct (startContainer w k (with_paths k paths s)) as [s1 [[e|]|v]]; cbn in *.
  - by rewrite Hf, Hs'.
  - done.
  - done.
Qed.

Lemma Start_not_started (w : World) (k : Kind) (paths : list string) (s : Shared) :
  started s = false ->
  Start w k paths s = Start_provision w k paths s.
Proof.
  intros Hs. unfold Start, Start_exclusive, reusable. by rewrite Hs.
Qed.

(** [Start] on a started broker whose handle answers neither the probe of
    the fast path nor the double-check. *)
Lemma Start_dead_handle (w : World) (k : Kind) (paths : list string) (s : Shared)
  (h : Handle) :
  started s = true -> client s = Some h ->
  probe w k (probes s) h <> None -> probe w k (S (probes s)) h <> None ->
  Start w k paths s =
    Start_provision w k paths
      (set_startOnce false (set_started false (set_probes (S (S (probes s))) s))).
Proof.
  intros Hs Hc H1 H2.
  unfold Start, Start_exclusive, reusable, testConnection. rewrite Hs, Hc. cbn.
  destruct (probe w k (probes s) h); [|done]. cbn. rewrite Hs, Hc. cbn.
  destruct (probe w k (S (probes s)) h); [|done]. done.
Qed.

(** C5, as the code has it.  Once an acquire on a broker that is not
    started has failed, the next acquire goes through the exclusive section
    without calling [startContainer] (the [sync.Once] is used up): the
    number of attempts stays where it was, the broker stays not started,
    and the error returned wraps nothing, so it carries no cause. *)
Theorem Start_after_failed_Start (w : World) (k : Kind) (paths paths' : list string)
  (s : Shared) (err1 : error) :
  started s = false -> startOnce s = false ->
  (Start w k paths s).2 = Returns (Some err1) ->
  let s1 := (Start w k paths s).1 in
  attempts s1 = S (attempts s) /\
  attempts (Start w k paths' s1).1 = attempts s1 /\
  started (Start w k paths' s1).1 = false /\
  (Start w k paths' s1).2 =
    Returns (Some (errorString (not_started_prefix k +:+ "%!w(<nil>)"))) /\
  Unwrap (errorString (not_started_prefix k +:+ "%!w(<nil>)")) = None.
Proof.
  intros Hs Ho.
  rewrite (Start_not_started w k paths s Hs), (Start_provision_spec w k paths s Hs), Ho.
  destruct (startContainer_frame w k (with_paths k paths s))
    as (Hf1 & Hf2 & _ & _ & _ & _ & _ & Hf3).
  destruct (startContainer w k (with_paths k paths s)) as [s1 [[e|]|v]];
    cbn in *; [|done|done].
  intros _.
  assert (attempts (with_paths k paths s) = attempts s /\
          started (with_paths k paths s) = false) as [Ha Hb]
    by (destruct k; cbn; done).
  rewrite Start_not_started, Start_provision_spec by (cbn; congruence). cbn.
  repeat split; try congruence.
  - destruct k; cbn; done.
  - destruct k; cbn; congruence.
Qed.

(** A failed first acquire does carry the cause. *)
Lemma failed_Start_carries_cause (w : World) (k : Kind) (paths : list string)
  (s : Shared) (cause : error) :
  started s = false -> startOnce s = false ->
  (startContainer w k (with_paths k paths s)).2 = Returns (Some cause) ->
  (Start w k paths s).2 =
    Returns (Some (wrapError (not_started_prefix k +:+ Error cause) cause)) /\
  started (Start w k paths s).1 = false.
Proof.
  intros Hs Ho Hc.
  rewrite (Start_not_started w k paths s Hs), (Start_provision_spec w k paths s Hs), Ho.
  cbn.
  destruct (startContainer_frame w k (with_paths k paths s)) as (Hf1 & _).
  rewrite Hc. cbn. split; [done|].
  rewrite Hf1. destruct k; cbn; done.
Qed.

(** C6.  When the broker is started and its handle answers no probe, and
    the service can be brought up again, [Start] calls [startContainer]
    once more, installs the handle of that new attempt, which is not the
    stale one, and returns nil with the broker started and one more
    reference counted. *)
Theorem Start_reprovisions_dead_handle (w : World) (k : Kind) (paths : list string)
  (s : Shared) (h : Handle) (address : string) :
  started s = true -> client s = Some h -> (h < attempts s)%nat ->
  (forall n, probe w k n h <> None) ->
  provision w k (attempts s) = Up address ->
  (k = PostgreSQL -> initial_sql w paths = None) ->
  (Start w k paths s).2 = Returns None /\
  attempts (Start w k paths s).1 = S (attempts s) /\
  client (Start w k paths s).1 = Some (attempts s) /\
  attempts s <> h /\
  started (Start w k paths s).1 = true /\
  refCount (Start w k paths s).1 = AddInt32 (refCount s) 1.
Proof.
  intros Hs Hc Hlt Hdead Hup Hsql.
  rewrite (Start_dead_handle w k paths s h) by done.
  rewrite Start_provision_spec by done. cbn.
  set (s0 := set_startOnce _ _).
  assert ((startContainer w k (with_paths k paths s0)).2 = Returns None /\
          client (startContainer w k (with_paths k paths s0)).1 = Some (attempts s))
    as [He Hcl].
  { unfold startContainer, setupExternal, setupTestcontainer, executeInitialSQL.
    assert (attempts (with_paths k paths s0) = attempts s) as ->
      by (destruct k; done).
    rewrite Hup.
    destruct (ParseBool _) as [[] ?]; destruct k; cbn; try done.
    all: rewrite (Hsql eq_refl); by destruct (bool_decide _). }
  destruct (startContainer_frame w k (with_paths k paths s0))
    as (_ & _ & Hr & _ & _ & _ & _ & Ha).
  rewrite He. cbn. rewrite Hcl, Ha, Hr.
  repeat split; try done; try lia.
  all: destruct k; done.
Qed.

Lemma startContainer_up (w : World) (k : Kind) (paths : list string) (s : Shared)
  (address : string) :
  provision w k (attempts s) = Up address ->
  (k = PostgreSQL -> initial_sql w paths = None) ->
  (startContainer w k (with_paths k paths s)).2 = Returns None /\
  client (startContainer w k (with_paths k paths s)).1 = Some (attempts s).
Proof.
  intros Hup Hsql.
  unfold startContainer, setupExternal, setupTestcontainer, executeInitialSQL.
  assert (attempts (with_paths k paths s) = attempts s) as ->
    by (destruct k; done).
  rewrite Hup.
  destruct (ParseBool _) as [[] ?]; destruct k; cbn; try done.
  all: rewrite (Hsql eq_refl); by destruct (bool_decide _).
Qed.

Lemma matched_releases_never_terminate_witness :
  ParseBool (Getenv (env world_no_reuse) "TEST_CONTAINER_REUSE") = (false, None) /\
  let s1 := (Start_n world_no_reuse Elasticsearch [] 1 zero).1 in
  let s2 := (Stop_n world_no_reuse Elasticsearch 1 s1).1 in
  container s2 = Some 0%nat /\ refCount s1 = 1 /\ refCount s2 = 0 /\
  terminated s2 = [].
Proof.
  split; [reflexivity|].
  assert (is_int32 (refCount zero)) as Hcount by (unfold is_int32; cbn; lia).
  assert (Forall (fun e => e = Returns None)
            (Start_n world_no_reuse Elasticsearch [] 1 zero).2) as Hok
    by repeat constructor.
  destruct (matched_releases_never_terminate world_no_reuse Elasticsearch [] 1 zero
              Hcount Hok) as (H1 & H2 & _).
  exact (conj eq_refl (conj eq_refl (conj H1 H2))).
Defined.

(** C7, as stated, fails on the zero-valued broker: the release is
    accepted and the count becomes negative. *)
Lemma Stop_unmatched_goes_negative :
  (Stop world_no_reuse Elasticsearch zero).2 = None /\
  refCount (Stop world_no_reuse Elasticsearch zero).1 = -1.
Proof. split; reflexivity. Qed.

Lemma Stop_without_acquire_witness :
  refCount (Stop world_restarted MongoDB idle).1 = refCount idle - 1 /\
  refCount (Stop world_restarted MongoDB idle).1 < 0 /\
  Stop world_restarted MongoDB idle
    = stopContainer world_restarted MongoDB (set_refCount (refCount idle - 1) idle) /\
  closed (Stop world_restarted MongoDB idle).1 = [0%nat].
Proof.
  assert (- 2 ^ 31 < refCount idle <= 0) as Hcount by (cbn; lia).
  exact (Stop_without_acquire world_restarted MongoDB idle Hcount).
Defined.

Lemma Start_after_failed_Start_witness :
  let s1 := (Start world_down Elasticsearch [] zero).1 in
  attempts s1 = 1%nat /\
  attempts (Start world_down Elasticsearch [] s1).1 = 1%nat /\
  started (Start world_down Elasticsearch [] s1).1 = false /\
  (Start world_down Elasticsearch [] s1).2 =
    Returns (Some (errorString "shared elasticsearch not started: %!w(<nil>)")).
Proof.
  destruct (Start_after_failed_Start world_down Elasticsearch [] [] zero
              (wrapError
                 "shared elasticsearch not started: Cannot connect to the Docker daemon"
                 (errorString "Cannot connect to the Docker daemon"))
              eq_refl eq_refl eq_refl) as (H1 & H2 & H3 & H4 & _).
  exact (conj H1 (conj H2 (conj H3 H4))).
Defined.

Lemma Start_reprovisions_dead_handle_witness :
  (Start world_restarted MongoDB [] running).2 = Returns None /\
  attempts (Start world_restarted MongoDB [] running).1 = 2%nat /\
  client (Start world_restarted MongoDB [] running).1 = Some 1%nat /\
  started (Start world_restarted MongoDB [] running).1 = true /\
  refCount (Start world_restarted MongoDB [] running).1 = 2.
Proof.
  assert (0 < attempts running)%nat as Hfresh by (cbn; lia).
  assert (forall n, probe world_restarted MongoDB n 0%nat <> None) as Hdead by done.
  destruct (Start_reprovisions_dead_handle world_restarted MongoDB [] running
              0%nat "mongodb://127.0.0.1:27017" eq_refl eq_refl Hfresh Hdead
              eq_refl (fun _ => eq_refl))
    as (H1 & H2 & H3 & _ & H5 & H6).
  exact (conj H1 (conj H2 (conj H3 (conj H5 H6)))).
Defined.

End BrokerFacts.


Module RaceFacts.
Import Go Broker Race GoFacts BrokerFacts Samples.

Lemma returned_insert (l : list pc) (i : nat) (p q : pc) :
  l !! i = Some p ->
  (returned (<[i := q]> l) + (if is_returned p then 1 else 0)
   = returned l + (if is_returned q then 1 else 0))%nat.
Proof.
  unfold returned. revert i. induction l as [|x l IH]; intros [|i] Hi; try done.
  - cbn in Hi. simplify_eq. cbn.
    destruct (is_returned p), (is_returned q); cbn; lia.
  - cbn in Hi. specialize (IH i Hi).
    change (<[S i:=q]> (x :: l)) with (x :: <[i:=q]> l).
    cbn [List.filter]. revert IH.
    destruct (is_returned x), (is_returned p), (is_returned q); cbn [length]; lia.
Qed.

Lemma returned_none (l : list pc) :
  Forall (fun p => p = AtCheck \/ p = AtLock) l -> returned l = 0%nat.
Proof.
  unfold returned. induction 1 as [|x l [-> | ->] _ IH]; done.
Qed.

Lemma crashed_Forall (c : Conc) :
  Forall (fun p => is_panicked p = false) (goroutines c) -> crashed c = false.
Proof.
  unfold crashed. induction 1 as [|p l Hp _ IH]; [done|]. cbn. by rewrite Hp.
Qed.

Lemma before_alive (s0 : Shared) (c : Conc) : before s0 c -> crashed c = false.
Proof.
  intros [_ Hall]. apply crashed_Forall.
  eapply Forall_impl; [exact Hall|]. by intros p [-> | ->].
Qed.

Lemma after_alive (s0 : Shared) (c : Conc) : after s0 c -> crashed c = false.
Proof.
  intros (_ & _ & _ & _ & Hall). apply crashed_Forall.
  eapply Forall_impl; [exact Hall|]. by intros p [? _].
Qed.

Lemma step_crashed (w : World) (k : Kind) (paths : list string) (i : nat) (c : Conc) :
  crashed c = true -> step w k paths i c = c.
Proof. intros H. unfold step. by rewrite H. Qed.

Lemma run_crashed (w : World) (k : Kind) (paths : list string) (sched : list nat) :
  forall c, crashed c = true -> run w k paths sched c = c.
Proof.
  induction sched as [|j sched IH]; intros c H; [done|].
  cbn [run foldl]. fold (run w k paths sched (step w k paths j c)).
  rewrite step_crashed by done. by apply IH.
Qed.

Lemma step_length (w : World) (k : Kind) (paths : list string) (i : nat) (c : Conc) :
  length (goroutines (step w k paths i c)) = length (goroutines c).
Proof.
  unfold step. destruct (crashed c); [done|].
  destruct (goroutines c !! i) as [[| | | |e|v]|]; try done.
  - cbn. by rewrite length_insert.
  - destruct (testConnection _ _ _). cbn. by rewrite length_insert.
  - cbn. by rewrite length_insert.
  - destruct (Start_exclusive _ _ _ _). cbn. by rewrite length_insert.
Qed.

Lemma step_other (w : World) (k : Kind) (paths : list string) (i j : nat) (c : Conc) :
  i <> j -> goroutines (step w k paths i c) !! j = goroutines c !! j.
Proof.
  intros Hij. unfold step. destruct (crashed c); [done|].
  destruct (goroutines c !! i) as [[| | | |e|v]|]; try done.
  - cbn. by rewrite list_lookup_insert_ne.
  - destruct (testConnection _ _ _). cbn. by rewrite list_lookup_insert_ne.
  - cbn. by rewrite list_lookup_insert_ne.
  - destruct (Start_exclusive _ _ _ _). cbn. by rewrite list_lookup_insert_ne.
Qed.

(** In a process that is alive, a turn brings a goroutine closer to the
    end of its call. *)
Lemma step_rank (w : World) (k : Kind) (paths : list string) (i : nat) (c : Conc) (p : pc) :
  crashed c = false ->
  goroutines c !! i = Some p ->
  exists q, goroutines (step w k paths i c) !! i = Some q /\ (rank q <= rank p - 1)%nat.
Proof.
  intros Hlive Hp. pose proof (lookup_lt_Some _ _ _ Hp) as Hlt.
  unfold step. rewrite Hlive, Hp. destruct p as [| | | |e|v].
  - eexists. cbn. rewrite list_lookup_insert_eq by done. split; [done|].
    destruct (reusable _); cbn; lia.
  - destruct (testConnection _ _ _) as [s' [e|]]; eexists; cbn;
      rewrite list_lookup_insert_eq by done; (split; [done|cbn; lia]).
  - eexists. cbn. rewrite list_lookup_insert_eq by done. split; [done|cbn; lia].
  - destruct (Start_exclusive _ _ _ _) as [s' [err|v]]; eexists; cbn;
      rewrite list_lookup_insert_eq by done; (split; [done|cbn; lia]).
  - exists (Returned e). split; [done|cbn; lia].
  - exists (Panicked v). split; [done|cbn; lia].
Qed.

Lemma run_rank (w : World) (k : Kind) (paths : list string) (sched : list nat) (i : nat) :
  forall (c : Conc) (p : pc),
  crashed (run w k paths sched c) = false ->
  goroutines c !! i = Some p ->
  exists q, goroutines (run w k paths sched c) !! i = Some q /\
            (rank q <= rank p - turns i sched)%nat.
Proof.
  induction sched as [|j sched IH]; intros c p Hlive Hp.
  - exists p. split; [done|]. cbn. lia.
  - assert (crashed c = false) as Hc.
    { destruct (crashed c) eqn:E; [|done]. by rewrite run_crashed, E in Hlive. }
    cbn [run foldl] in Hlive |- *. fold (run w k paths sched (step w k paths j c)) in Hlive |- *.
    unfold turns. cbn [List.filter]. fold (turns i sched).
    destruct (decide (j = i)) as [->|Hne].
    + destruct (step_rank w k paths i c p Hc Hp) as (q & Hq & Hle).
      destruct (IH _ _ Hlive Hq) as (q' & Hq' & Hle').
      exists q'. split; [done|].
      rewrite Nat.eqb_refl. cbn [length]. fold (turns i sched). lia.
    + rewrite <- (step_other w k paths j i c Hne) in Hp.
      destruct (IH _ _ Hlive Hp) as (q' & Hq' & Hle').
      exists q'. split; [done|].
      destruct (Nat.eqb_spec i j) as [->|_]; done.
Qed.

Lemma run_length (w : World) (k : Kind) (paths : list string) (sched : list nat) :
  forall c, length (goroutines (run w k paths sched c)) = length (goroutines c).
Proof.
  induction sched as [|j sched IH]; intros c; [done|].
  cbn [run foldl]. fold (run w k paths sched (step w k paths j c)).
  by rewrite IH, step_length.
Qed.

Section SingleFlight.
Context (w : World) (k : Kind) (paths : list string) (s0 : Shared) (address : string).
Hypothesis not_started : started s0 = false.
Hypothesis once_fresh : startOnce s0 = false.
Hypothesis count_int32 : is_int32 (refCount s0).
Hypothesis comes_up : provision w k (attempts s0) = Up address.
Hypothesis scripts_run : k = PostgreSQL -> initial_sql w paths = None.
Hypothesis answers : forall n, probe w k n (attempts s0) = None.

Ltac project :=
  cbn [shared goroutines started client attempts refCount probes addRef
       set_refCount set_startOnce set_started set_probes andb negb fst snd].

Lemma step_before (i : nat) (c : Conc) :
  before s0 c -> before s0 (step w k paths i c) \/ after s0 (step w k paths i c).
Proof.
  intros Hbefore. pose proof (before_alive _ _ Hbefore) as Hlive.
  destruct Hbefore as [Hsh Hall]. unfold step. rewrite Hlive.
  destruct (goroutines c !! i) as [p|] eqn:Hp; [|left; done].
  pose proof (Forall_lookup_1 _ _ _ _ Hall Hp) as [-> | ->].
  - left. rewrite Hsh. unfold reusable. rewrite not_started. project.
    split; [done|]. project. apply Forall_insert; auto.
  - right. rewrite Hsh. unfold Start_exclusive, reusable. rewrite not_started.
    project. rewrite Start_provision_spec, once_fresh by done.
    destruct (startContainer_up w k paths s0 address comes_up scripts_run) as [He Hc].
    destruct (startContainer_frame w k (with_paths k paths s0))
      as (_ & _ & Hr & _ & _ & _ & _ & Ha).
    assert (attempts (with_paths k paths s0) = attempts s0
            /\ refCount (with_paths k paths s0) = refCount s0) as [Ea Er]
      by (destruct k; done).
    rewrite Ea in Ha. rewrite Er in Hr.
    destruct (startContainer w k (with_paths k paths s0)) as [s1 e1].
    cbn in He, Hc, Hr, Ha. subst e1. unfold after. project.
    rewrite Hc, Hr, Ha.
    pose proof (returned_insert _ i _ (Returned None) Hp) as Hcount.
    rewrite (returned_none _ Hall) in Hcount. cbn in Hcount.
    rewrite Nat.add_0_r in Hcount. rewrite Hcount.
    repeat split; try done.
    apply Forall_insert; [|split; [done|by intros e [= <-]]].
    eapply Forall_impl; [exact Hall|]. intros p [-> | ->]; (split; [done|by intros e]).
Qed.

Lemma step_after (i : nat) (c : Conc) :
  after s0 c -> after s0 (step w k paths i c).
Proof.
  intros Hafter. pose proof (after_alive _ _ Hafter) as Hlive.
  destruct Hafter as (Hs & Hc & Ha & Hr & Hall). unfold step. rewrite Hlive.
  destruct (goroutines c !! i) as [p|] eqn:Hp; [|done].
  pose proof (returned_insert (goroutines c) i p) as Hins.
  destruct p as [| | | |e|v].
  - unfold reusable. rewrite Hs, Hc. project.
    rewrite bool_decide_eq_true_2 by done.
    specialize (Hins AtProbe Hp). cbn in Hins.
    unfold after. project. rewrite Hr.
    replace (returned (<[i:=AtProbe]> (goroutines c)))
      with (returned (goroutines c)) by lia.
    repeat split; try done.
    apply Forall_insert; [done|]. split; [done|by intros e].
  - unfold testConnection. rewrite Hc, answers. project.
    specialize (Hins AtAdd Hp). cbn in Hins.
    unfold after. project. rewrite Hr.
    replace (returned (<[i:=AtAdd]> (goroutines c)))
      with (returned (goroutines c)) by lia.
    repeat split; try done.
    apply Forall_insert; [done|]. split; [done|by intros e].
  - specialize (Hins (Returned None) Hp). cbn in Hins.
    unfold after. project. rewrite Hr.
    replace (returned (<[i:=Returned None]> (goroutines c)))
      with (S (returned (goroutines c))) by lia.
    repeat split; try done.
    + unfold AddInt32. rewrite wrap32_add_l. f_equal. lia.
    + apply Forall_insert; [done|]. split; [done|by intros e [= <-]].
  - unfold Start_exclusive, reusable, testConnection. rewrite Hs, Hc, answers.
    project. rewrite bool_decide_eq_true_2 by done.
    specialize (Hins (Returned None) Hp). cbn in Hins.
    unfold after. project. rewrite Hr.
    replace (returned (<[i:=Returned None]> (goroutines c)))
      with (S (returned (goroutines c))) by lia.
    repeat split; try done.
    + unfold AddInt32. rewrite wrap32_add_l. f_equal. lia.
    + apply Forall_insert; [done|]. split; [done|by intros e' [= <-]].
  - done.
  - done.
Qed.

Lemma run_invariant (sched : list nat) :
  forall c, before s0 c \/ after s0 c ->
            before s0 (run w k paths sched c) \/ after s0 (run w k paths sched c).
Proof.
  induction sched as [|j sched IH]; intros c Hc; [done|].
  cbn [run foldl]. fold (run w k paths sched (step w k paths j c)).
  apply IH. destruct Hc as [Hc|Hc].
  - by apply step_before.
  - right. by apply step_after.
Qed.

Lemma spawn_before (N : nat) : before s0 (spawn N s0).
Proof.
  split; [done|]. cbn. apply Forall_replicate. by left.
Qed.

End SingleFlight.

(** One goroutine alone, given its three turns, does what [Start] does. *)
Lemma run_alone (w : World) (k : Kind) (paths : list string) (s : Shared) :
  run w k paths [0; 0; 0]%nat (spawn 1 s)
  = mkConc (Start w k paths s).1
           [match (Start w k paths s).2 with
            | Returns err => Returned err
            | Panics v => Panicked v
            end].
Proof.
  unfold run, spawn, Start. cbn [foldl replicate].
  unfold step at 3. cbn [goroutines shared lookup list_lookup crashed existsb is_panicked orb].
  destruct (reusable s) eqn:Hre.
  - unfold step at 2. cbn.
    destruct (testConnection w k s) as [s1 [e|]]; cbn.
    + unfold step. cbn. by destruct (Start_exclusive w k paths s1) as [s2 [err|v]].
    + unfold step. cbn. done.
  - unfold step at 2. cbn.
    destruct (Start_exclusive w k paths s) as [s1 [err|v]]; cbn; done.
Qed.

(** C1.  [N] goroutines call [Start] on a broker that is not started and
    whose [sync.Once] is unused; the service comes up on the first attempt
    and its handle answers every probe.  Then, whatever the interleaving,
    once every goroutine has had its turns: [startContainer] was called
    exactly once, every goroutine returned nil, the broker is started on
    the handle of that attempt, and the count grew by [N].  Moreover, at
    any instant of any interleaving, at most one attempt has been made, and
    a goroutine that has returned did so after that attempt completed. *)
Theorem single_flight (w : World) (k : Kind) (paths : list string) (s : Shared)
  (address : string) (N : nat) (sched : list nat) :
  started s = false -> startOnce s = false -> is_int32 (refCount s) ->
  provision w k (attempts s) = Up address ->
  (k = PostgreSQL -> initial_sql w paths = None) ->
  (forall n, probe w k n (attempts s) = None) ->
  (0 < N)%nat ->
  (forall i, (i < N)%nat -> (3 <= turns i sched)%nat) ->
  let c := run w k paths sched (spawn N s) in
  attempts (shared c) = S (attempts s) /\
  goroutines c = replicate N (Returned None) /\
  started (shared c) = true /\
  client (shared c) = Some (attempts s) /\
  refCount (shared c) = wrap32 (refCount s + Z.of_nat N) /\
  (forall (prefix : list nat) (i : nat) (e : option error),
     let c' := run w k paths prefix (spawn N s) in
     (attempts (shared c') <= S (attempts s))%nat /\
     (goroutines c' !! i = Some (Returned e) ->
      attempts (shared c') = S (attempts s) /\ started (shared c') = true /\ e = None)).
Proof.
  intros Hs Ho Hr Hup Hsql Hlive HN Hfair c.
  assert (forall sched', before s (run w k paths sched' (spawn N s)) \/
                         after s (run w k paths sched' (spawn N s))) as Hinv.
  { intros sched'. apply (run_invariant w k paths s address); try done.
    left. apply spawn_before. }
  assert (Forall (fun p => Returned None = p) (goroutines c)) as Hdone.
  { apply Forall_lookup_2. intros i p Hp.
    assert (i < N)%nat as Hi.
    { apply lookup_lt_Some in Hp. subst c.
      rewrite run_length in Hp. cbn in Hp. by rewrite length_replicate in Hp. }
    destruct (run_rank w k paths sched i (spawn N s) AtCheck) as (q & Hq & Hle).
    { destruct (Hinv sched) as [Hb|Ha]; [by eapply before_alive|by eapply after_alive]. }
    { cbn. by apply lookup_replicate_2. }
    fold c in Hq. rewrite Hp in Hq. injection Hq as <-.
    specialize (Hfair i Hi). cbn in Hle.
    destruct p as [| | | |e|v]; cbn in Hle; try lia.
    - destruct (Hinv sched) as [[_ Hb]|(_ & _ & _ & _ & Ha)].
      + pose proof (Forall_lookup_1 _ _ _ _ Hb Hp) as [?|?]; done.
      + f_equal. symmetry.
        exact (proj2 (Forall_lookup_1 _ _ _ _ Ha Hp) e eq_refl).
    - destruct (Hinv sched) as [[_ Hb]|(_ & _ & _ & _ & Ha)].
      + pose proof (Forall_lookup_1 _ _ _ _ Hb Hp) as [?|?]; done.
      + by destruct (Forall_lookup_1 _ _ _ _ Ha Hp) as [? _]. }
  assert (goroutines c = replicate N (Returned None)) as Hgo.
  { symmetry. apply replicate_as_Forall. split; [|done].
    subst c. rewrite run_length. cbn. by rewrite length_replicate. }
  assert (after s c) as (Ha1 & Ha2 & Ha3 & Ha4 & _).
  { destruct (Hinv sched) as [[_ Hb]|Ha]; [|done]. fold c in Hb.
    rewrite Hgo in Hb. destruct N; [lia|]. cbn in Hb.
    apply Forall_cons in Hb as [[?|?] _]; done. }
  do 4 (split; [done|]). split.
  - rewrite Ha4, Hgo. do 3 f_equal. unfold returned.
    clear. induction N as [|N IHN]; cbn; [done|]. by rewrite IHN.
  - intros prefix i e c'. subst c'. split.
    + destruct (Hinv prefix) as [[-> _]|(_ & _ & -> & _)]; lia.
    + intros H. destruct (Hinv prefix) as [[_ Hb]|(Hc1 & _ & Hc3 & _ & Hc5)].
      * pose proof (Forall_lookup_1 _ _ _ _ Hb H) as [?|?]; done.
      * repeat split; try done. by apply (proj2 (Forall_lookup_1 _ _ _ _ Hc5 H)).
Qed.

Lemma single_flight_witness :
  let c := run world_no_reuse Elasticsearch [] [0; 1; 1; 0; 0; 1; 1; 0]%nat
               (spawn 2 zero) in
  attempts (shared c) = 1%nat /\
  goroutines c = [Returned None; Returned None] /\
  started (shared c) = true /\
  client (shared c) = Some 0%nat /\
  refCount (shared c) = 2.
Proof.
  assert (is_int32 (refCount zero)) as Hcount by (unfold is_int32; cbn; lia).
  assert (forall i, (i < 2)%nat ->
                    (3 <= turns i [0; 1; 1; 0; 0; 1; 1; 0]%nat)%nat) as Hfair
    by (intros [|[|i]] Hi; cbn; lia).
  destruct (single_flight world_no_reuse Elasticsearch [] zero
              "http://127.0.0.1:9200" 2 [0; 1; 1; 0; 0; 1; 1; 0]%nat
              eq_refl eq_refl Hcount eq_refl (fun _ => eq_refl)
              (fun _ => eq_refl) (Nat.lt_0_succ 1) Hfair)
    as (H1 & H2 & H3 & H4 & H5 & _).
  exact (conj H1 (conj H2 (conj H3 (conj H4 H5)))).
Defined.

End RaceFacts.

Module BuilderFacts.
Import Go Broker Builder GoFacts BrokerFacts Samples.

Lemma broker_set_broker (k j : Kind) (s : Shared) (g : Globals) :
  broker j (set_broker k s g) = if decide (j = k) then s else broker j g.
Proof. destruct k, j, g; done. Qed.

(** A [Start] that panics is the one of the Elasticsearch broker. *)
Lemma Start_panics (w : World) (k : Kind) (paths : list string) (s : Shared)
  (v : error) :
  (Start w k paths s).2 = Panics v -> k = Elasticsearch.
Proof.
  assert (forall s', (Start_provision w k paths s').2 = Panics v -> k = Elasticsearch)
    as Hprov.
  { intros s'. unfold Start_provision, startOnce_Do.
    destruct (startOnce (with_paths k paths s')); cbn.
    - destruct (negb _); cbn; done.
    - destruct (startContainer w k (with_paths k paths s')) as [s1 [[e|]|v']] eqn:E;
        cbn; try done; try (destruct (negb _); cbn; done).
      intros [= Hv]. subst v'.
      assert ((startContainer w k (with_paths k paths s')).2 = Panics v) as Hp
        by (rewrite E; reflexivity).
      by destruct (startContainer_panics w k (with_paths k paths s') v Hp). }
  assert (forall s', (Start_exclusive w k paths s').2 = Panics v -> k = Elasticsearch)
    as Hexcl.
  { intros s'. unfold Start_exclusive. destruct (reusable s'); [|apply Hprov].
    destruct (testConnection w k s') as [s1 [e|]]; [apply Hprov|done]. }
  unfold Start. destruct (reusable s); [|apply Hexcl].
  destruct (testConnection w k s) as [s1 [e|]]; [apply Hexcl|done].
Qed.

Lemma succeeds_no_panic (w : World) (b : TestDependenciesBuilder) (g : Globals)
  (k : Kind) :
  succeeds w b g k = true -> panics w b g k = None.
Proof. unfold succeeds, panics. by destruct (outcome w b g k).2 as [[e|]|v]. Qed.

Lemma panics_Elasticsearch (w : World) (b : TestDependenciesBuilder) (g : Globals)
  (k : Kind) :
  k <> Elasticsearch -> panics w b g k = None.
Proof.
  intros Hk. unfold panics, outcome.
  destruct (Start w k (start_args b k) (broker k g)).2 as [e|v] eqn:E; [done|].
  destruct Hk. eapply Start_panics. exact E.
Qed.

(** What a goroutine whose [Start] returns leaves of the builder alone. *)
Lemma goroutine_frame (w : World) (k : Kind) (b : TestDependenciesBuilder)
  (g : Globals) (errors : list error) :
  panics w b g k = None ->
  let '(b', g', errors', crash') := goroutine w k (b, g, errors, None) in
  sqlFilePaths b' = sqlFilePaths b /\ built b' = built b /\
  (forall j, needs b' j = needs b j) /\
  g' = set_broker k (outcome w b g k).1 g /\
  errors' = errors ++ option_list (failure w b g k) /\
  cleanupFuncs b' = cleanupFuncs b ++ (if succeeds w b g k then [k] else []) /\
  crash' = None.
Proof.
  unfold goroutine, failure, succeeds, panics, outcome.
  assert (start_args (referenced k b) k = start_args b k) as -> by (destruct k; done).
  destruct (Start w k (start_args b k) (broker k g)) as [s [[e|]|v]]; cbn; [| |done];
    intros _.
  - repeat split; try done. by rewrite app_nil_r.
  - destruct k; cbn; repeat split; try done; by rewrite app_nil_r.
Qed.

(** A goroutine whose [Start] panics: its broker is as the panic left
    it, and nothing is recorded. *)
Lemma goroutine_panics (w : World) (k : Kind) (b : TestDependenciesBuilder)
  (g : Globals) (errors : list error) (v : error) :
  panics w b g k = Some v ->
  goroutine w k (b, g, errors, None)
  = (referenced k b, set_broker k (outcome w b g k).1 g, errors, Some v).
Proof.
  unfold goroutine, panics, outcome.
  assert (start_args (referenced k b) k = start_args b k) as -> by (destruct k; done).
  destruct (Start w k (start_args b k) (broker k g)) as [s [[e|]|v']]; cbn; try done.
  by intros [= ->].
Qed.

(** In a process that is gone no goroutine does anything. *)
Lemma goroutines_dead (w : World) (l : list Kind) :
  forall (b : TestDependenciesBuilder) (g : Globals) (errors : list error) (v : error),
    foldl (fun st k => goroutine w k st) (b, g, errors, Some v) l
    = (b, g, errors, Some v).
Proof. induction l as [|k l IH]; intros b g errors v; [done|]. cbn. apply IH. Qed.

Lemma outcome_ext (w : World) (b b' : TestDependenciesBuilder) (g g' : Globals)
  (k : Kind) :
  sqlFilePaths b' = sqlFilePaths b -> broker k g' = broker k g ->
  outcome w b' g' k = outcome w b g k.
Proof.
  intros Hb Hg. unfold outcome, start_args. rewrite Hg. destruct k; by rewrite ?Hb.
Qed.

(** The goroutines of distinct kinds, run in any order, each see their
    broker as it was when [Build] was called; this is what they leave
    when the [Start] of each of them returns. *)
Lemma goroutines_spec (w : World) (b : TestDependenciesBuilder) (g : Globals)
  (l : list Kind) :
  NoDup l ->
  (forall k, k ∈ l -> panics w b g k = None) ->
  let '(b', g', errors', crash') :=
    foldl (fun st k => goroutine w k st) (b, g, [], None) l in
  sqlFilePaths b' = sqlFilePaths b /\ built b' = built b /\
  (forall j, needs b' j = needs b j) /\
  (forall j, broker j g' = if decide (j ∈ l) then (outcome w b g j).1 else broker j g) /\
  errors' = omap (failure w b g) l /\
  cleanupFuncs b' = cleanupFuncs b ++ List.filter (succeeds w b g) l /\
  crash' = None.
Proof.
  induction l as [|k l IH] using rev_ind; intros Hnd Hret.
  - cbn. repeat split; try done. by rewrite app_nil_r.
  - apply NoDup_app in Hnd as (Hl & Hk & _).
    rewrite foldl_app. cbn [foldl].
    assert (forall j, j ∈ l -> panics w b g j = None) as Hret'
      by (intros j Hj; apply Hret, elem_of_app; by left).
    specialize (IH Hl Hret').
    destruct (foldl _ _ l) as [[[b1 g1] e1] c1].
    destruct IH as (I1 & I2 & I3 & I4 & I5 & I6 & ->).
    assert (k ∉ l) as Hkl by (intros Hin; apply (Hk k Hin); by left).
    assert (outcome w b1 g1 k = outcome w b g k) as Ho.
    { apply outcome_ext; [done|]. rewrite I4. by rewrite decide_False. }
    assert (failure w b1 g1 k = failure w b g k) as Hfl
      by (unfold failure; by rewrite Ho).
    assert (succeeds w b1 g1 k = succeeds w b g k) as Hsu
      by (unfold succeeds; by rewrite Ho).
    assert (panics w b1 g1 k = None) as Hpa.
    { unfold panics. rewrite Ho. apply (Hret k), elem_of_app. right. by left. }
    pose proof (goroutine_frame w k b1 g1 e1 Hpa) as Hf.
    destruct (goroutine w k (b1, g1, e1, None)) as [[[b2 g2] e2] c2].
    destruct Hf as (F1 & F2 & F3 & F4 & F5 & F6 & ->).
    repeat split.
    + congruence.
    + congruence.
    + intros j. by rewrite F3, I3.
    + intros j. rewrite F4, broker_set_broker, Ho.
      destruct (decide (j = k)) as [->|Hne].
      * rewrite decide_True; [done|]. apply elem_of_app. right. by left.
      * rewrite I4. destruct (decide (j ∈ l)) as [Hin|Hnin].
        -- rewrite decide_True; [done|]. apply elem_of_app. by left.
        -- rewrite decide_False; [done|]. intros [?|?%list_elem_of_singleton]%elem_of_app; done.
    + rewrite F5, I5, Hfl, omap_app. cbn. by destruct (failure w b g k).
    + rewrite F6, I6, Hsu, List.filter_app. cbn.
      rewrite <- app_assoc. by destruct (succeeds w b g k).
Qed.

(** The goroutines up to one whose [Start] panics: those that ran before
    it have left their brokers as their [Start] left them, the others
    have not run, and nothing that was acquired is released. *)
Lemma goroutines_crash (w : World) (b : TestDependenciesBuilder) (g : Globals)
  (ran rest : list Kind) (k : Kind) (v : error) :
  NoDup (ran ++ k :: rest) ->
  (forall j, j ∈ ran -> panics w b g j = None) ->
  panics w b g k = Some v ->
  let '(b', g', errors', crash') :=
    foldl (fun st k => goroutine w k st) (b, g, [], None) (ran ++ k :: rest) in
  crash' = Some v /\
  (forall j, broker j g' = if decide (j ∈ ran ++ [k]) then (outcome w b g j).1
                           else broker j g).
Proof.
  intros Hnd Hret Hpanic.
  apply NoDup_app in Hnd as (Hran & Hk & _).
  rewrite foldl_app. cbn [foldl].
  pose proof (goroutines_spec w b g ran Hran Hret) as Hsp.
  destruct (foldl _ _ ran) as [[[b1 g1] e1] c1].
  destruct Hsp as (I1 & _ & _ & I4 & _ & _ & ->).
  assert (k ∉ ran) as Hkr by (intros Hin; apply (Hk k Hin); by left).
  assert (outcome w b1 g1 k = outcome w b g k) as Ho.
  { apply outcome_ext; [done|]. rewrite I4. by rewrite decide_False. }
  assert (panics w b1 g1 k = Some v) as Hpa by (unfold panics; by rewrite Ho).
  rewrite (goroutine_panics w k b1 g1 e1 v Hpa), goroutines_dead, Ho.
  split; [done|]. intros j. rewrite broker_set_broker.
  destruct (decide (j = k)) as [->|Hne].
  - rewrite decide_True; [done|]. apply elem_of_app. right. by left.
  - rewrite I4. destruct (decide (j ∈ ran)) as [Hin|Hnin].
    + rewrite decide_True; [done|]. apply elem_of_app. by left.
    + rewrite decide_False; [done|].
      intros [?|?%list_elem_of_singleton]%elem_of_app; done.
Qed.

Lemma releases_app (k : Kind) (l1 l2 : list Kind) :
  releases k (l1 ++ l2) = (releases k l1 + releases k l2)%nat.
Proof. unfold releases. by rewrite List.filter_app, length_app. Qed.

Lemma releases_reverse (k : Kind) (l : list Kind) :
  releases k (reverse l) = releases k l.
Proof.
  induction l as [|x l IH]; [done|].
  rewrite reverse_cons, releases_app, IH.
  change (x :: l) with ([x] ++ l). rewrite releases_app. lia.
Qed.

Lemma releases_filter (k : Kind) (f : Kind -> bool) (l : list Kind) :
  NoDup l ->
  releases k (List.filter f l) = if decide (k ∈ l) then (if f k then 1 else 0)%nat else 0%nat.
Proof.
  induction 1 as [|x l Hx Hnd IH].
  - cbn. by rewrite decide_False by apply not_elem_of_nil.
  - cbn [List.filter]. destruct (decide (k = x)) as [->|Hne].
    + rewrite decide_True by left.
      assert (releases x (List.filter f l) = 0%nat) as Hz
        by (rewrite IH; by rewrite decide_False).
      destruct (f x); [|done].
      change (x :: List.filter f l) with ([x] ++ List.filter f l).
      rewrite releases_app, Hz. unfold releases. cbn.
      by rewrite bool_decide_eq_true_2.
    + assert (releases k (if f x then x :: List.filter f l else List.filter f l)
              = releases k (List.filter f l)) as ->.
      { destruct (f x); [|done].
        change (x :: List.filter f l) with ([x] ++ List.filter f l).
        rewrite releases_app. unfold releases at 1. cbn.
        by rewrite bool_decide_eq_false_2 by congruence. }
      rewrite IH. destruct (decide (k ∈ l)) as [Hin|Hnin].
      * rewrite decide_True; [done|]. by right.
      * rewrite decide_False; [done|]. intros [?|?]%elem_of_cons; done.
Qed.

(** [cleanup] over any list of closures: each one takes a reference off
    its broker, and no container is terminated. *)
Lemma cleanup_counts (w : World) (l : list Kind) :
  forall g : Globals,
  (forall k, is_int32 (refCount (broker k g))) ->
  forall k,
    refCount (broker k (foldl (fun g j => set_broker j (Stop w j (broker j g)).1 g) g l))
    = wrap32 (refCount (broker k g) - Z.of_nat (releases k l)) /\
    terminated (broker k (foldl (fun g j => set_broker j (Stop w j (broker j g)).1 g) g l))
    = terminated (broker k g).
Proof.
  induction l as [|j l IH]; intros g Hg k.
  - cbn. rewrite Z.sub_0_r. by rewrite wrap32_id.
  - cbn [foldl]. set (g1 := set_broker j _ g).
    destruct (Stop_spec w j (broker j g)) as (_ & Hc & Ht & _).
    assert (forall k, is_int32 (refCount (broker k g1))) as Hg1.
    { intros i. subst g1. rewrite broker_set_broker.
      destruct (decide (i = j)); [|done]. rewrite Hc. apply AddInt32_range. }
    destruct (IH g1 Hg1 k) as [-> ->].
    subst g1. rewrite !broker_set_broker.
    change (j :: l) with ([j] ++ l). rewrite releases_app.
    unfold releases at 2. cbn.
    destruct (decide (k = j)) as [->|Hne].
    + rewrite bool_decide_eq_true_2 by done. rewrite Hc, Ht. split; [|done].
      unfold AddInt32. rewrite <- Z.add_opp_r, wrap32_add_l.
      f_equal; cbn [length]; lia.
    + rewrite bool_decide_eq_false_2 by congruence. split; [|done].
      f_equal; cbn [length]; lia.
Qed.

Lemma requested_kinds (bv : TestDependenciesBuilder) (order : list Kind) :
  order ≡ₚ all_kinds ->
  NoDup (filter (fun k => needs bv k = true) order) /\
  forall k, k ∈ filter (fun k => needs bv k = true) order <-> needs bv k = true.
Proof.
  intros Hperm.
  assert (NoDup order) as Hnd.
  { rewrite Hperm. unfold all_kinds.
    repeat (apply NoDup_cons; split;
            [rewrite ?not_elem_of_cons; repeat split; try done; apply not_elem_of_nil|]).
    apply NoDup_nil_2. }
  assert (forall k, k ∈ order) as Hall.
  { intros k. rewrite Hperm. unfold all_kinds. rewrite !elem_of_cons.
    destruct k; auto. }
  split; [by apply NoDup_filter|].
  intros k. rewrite list_elem_of_filter. split; [by intros [? _]|].
  intros Hk. split; [done|apply Hall].
Qed.

(** [Build] when the [Start] of every requested kind returns and some
    requested kind fails to start: the result, the list behind the
    aggregate error, and what [cleanup] leaves of the brokers. *)
Lemma Build_failure_spec (w : World) (order : list Kind) (b : nat)
  (p : Process) (bv : TestDependenciesBuilder) (k0 : Kind) :
  order ≡ₚ all_kinds ->
  heap p !! b = Some bv -> built bv = false ->
  (forall k, is_int32 (refCount (broker k (globals p)))) ->
  (forall k, needs bv k = true -> panics w bv (globals p) k = None) ->
  needs bv k0 = true -> succeeds w bv (globals p) k0 = false ->
  exists (p' : Process) (errors : list error),
    Build w order b p = Some (p', None, Returns (Some (aggregate errors))) /\
    errors = omap (failure w bv (globals p)) (filter (fun k => needs bv k = true) order) /\
    (forall k e, needs bv k = true -> (outcome w bv (globals p) k).2 = Returns (Some e) ->
                 Errorf_w (setup_failed_prefix k) (Some e) ∈ errors) /\
    (forall k, refCount (broker k (globals p'))
               = wrap32 (refCount (broker k (globals p))
                         - Z.of_nat (releases k (cleanupFuncs bv)))) /\
    (forall k, terminated (broker k (globals p')) = terminated (broker k (globals p))).
Proof.
  intros Hperm Hb Hbuilt Hint Hret Hneed Hfail.
  destruct (requested_kinds bv order Hperm) as [Hndl Hl].
  set (l := filter (fun k => needs bv k = true) order) in *.
  unfold Build. rewrite Hb. cbn [mbind option_bind]. rewrite Hbuilt. fold l.
  assert (forall k, k ∈ l -> panics w bv (globals p) k = None) as Hretl
    by (intros k Hk; by apply Hret, Hl).
  pose proof (goroutines_spec w bv (globals p) l Hndl Hretl) as Hg.
  destruct (foldl _ _ l) as [[[b1 g1] errors] crash].
  destruct Hg as (_ & _ & _ & G4 & G5 & G6 & ->).
  assert (forall k e, needs bv k = true ->
                      (outcome w bv (globals p) k).2 = Returns (Some e) ->
                      Errorf_w (setup_failed_prefix k) (Some e) ∈ errors) as Hin.
  { intros k e Hk He. rewrite G5. apply list_elem_of_omap. exists k. split.
    - by apply Hl.
    - unfold failure. by rewrite He. }
  assert ((0 <? length errors)%nat = true) as ->.
  { specialize (Hret k0 Hneed). unfold succeeds, panics in Hfail, Hret.
    destruct ((outcome w bv (globals p) k0).2) as [[e|]|v] eqn:He; [|done|done].
    specialize (Hin k0 e Hneed He). destruct errors; [by apply elem_of_nil in Hin|done]. }
  eexists _, errors. split; [reflexivity|]. split; [done|]. split; [done|].
  cbn [globals]. unfold cleanup.
  assert (forall k, is_int32 (refCount (broker k g1))) as Hint1.
  { intros k. rewrite G4. destruct (decide (k ∈ l)); [|done].
    unfold outcome. destruct (Start_spec w k (start_args bv k) (broker k (globals p))) as [-> _].
    destruct (Start _ _ _ _).2 as [[?|]|?]; [done|apply AddInt32_range|done]. }
  split; intros k;
    destruct (cleanup_counts w (reverse (cleanupFuncs b1)) g1 Hint1 k) as [Hc Ht];
    [rewrite Hc | rewrite Ht]; rewrite G4.
  - rewrite releases_reverse, G6, releases_app, (releases_filter _ _ _ Hndl).
    destruct (decide (k ∈ l)) as [Hk|Hk].
    + unfold succeeds, outcome.
      destruct (Start_spec w k (start_args bv k) (broker k (globals p))) as [-> _].
      destruct (Start _ _ _ _).2 as [[?|]|?].
      * f_equal; lia.
      * unfold AddInt32. rewrite <- Z.add_opp_r, wrap32_add_l. f_equal; lia.
      * f_equal; lia.
    + f_equal; lia.
  - destruct (decide (k ∈ l)); [|done].
    unfold outcome. by destruct (Start_spec w k (start_args bv k) (broker k (globals p))) as [_ ->].
Qed.

(** [Build] when the [Start] of the Elasticsearch broker panics. *)
Lemma Build_panic_spec (w : World) (order : list Kind) (b : nat)
  (p : Process) (bv : TestDependenciesBuilder) (v : error) :
  order ≡ₚ all_kinds ->
  heap p !! b = Some bv -> built bv = false ->
  needs bv Elasticsearch = true ->
  panics w bv (globals p) Elasticsearch = Some v ->
  exists (p' : Process) (ran rest : list Kind),
    filter (fun k => needs bv k = true) order = ran ++ Elasticsearch :: rest /\
    Build w order b p = Some (p', None, Panics v) /\
    (forall k, broker k (globals p')
               = if decide (k ∈ ran ++ [Elasticsearch])
                 then (outcome w bv (globals p) k).1
                 else broker k (globals p)).
Proof.
  intros Hperm Hb Hbuilt Hneed Hpanic.
  destruct (requested_kinds bv order Hperm) as [Hndl Hl].
  destruct (list_elem_of_split _ Elasticsearch (proj2 (Hl _) Hneed))
    as (ran & rest & Hsplit).
  exists (mkProcess
            (<[b := (foldl (fun st k => goroutine w k st) (bv, globals p, [], None)
                       (ran ++ Elasticsearch :: rest)).1.1.1]> (heap p))
            (foldl (fun st k => goroutine w k st) (bv, globals p, [], None)
               (ran ++ Elasticsearch :: rest)).1.1.2), ran, rest.
  split; [done|].
  unfold Build. rewrite Hb. cbn [mbind option_bind]. rewrite Hbuilt, Hsplit.
  rewrite Hsplit in Hndl.
  assert (forall j, j ∈ ran -> panics w bv (globals p) j = None) as Hret.
  { intros j Hj. apply panics_Elasticsearch. intros ->.
    apply NoDup_app in Hndl as (_ & Hk & _). apply (Hk _ Hj). by left. }
  pose proof (goroutines_crash w bv (globals p) ran rest Elasticsearch v
                Hndl Hret Hpanic) as Hc.
  destruct (foldl _ _ (ran ++ Elasticsearch :: rest)) as [[[b1 g1] errors] crash].
  destruct Hc as [-> Hbr]. split; [done|]. exact Hbr.
Qed.

Lemma append_assoc (a b c : string) : (a +:+ b) +:+ c = a +:+ (b +:+ c).
Proof. induction a as [|x a IH]; [done|]. exact (f_equal (String x) IH). Qed.

Lemma append_nil_r (a : string) : a +:+ EmptyString = a.
Proof. induction a as [|x a IH]; [done|]. exact (f_equal (String x) IH). Qed.

(** A list printed with a separator shows each of its elements. *)
Lemma concat_shows (sep x : string) (l : list string) :
  x ∈ l -> exists pre post, String.concat sep l = pre +:+ x +:+ post.
Proof.
  induction l as [|y l IH]; intros Hin; [by apply elem_of_nil in Hin|].
  apply elem_of_cons in Hin as [->|Hin].
  - exists EmptyString. destruct l as [|z l].
    + exists EmptyString. cbn. by rewrite append_nil_r.
    + by exists (sep +:+ String.concat sep (z :: l)).
  - destruct (IH Hin) as (pre & post & E).
    destruct l as [|z l]; [by apply elem_of_nil in Hin|].
    exists (y +:+ sep +:+ pre), post.
    change (String.concat sep (y :: z :: l))
      with (y +:+ sep +:+ String.concat sep (z :: l)).
    rewrite E. by rewrite !append_assoc.
Qed.

(** The message of the aggregate error shows the message of each error
    it was built from. *)
Lemma aggregate_shows (errors : list error) (entry : error) :
  entry ∈ errors ->
  exists pre post,
    "initialization errors: [" +:+ String.concat " " (map Error errors) +:+ "]"
    = pre +:+ Error entry +:+ post.
Proof.
  intros Hin.
  destruct (concat_shows " " (Error entry) (map Error errors)) as (pre & post & E).
  { apply list_elem_of_fmap. by exists entry. }
  exists ("initialization errors: [" +:+ pre), (post +:+ "]").
  rewrite E. by rewrite !append_assoc.
Qed.

(** C4, as the code has it.  When the [Start] of every requested kind
    returns, and that of at least one returns an error, [Build] returns no
    builder and an error whose message lists, between brackets, one entry
    per failing kind, in the order the goroutines ran: the entry of a
    kind names the kind and shows the message of its error; and [cleanup]
    has released every broker that did start: each broker counts what it
    counted before [Build], less the closures the builder had registered
    earlier (none on a new builder).  This holds for every order of the
    goroutines.

    But [Start] of the Elasticsearch broker does not return when its
    container comes up and its client cannot be built or does not answer:
    it panics, in a goroutine of [Build] that nobody recovers.  Then
    [Build] returns nothing, no error is reported and nothing is rolled
    back: the brokers whose goroutines had run are left as their [Start]
    left them, with the reference it took. *)
Theorem Build_failure_rolls_back_unless_panic (w : World) (order : list Kind)
  (b : nat) (p : Process) (bv : TestDependenciesBuilder) :
  order ≡ₚ all_kinds ->
  heap p !! b = Some bv -> built bv = false ->
  (forall k, is_int32 (refCount (broker k (globals p)))) ->
  ((forall k, needs bv k = true -> panics w bv (globals p) k = None) ->
   forall k0, needs bv k0 = true -> succeeds w bv (globals p) k0 = false ->
   exists (p' : Process) (errors : list error),
     Build w order b p
       = Some (p', None,
               Returns (Some (errorString
                 ("initialization errors: ["
                  +:+ String.concat " " (map Error errors) +:+ "]")))) /\
     errors = omap (failure w bv (globals p))
                   (filter (fun k => needs bv k = true) order) /\
     (forall k e, needs bv k = true ->
        (outcome w bv (globals p) k).2 = Returns (Some e) ->
        Errorf_w (setup_failed_prefix k) (Some e) ∈ errors /\
        exists pre post,
          "initialization errors: [" +:+ String.concat " " (map Error errors) +:+ "]"
          = pre +:+ (setup_failed_prefix k +:+ Error e) +:+ post) /\
     (forall k, refCount (broker k (globals p'))
                = wrap32 (refCount (broker k (globals p))
                          - Z.of_nat (releases k (cleanupFuncs bv)))) /\
     (forall k, terminated (broker k (globals p')) = terminated (broker k (globals p)))) /\
  (forall v, needs bv Elasticsearch = true ->
     (outcome w bv (globals p) Elasticsearch).2 = Panics v ->
     exists (p' : Process) (ran rest : list Kind),
       filter (fun k => needs bv k = true) order = ran ++ Elasticsearch :: rest /\
       Build w order b p = Some (p', None, Panics v) /\
       (forall k, k ∈ ran ->
          broker k (globals p') = (outcome w bv (globals p) k).1 /\
          (succeeds w bv (globals p) k = true ->
           refCount (broker k (globals p'))
           = AddInt32 (refCount (broker k (globals p))) 1)) /\
       (forall k, k ∉ ran -> k <> Elasticsearch ->
          broker k (globals p') = broker k (globals p))).
Proof.
  intros Hperm Hb Hbuilt Hint. split.
  - intros Hret k0 Hneed Hfail.
    destruct (Build_failure_spec w order b p bv k0 Hperm Hb Hbuilt Hint Hret Hneed Hfail)
      as (p' & errors & HB & He & Hin & Hc & Ht).
    exists p', errors. split; [exact HB|]. split; [done|]. split; [|done].
    intros k e Hk Hout. split; [by apply Hin|].
    destruct (aggregate_shows errors (Errorf_w (setup_failed_prefix k) (Some e)))
      as (pre & post & E); [by apply Hin|].
    by exists pre, post.
  - intros v Hneed Hout.
    assert (panics w bv (globals p) Elasticsearch = Some v) as Hpanic
      by (unfold panics; by rewrite Hout).
    destruct (Build_panic_spec w order b p bv v Hperm Hb Hbuilt Hneed Hpanic)
      as (p' & ran & rest & Hsplit & HB & Hbr).
    exists p', ran, rest. split; [done|]. split; [done|]. split.
    + intros k Hk. rewrite Hbr.
      rewrite decide_True by (apply elem_of_app; by left). split; [done|].
      unfold succeeds, outcome.
      destruct (Start_spec w k (start_args bv k) (broker k (globals p))) as [-> _].
      by destruct (Start _ _ _ _).2 as [[?|]|?].
    + intros k Hk Hne. rewrite Hbr. rewrite decide_False; [done|].
      intros [?|?%list_elem_of_singleton]%elem_of_app; done.
Qed.

(** C3, amended.  After a first [Build] that succeeded on the builder at
    [b], a second [Build] on [b] changes nothing (no broker is started
    again) and returns [b] itself.  The first call had returned another
    instance, allocated by that call at a fresh address [r1]; it is the
    bundle of the builder (same connections, clear functions, broker
    references and cleanup closures). *)
Theorem Build_again_returns_builder (w : World) (order order' : list Kind)
  (b r1 : nat) (p p1 : Process) (bv : TestDependenciesBuilder) :
  heap p !! b = Some bv -> built bv = false ->
  Build w order b p = Some (p1, Some r1, Returns None) ->
  Build w order' b p1 = Some (p1, Some b, Returns None) /\
  r1 = length (heap p) /\ (b < r1)%nat /\
  exists b1 : TestDependenciesBuilder,
    heap p1 !! b = Some b1 /\ built b1 = true /\
    heap p1 !! r1 = Some (bundle b1).
Proof.
  intros Hb Hbuilt. unfold Build at 1. rewrite Hb. cbn [mbind option_bind].
  rewrite Hbuilt.
  destruct (foldl _ _ _) as [[[b1 g1] errors] [v|]]; [done|].
  destruct (0 <? length errors)%nat; [done|].
  intros [= <- <-].
  pose proof (lookup_lt_Some _ _ _ Hb) as Hlt.
  assert (heap {| heap := <[b:=set_built true b1]> (heap p) ++ [bundle (set_built true b1)];
                  globals := g1 |} !! b = Some (set_built true b1)) as Hb1.
  { cbn. rewrite lookup_app_l by (by rewrite length_insert).
    by rewrite list_lookup_insert_eq. }
  split; [|split; [done|split; [done|]]].
  - unfold Build. rewrite Hb1. done.
  - exists (set_built true b1). split; [done|]. split; [done|].
    cbn. rewrite lookup_app_r by (by rewrite length_insert).
    rewrite length_insert, Nat.sub_diag. done.
Qed.

(** On a new builder the counts are exactly restored. *)
Lemma Build_failure_restores_counts (w : World) (order : list Kind) (b : nat)
  (p : Process) (bv : TestDependenciesBuilder) (k0 : Kind) :
  order ≡ₚ all_kinds ->
  heap p !! b = Some bv -> built bv = false -> cleanupFuncs bv = [] ->
  (forall k, is_int32 (refCount (broker k (globals p)))) ->
  (forall k, needs bv k = true -> panics w bv (globals p) k = None) ->
  needs bv k0 = true -> succeeds w bv (globals p) k0 = false ->
  exists (p' : Process) (errors : list error),
    Build w order b p = Some (p', None, Returns (Some (aggregate errors))) /\
    forall k, refCount (broker k (globals p')) = refCount (broker k (globals p)).
Proof.
  intros Hperm Hb Hbuilt Hcf Hint Hret Hneed Hfail.
  destruct (Build_failure_spec w order b p bv k0 Hperm Hb Hbuilt Hint Hret Hneed Hfail)
    as (p' & errors & HB & _ & _ & Hc & _).
  exists p', errors. split; [done|]. intros k.
  rewrite Hc, Hcf. cbn. rewrite Z.sub_0_r. by apply wrap32_id.
Qed.

Lemma some_order_permutation : some_order ≡ₚ all_kinds.
Proof.
  unfold some_order, all_kinds.
  etrans; [apply perm_swap|]. apply perm_skip, perm_swap.
Qed.

Lemma zero_counts_int32 (k : Kind) :
  is_int32 (refCount (broker k (globals fresh_process))).
Proof. destruct k; unfold is_int32; cbn; lia. Qed.

Lemma Build_failure_rolls_back_unless_panic_witness :
  (exists (p' : Process) (errors : list error),
     Build world_no_mongo some_order 0 fresh_process
       = Some (p', None,
               Returns (Some (errorString
                 ("initialization errors: ["
                  +:+ String.concat " " (map Error errors) +:+ "]")))) /\
     (forall k, refCount (broker k (globals p'))
                = wrap32 (refCount (broker k (globals fresh_process))
                          - Z.of_nat (releases k [])))) /\
  (exists (p' : Process) (ran rest : list Kind),
     [MongoDB; Elasticsearch] = ran ++ Elasticsearch :: rest /\
     Build world_broken_client all_kinds 0 fresh_process
       = Some (p', None, Panics (errorString "EOF")) /\
     (forall k, k ∈ ran ->
        broker k (globals p')
        = (outcome world_broken_client
             (WithElasticsearch (WithMongo NewTestDependenciesBuilder))
             (globals fresh_process) k).1 /\
        (succeeds world_broken_client
           (WithElasticsearch (WithMongo NewTestDependenciesBuilder))
           (globals fresh_process) k = true ->
         refCount (broker k (globals p'))
         = AddInt32 (refCount (broker k (globals fresh_process))) 1))).
Proof.
  assert (forall k,
            needs (WithElasticsearch (WithMongo NewTestDependenciesBuilder)) k = true ->
            panics world_no_mongo
              (WithElasticsearch (WithMongo NewTestDependenciesBuilder))
              (globals fresh_process) k = None) as Hret
    by (intros [] H; vm_compute in H |- *; congruence).
  assert (all_kinds ≡ₚ all_kinds) as Hperm by reflexivity.
  split.
  - destruct (proj1 (Build_failure_rolls_back_unless_panic world_no_mongo some_order 0
                       fresh_process
                       (WithElasticsearch (WithMongo NewTestDependenciesBuilder))
                       some_order_permutation eq_refl eq_refl zero_counts_int32)
                Hret MongoDB eq_refl eq_refl)
      as (p' & errors & HB & _ & _ & Hc & _).
    exists p', errors. exact (conj HB Hc).
  - destruct (proj2 (Build_failure_rolls_back_unless_panic world_broken_client all_kinds 0
                       fresh_process
                       (WithElasticsearch (WithMongo NewTestDependenciesBuilder))
                       Hperm eq_refl eq_refl zero_counts_int32)
                (errorString "EOF") eq_refl eq_refl)
      as (p' & ran & rest & Hsplit & HB & Hran & _).
    exists p', ran, rest. exact (conj Hsplit (conj HB Hran)).
Defined.

(** A run in which MongoDB cannot be brought up: the error names
    MongoDB, and the Elasticsearch broker, which did start, is back at a
    count of 0. *)
Example Build_failure_example :
  match Build world_no_mongo some_order 0 fresh_process with
  | Some (p', r, e) =>
      r = None /\
      e = Returns (Some (errorString
        "initialization errors: [mongo setup failed: shared mongodb not started: failed to start mongodb container: no runtime]")) /\
      started (globalES (globals p')) = true /\
      refCount (globalES (globals p')) = 0 /\
      refCount (globalMongo (globals p')) = 0
  | None => False
  end.
Proof. vm_compute. repeat split; reflexivity. Qed.

(** A run in which the Elasticsearch client gets no answer: the MongoDB
    broker has started and keeps the reference of a [Build] that never
    returned, and the Elasticsearch broker is left not started with its
    [sync.Once] used. *)
Example Build_panic_example :
  match Build world_broken_client all_kinds 0 fresh_process with
  | Some (p', r, e) =>
      r = None /\
      e = Panics (errorString "EOF") /\
      started (globalMongo (globals p')) = true /\
      refCount (globalMongo (globals p')) = 1 /\
      started (globalES (globals p')) = false /\
      startOnce (globalES (globals p')) = true
  | None => False
  end.
Proof. vm_compute. repeat split; reflexivity. Qed.

(** C3, as stated, fails: the first [Build] returns the instance at
    address 1, the second the builder at address 0. *)
Lemma Build_twice_two_instances :
  Build world_no_reuse all_kinds 0 fresh_process
    = Some (built_process, Some 1%nat, Returns None) /\
  Build world_no_reuse all_kinds 0 built_process
    = Some (built_process, Some 0%nat, Returns None).
Proof. split; vm_compute; reflexivity. Qed.

Lemma Build_again_returns_builder_witness :
  Build world_no_reuse some_order 0 built_process
    = Some (built_process, Some 0%nat, Returns None) /\
  1%nat = length (heap fresh_process) /\ (0 < 1)%nat /\
  exists b1 : TestDependenciesBuilder,
    heap built_process !! 0%nat = Some b1 /\ built b1 = true /\
    heap built_process !! 1%nat = Some (bundle b1).
Proof.
  exact (Build_again_returns_builder world_no_reuse all_kinds some_order 0 1
           fresh_process built_process
           (WithElasticsearch (WithMongo NewTestDependenciesBuilder))
           eq_refl eq_refl eq_refl).
Defined.

End BuilderFacts.

(* ===================================================================== *)
(** * Further properties of the code                                      *)
(* ===================================================================== *)

Module LifecycleFacts.
Import Go Broker Lifecycle GoFacts BrokerFacts Samples.

(** What [startContainer] does to the handles: it leaves them or installs
    the ones of this attempt, and installs the client whenever it returns
    nil. *)
Lemma startContainer_handles (w : World) (k : Kind) (s : Shared) :
  let r := startContainer w k s in
  (client r.1 = client s \/ client r.1 = Some (attempts s)) /\
  (container r.1 = container s \/ container r.1 = Some (attempts s)) /\
  (r.2 = Returns None -> client r.1 = Some (attempts s)).
Proof.
  unfold startContainer, setupExternal, setupTestcontainer.
  destruct (ParseBool _) as [[] ?]; destruct (provision w k (attempts s));
    destruct k; cbn; try (repeat split; auto; done).
  all: destruct (executeInitialSQL _ _); cbn; repeat split; auto; done.
Qed.

Lemma with_paths_frame (k : Kind) (paths : list string) (s : Shared) :
  started (with_paths k paths s) = started s /\
  startOnce (with_paths k paths s) = startOnce s /\
  client (with_paths k paths s) = client s /\
  container (with_paths k paths s) = container s /\
  refCount (with_paths k paths s) = refCount s /\
  attempts (with_paths k paths s) = attempts s /\
  terminated (with_paths k paths s) = terminated s /\
  probes (with_paths k paths s) = probes s /\
  closed (with_paths k paths s) = closed s.
Proof. destruct k; done. Qed.

(** The provisioning under the lock keeps a sound broker sound, and a nil
    return means a started broker with a client. *)
Lemma Start_provision_sound (w : World) (k : Kind) (paths : list string) (s : Shared) :
  started s = false ->
  (forall h, client s = Some h -> (h < attempts s)%nat) ->
  (forall c, container s = Some c -> (c < attempts s)%nat) ->
  is_int32 (refCount s) -> terminated s = [] ->
  sound (Start_provision w k paths s).1 /\
  ((Start_provision w k paths s).2 = Returns None ->
   started (Start_provision w k paths s).1 = true /\
   client (Start_provision w k paths s).1 <> None).
Proof.
  intros Hs Hh Hc Hr Ht. rewrite Start_provision_spec by done.
  destruct (with_paths_frame k paths s) as (P1 & P2 & P3 & P4 & P5 & P6 & P7 & _).
  destruct (startOnce s) eqn:Ho.
  - cbn. split; [|done]. unfold sound. rewrite P1, P3, P4, P5, P6, P7.
    split; [intros H; congruence|]. repeat split; auto; apply Hr.
  - destruct (startContainer_frame w k (with_paths k paths s))
      as (F1 & F2 & F3 & F4 & _ & _ & _ & F8).
    destruct (startContainer_handles w k (with_paths k paths s)) as (H1 & H2 & H3).
    destruct (startContainer w k (with_paths k paths s)) as [s1 e1]. cbn in *.
    rewrite P6 in *. rewrite P3 in H1. rewrite P4 in H2.
    assert (forall h, client s1 = Some h -> (h < attempts s1)%nat) as Hh1.
    { intros h Hcl. rewrite F8. destruct H1 as [E|E]; rewrite E in Hcl.
      - specialize (Hh h Hcl). lia.
      - injection Hcl as <-. lia. }
    assert (forall c, container s1 = Some c -> (c < attempts s1)%nat) as Hc1.
    { intros c Hcl. rewrite F8. destruct H2 as [E|E]; rewrite E in Hcl.
      - specialize (Hc c Hcl). lia.
      - injection Hcl as <-. lia. }
    destruct e1 as [[e|]|v]; cbn.
    + split; [|done]. unfold sound. cbn. rewrite F1, P1, Hs, F3, F4, P5, P7.
      split; [done|]. repeat split; auto; apply Hr.
    + specialize (H3 eq_refl). split.
      * unfold sound. cbn. rewrite F4, P7, H3.
        split; [done|]. split; [intros h [= <-]; lia|].
        split; [done|]. split; [apply AddInt32_range|done].
      * intros _. split; [done|]. cbn. by rewrite H3.
    + split; [|done]. unfold sound. cbn. rewrite F1, P1, Hs, F3, F4, P5, P7.
      split; [done|]. repeat split; auto; apply Hr.
Qed.

(** [Start] keeps a sound broker sound; when it returns nil the broker is
    started and has a client. *)
Lemma Start_sound (w : World) (k : Kind) (paths : list string) (s : Shared) :
  sound s ->
  sound (Start w k paths s).1 /\
  ((Start w k paths s).2 = Returns None ->
   started (Start w k paths s).1 = true /\ client (Start w k paths s).1 <> None).
Proof.
  intros (S1 & S2 & S3 & S4 & S5).
  unfold Start, Start_exclusive, reusable, testConnection.
  destruct (started s) eqn:Hs; cbn [andb].
  - destruct (S1 eq_refl) as [Hcl Ho].
    destruct (client s) as [h|] eqn:Hc; [|done].
    rewrite ?bool_decide_eq_true_2 by done.
    destruct (probe w k (probes s) h) as [e|].
    + cbn. rewrite Hs, Hc. cbn. rewrite ?bool_decide_eq_true_2 by done.
      destruct (probe w k (S (probes s)) h) as [e'|].
      * apply Start_provision_sound; cbn; try done.
        intros h' Hh'. apply S2. congruence.
      * cbn. split; [|by rewrite Hs, Hc].
        unfold sound. cbn. rewrite Hs, Hc, Ho.
        split; [done|]. split; [intros h' [= <-]; by apply S2|].
        split; [done|]. split; [apply AddInt32_range|done].
    + cbn. split; [|by rewrite Hs, Hc].
      unfold sound. cbn. rewrite Hs, Hc, Ho.
      split; [done|]. split; [intros h' [= <-]; by apply S2|].
      split; [done|]. split; [apply AddInt32_range|done].
  - by apply Start_provision_sound.
Qed.

Lemma Stop_frame (w : World) (k : Kind) (s : Shared) :
  started (Stop w k s).1 = started s /\
  startOnce (Stop w k s).1 = startOnce s /\
  client (Stop w k s).1 = client s /\
  attempts (Stop w k s).1 = attempts s.
Proof.
  unfold Stop, stopContainer. rewrite shouldReuseContainer_always.
  destruct (refCount (addRef (-1) s) <=? 0); [|done].
  destruct k; cbn; destruct (client s) eqn:Hcl; cbn; destruct (container s) eqn:Hc;
    cbn; rewrite ?Hcl, ?Hc; done.
Qed.

Lemma Stop_sound (w : World) (k : Kind) (s : Shared) :
  sound s -> sound (Stop w k s).1.
Proof.
  intros (S1 & S2 & S3 & S4 & S5).
  destruct (Stop_spec w k s) as (_ & Hr & Ht & Hc).
  destruct (Stop_frame w k s) as (F1 & F2 & F3 & F4).
  unfold sound. rewrite F1, F2, F3, F4, Hr, Ht, Hc.
  split; [done|]. split; [done|]. split; [done|].
  split; [apply AddInt32_range|done].
Qed.

Lemma zero_sound : sound zero.
Proof. unfold sound, is_int32. cbn. repeat split; try done; lia. Qed.

Lemma perform_Release (w : World) (k : Kind) (s : Shared) :
  perform w k Release s = ((Stop w k s).1, Returns (Stop w k s).2).
Proof. unfold perform. by destruct (Stop w k s). Qed.

Lemma history_sound (w : World) (k : Kind) (calls : list call) :
  forall s, sound s -> sound (history w k calls s).1.
Proof.
  induction calls as [|c calls IH]; intros s Hs; [done|].
  cbn [history].
  assert (sound (perform w k c s).1) as Hs1.
  { destruct c; [by apply Start_sound|].
    rewrite perform_Release. by apply Stop_sound. }
  destruct (perform w k c s) as [s1 [e1|v]]; [|done]. specialize (IH s1 Hs1).
  by destruct (history w k calls s1).
Qed.

(** X1.  Whatever sequence of [Start] and [Stop] calls a broker has been
    through since its zero value, a [Start] that returns nil leaves it
    started, with a client that [GetClient] hands out and that one of its
    provisioning attempts created. *)
Theorem acquired_handle_is_ready (w : World) (k : Kind) (calls : list call)
  (paths : list string) :
  let s := (history w k calls zero).1 in
  (Start w k paths s).2 = Returns None ->
  started (Start w k paths s).1 = true /\
  exists h, GetClient (Start w k paths s).1 = Some h /\
            (h < attempts (Start w k paths s).1)%nat.
Proof.
  intros s Hnil.
  pose proof (history_sound w k calls zero zero_sound) as Hs. fold s in Hs.
  destruct (Start_sound w k paths s Hs) as [(_ & Hh & _) Hok].
  destruct (Hok Hnil) as [Hst Hcl]. split; [done|].
  unfold GetClient. destruct (client (Start w k paths s).1) as [h|] eqn:E; [|done].
  exists h. split; [done|]. by apply Hh.
Qed.

Lemma acquired_handle_is_ready_witness :
  let s := (history world_no_reuse MongoDB two_in_one_out zero).1 in
  started (Start world_no_reuse MongoDB [] s).1 = true /\
  exists h, GetClient (Start world_no_reuse MongoDB [] s).1 = Some h /\
            (h < attempts (Start world_no_reuse MongoDB [] s).1)%nat.
Proof.
  assert ((Start world_no_reuse MongoDB []
             (history world_no_reuse MongoDB two_in_one_out zero).1).2 = Returns None)
    as Hnil by (vm_compute; reflexivity).
  exact (acquired_handle_is_ready world_no_reuse MongoDB two_in_one_out [] Hnil).
Defined.

(** X2.  Reference accounting.  After any sequence of calls the count is the
    count before, plus one for each [Start] that returned nil, minus one
    for each [Stop] (a [Start] that failed or panicked adds nothing), taken
    in int32; and no sequence of calls terminates a container. *)
Theorem history_balance (w : World) (k : Kind) (calls : list call) :
  forall s, is_int32 (refCount s) ->
  refCount (history w k calls s).1
    = wrap32 (refCount s + balance calls (history w k calls s).2) /\
  terminated (history w k calls s).1 = terminated s.
Proof.
  induction calls as [|c calls IH]; intros s Hr.
  - cbn. rewrite Z.add_0_r. by rewrite wrap32_id.
  - cbn [history].
    assert (is_int32 (refCount (perform w k c s).1) /\
            terminated (perform w k c s).1 = terminated s /\
            refCount (perform w k c s).1
            = wrap32 (refCount s + match c, (perform w k c s).2 with
                                   | Acquire _, Returns None => 1
                                   | Acquire _, _ => 0
                                   | Release, _ => -1
                                   end)) as (Hr1 & Ht1 & Hc1).
    { destruct c as [paths|].
      - cbn [perform].
        destruct (Start_spec w k paths s) as [Hc Ht]. rewrite Hc, Ht.
        destruct (Start w k paths s).2 as [[e|]|v].
        + rewrite Z.add_0_r. rewrite wrap32_id by done. done.
        + split; [apply AddInt32_range|done].
        + rewrite Z.add_0_r. rewrite wrap32_id by done. done.
      - rewrite perform_Release. cbn [fst snd].
        destruct (Stop_spec w k s) as (_ & Hc & Ht & _). rewrite Hc, Ht.
        split; [apply AddInt32_range|done]. }
    destruct (perform w k c s) as [s1 [e1|v]] eqn:Hp; cbn in Hr1, Ht1, Hc1.
    + specialize (IH s1 Hr1).
      destruct (history w k calls s1) as [s2 exits]. cbn in IH |- *.
      destruct IH as [IH1 IH2]. rewrite IH1, IH2, Ht1, Hc1. split; [|done].
      rewrite wrap32_add_l. f_equal.
      destruct c, e1; cbn; lia.
    + destruct c as [paths|]; [|by rewrite perform_Release in Hp].
      cbn. split; [|done]. rewrite Hc1. by destruct calls as [|[]].
Qed.

Lemma history_balance_witness :
  refCount (history world_no_reuse MongoDB two_in_one_out zero).1
    = wrap32 (refCount zero
              + balance two_in_one_out
                  (history world_no_reuse MongoDB two_in_one_out zero).2) /\
  terminated (history world_no_reuse MongoDB two_in_one_out zero).1 = terminated zero.
Proof.
  assert (is_int32 (refCount zero)) as Hcount by (unfold is_int32; cbn; lia).
  exact (history_balance world_no_reuse MongoDB two_in_one_out zero Hcount).
Defined.

Lemma perform_spent (w : World) (k : Kind) (c : call) (s : Shared) :
  spent s ->
  spent (perform w k c s).1 /\ attempts (perform w k c s).1 = attempts s /\
  spent_result k c (perform w k c s).2.
Proof.
  intros [Hs Ho]. destruct c as [paths|].
  - cbn [perform spent_result].
    rewrite Start_not_started, Start_provision_spec, Ho by done. cbn.
    destruct (with_paths_frame k paths s) as (P1 & P2 & _ & _ & _ & P6 & _).
    unfold spent. rewrite P1, P2, P6. done.
  - rewrite perform_Release. cbn [fst snd spent_result].
    destruct (Stop_frame w k s) as (F1 & F2 & _ & F4).
    destruct (Stop_spec w k s) as (He & _).
    unfold spent. rewrite F1, F2, F4, He. done.
Qed.

(** X3.  A broker whose one provisioning attempt has failed does not
    recover: whatever is called on it afterwards, no new attempt is made,
    every [Start] returns the not-started error that wraps nothing, and
    every [Stop] returns nil. *)
Theorem spent_broker_stays_spent (w : World) (k : Kind) (calls : list call) :
  forall s, spent s ->
  spent (history w k calls s).1 /\
  attempts (history w k calls s).1 = attempts s /\
  Forall2 (spent_result k) calls (history w k calls s).2.
Proof.
  induction calls as [|c calls IH]; intros s Hs.
  - cbn. repeat split; try apply Hs. constructor.
  - cbn [history]. destruct (perform_spent w k c s Hs) as (H1 & H2 & H3).
    destruct (perform w k c s) as [s1 [e1|v]]; cbn in H1, H2, H3;
      [|by destruct c].
    destruct (IH s1 H1) as (I1 & I2 & I3).
    destruct (history w k calls s1) as [s2 exits]. cbn in *.
    split; [done|]. split; [congruence|]. by constructor.
Qed.

Lemma spent_broker_stays_spent_witness :
  spent (history world_down Elasticsearch two_in_one_out spent_broker).1 /\
  attempts (history world_down Elasticsearch two_in_one_out spent_broker).1
    = attempts spent_broker /\
  Forall2 (spent_result Elasticsearch) two_in_one_out
    (history world_down Elasticsearch two_in_one_out spent_broker).2.
Proof.
  assert (spent spent_broker) as Hspent by (split; vm_compute; reflexivity).
  exact (spent_broker_stays_spent world_down Elasticsearch two_in_one_out
           spent_broker Hspent).
Defined.

(** X4.  A started broker whose client answers the probe, at the first check
    or at the check under the lock, is reused: [Start] returns nil,
    provisions nothing, keeps client, container and URL, and adds one
    reference. *)
Theorem Start_reuses_answering_handle (w : World) (k : Kind) (paths : list string)
  (s : Shared) (h : Handle) :
  started s = true -> client s = Some h ->
  probe w k (probes s) h = None \/ probe w k (S (probes s)) h = None ->
  (Start w k paths s).2 = Returns None /\
  attempts (Start w k paths s).1 = attempts s /\
  client (Start w k paths s).1 = Some h /\
  container (Start w k paths s).1 = container s /\
  url (Start w k paths s).1 = url s /\
  started (Start w k paths s).1 = true /\
  refCount (Start w k paths s).1 = AddInt32 (refCount s) 1.
Proof.
  intros Hs Hc Hp.
  unfold Start, Start_exclusive, reusable, testConnection. rewrite Hs, Hc. cbn.
  destruct (probe w k (probes s) h) as [e|] eqn:E1; [|done].
  destruct Hp as [Hp|Hp]; [done|]. cbn. rewrite Hs, Hc. cbn. rewrite Hp. done.
Qed.

Lemma Start_reuses_answering_handle_witness :
  (Start world_no_reuse MongoDB [] running).2 = Returns None /\
  attempts (Start world_no_reuse MongoDB [] running).1 = attempts running /\
  client (Start world_no_reuse MongoDB [] running).1 = Some 0%nat /\
  container (Start world_no_reuse MongoDB [] running).1 = container running /\
  url (Start world_no_reuse MongoDB [] running).1 = url running /\
  started (Start world_no_reuse MongoDB [] running).1 = true /\
  refCount (Start world_no_reuse MongoDB [] running).1 = AddInt32 (refCount running) 1.
Proof.
  exact (Start_reuses_answering_handle world_no_reuse MongoDB [] running 0%nat
           eq_refl eq_refl (or_introl eq_refl)).
Defined.

(** X5.  For MongoDB and PostgreSQL, a [Stop] that brings the count to zero
    or below closes the client, yet leaves the broker started and
    [GetClient] still handing out the closed client. *)
Theorem last_release_keeps_closed_client (w : World) (k : Kind) (s : Shared)
  (h : Handle) :
  k <> Elasticsearch -> client s = Some h ->
  - 2 ^ 31 < refCount s <= 1 ->
  (Stop w k s).2 = None /\
  closed (Stop w k s).1 = h :: closed s /\
  GetClient (Stop w k s).1 = Some h /\
  started (Stop w k s).1 = started s.
Proof.
  intros Hk Hc Hr.
  destruct (Stop_spec w k s) as (He & _).
  destruct (Stop_frame w k s) as (F1 & _ & F3 & _).
  unfold GetClient. rewrite He, F1, F3, Hc. repeat split; try done.
  unfold Stop, stopContainer, addRef. rewrite shouldReuseContainer_always.
  cbn. unfold AddInt32. rewrite wrap32_id by (unfold is_int32; lia).
  destruct (Z.leb_spec (refCount s + -1) 0); [|lia].
  destruct k; [done| |]; cbn; rewrite Hc; cbn; by destruct (container s).
Qed.

Lemma last_release_keeps_closed_client_witness :
  (Stop world_no_reuse MongoDB running).2 = None /\
  closed (Stop world_no_reuse MongoDB running).1 = 0%nat :: closed running /\
  GetClient (Stop world_no_reuse MongoDB running).1 = Some 0%nat /\
  started (Stop world_no_reuse MongoDB running).1 = started running.
Proof.
  assert (MongoDB <> Elasticsearch) as Hkind by discriminate.
  assert (- 2 ^ 31 < refCount running <= 1) as Hcount by (cbn; lia).
  exact (last_release_keeps_closed_client world_no_reuse MongoDB running 0%nat
           Hkind eq_refl Hcount).
Defined.

(** X6.  PostgreSQL: when the service comes up and the initial scripts fail,
    [Start] returns the not-started error wrapping the script failure, the
    broker is not started and its one attempt is spent, but the connection
    that attempt opened stays installed. *)
Theorem failed_scripts_leave_connection (w : World) (paths : list string)
  (s : Shared) (address : string) (e : error) :
  started s = false -> startOnce s = false -> paths <> [] ->
  provision w PostgreSQL (attempts s) = Up address ->
  initial_sql w paths = Some e ->
  (Start w PostgreSQL paths s).2
    = Returns (Some (Errorf_w "shared postgresql not started: "
                       (Some (Errorf_w "failed to execute initial SQL: " (Some e))))) /\
  started (Start w PostgreSQL paths s).1 = false /\
  startOnce (Start w PostgreSQL paths s).1 = true /\
  GetClient (Start w PostgreSQL paths s).1 = Some (attempts s).
Proof.
  intros Hs Ho Hp Hup Hsql.
  rewrite Start_not_started, Start_provision_spec, Ho by done.
  unfold startContainer, setupExternal, setupTestcontainer, executeInitialSQL.
  cbn. rewrite Hup.
  assert (bool_decide (length paths = 0%nat) = false) as Hlen.
  { apply bool_decide_eq_false_2. by destruct paths. }
  destruct (ParseBool _) as [[] ?]; cbn; rewrite Hlen, Hsql; cbn; rewrite Hs; done.
Qed.

Lemma failed_scripts_leave_connection_witness :
  (Start world_bad_script PostgreSQL ["schema.sql"] zero).2
    = Returns (Some (Errorf_w "shared postgresql not started: "
                       (Some (Errorf_w "failed to execute initial SQL: "
                                (Some (errorString
                                         "pq: syntax error at or near CREAT")))))) /\
  started (Start world_bad_script PostgreSQL ["schema.sql"] zero).1 = false /\
  startOnce (Start world_bad_script PostgreSQL ["schema.sql"] zero).1 = true /\
  GetClient (Start world_bad_script PostgreSQL ["schema.sql"] zero).1
    = Some (attempts zero).
Proof.
  assert (["schema.sql"] <> @nil string) as Hpaths by discriminate.
  exact (failed_scripts_leave_connection world_bad_script ["schema.sql"] zero
           "host=127.0.0.1 port=5432"
           (errorString "pq: syntax error at or near CREAT")
           eq_refl eq_refl Hpaths eq_refl eq_refl).
Defined.

End LifecycleFacts.

Module RaceFailureFacts.
Import Go Broker Race RaceFailure Lifecycle GoFacts BrokerFacts RaceFacts LifecycleFacts Samples.

Lemma causes_insert (l : list pc) (i : nat) (p q : pc) :
  l !! i = Some p ->
  (causes (<[i := q]> l) + (if carries_cause p then 1 else 0)
   = causes l + (if carries_cause q then 1 else 0))%nat.
Proof.
  unfold causes. revert i. induction l as [|x l IH]; intros [|i] Hi; try done.
  - cbn in Hi. simplify_eq. cbn [List.filter].
    change (<[0%nat:=q]> (p :: l)) with (q :: l). cbn [List.filter].
    destruct (carries_cause p), (carries_cause q); cbn [length]; lia.
  - cbn in Hi. specialize (IH i Hi).
    change (<[S i:=q]> (x :: l)) with (x :: <[i:=q]> l).
    cbn [List.filter]. revert IH.
    destruct (carries_cause x), (carries_cause p), (carries_cause q); cbn [length]; lia.
Qed.

Lemma causes_none (l : list pc) :
  Forall (fun p => p = AtCheck \/ p = AtLock) l -> causes l = 0%nat.
Proof.
  unfold causes. induction 1 as [|x l [-> | ->] _ IH]; done.
Qed.

Lemma startContainer_down (w : World) (k : Kind) (s : Shared) (cause : error) :
  provision w k (attempts s) = Down cause ->
  (startContainer w k s).2 = Returns (Some cause) /\
  client (startContainer w k s).1 = client s.
Proof.
  intros Hd. unfold startContainer, setupExternal, setupTestcontainer.
  destruct (ParseBool _) as [[] ?]; cbn; rewrite Hd; done.
Qed.

Lemma failed_alive (k : Kind) (cause : error) (s0 : Shared) (c : Conc) :
  failed k cause s0 c -> crashed c = false.
Proof.
  intros (_ & _ & _ & _ & _ & _ & Hall). apply crashed_Forall.
  eapply Forall_impl; [exact Hall|]. by intros p [-> | [-> | [-> | ->]]].
Qed.

Section Failure.
Context (w : World) (k : Kind) (paths : list string) (s0 : Shared) (cause : error).
Hypothesis not_started : started s0 = false.
Hypothesis once_fresh : startOnce s0 = false.
Hypothesis stays_down : provision w k (attempts s0) = Down cause.

Lemma step_before_failure (i : nat) (c : Conc) :
  before s0 c ->
  before s0 (step w k paths i c) \/ failed k cause s0 (step w k paths i c).
Proof.
  intros Hbefore. pose proof (before_alive _ _ Hbefore) as Hlive.
  destruct Hbefore as [Hsh Hall]. unfold step. rewrite Hlive.
  destruct (goroutines c !! i) as [p|] eqn:Hp; [|left; done].
  pose proof (Forall_lookup_1 _ _ _ _ Hall Hp) as [-> | ->].
  - left. rewrite Hsh. unfold reusable. rewrite not_started. cbn [andb].
    split; [done|]. cbn [goroutines]. apply Forall_insert; auto.
  - right. rewrite Hsh. unfold Start_exclusive, reusable. rewrite not_started.
    cbn [andb]. rewrite Start_provision_spec, once_fresh by done.
    destruct (with_paths_frame k paths s0) as (P1 & _ & P3 & _ & P5 & P6 & _).
    destruct (startContainer_down w k (with_paths k paths s0) cause) as [He Hc];
      [by rewrite P6|].
    destruct (startContainer_frame w k (with_paths k paths s0))
      as (F1 & _ & F3 & _ & _ & _ & _ & F8).
    destruct (startContainer w k (with_paths k paths s0)) as [s1 e1].
    cbn in He, Hc, F1, F3, F8. subst e1. unfold failed, with_cause.
    cbn [shared goroutines started startOnce attempts refCount client
         set_startOnce fst snd].
    pose proof (causes_insert _ i _ (Returned (Some (Errorf_w (not_started_prefix k) (Some cause)))) Hp)
      as Hcount.
    rewrite (causes_none _ Hall) in Hcount. cbn in Hcount.
    rewrite Nat.add_0_r in Hcount.
    repeat split; try congruence; [exact Hcount|].
    apply Forall_insert; [|auto].
    eapply Forall_impl; [exact Hall|]. intros p [-> | ->]; auto.
Qed.

Lemma step_failed (i : nat) (c : Conc) :
  failed k cause s0 c -> failed k cause s0 (step w k paths i c).
Proof.
  intros Hfailed. pose proof (failed_alive _ _ _ _ Hfailed) as Hlive.
  destruct Hfailed as (Hs & Ho & Ha & Hr & Hcl & Hn & Hall). unfold step.
  rewrite Hlive.
  destruct (goroutines c !! i) as [p|] eqn:Hp; [|done].
  pose proof (causes_insert (goroutines c) i p) as Hins.
  pose proof (Forall_lookup_1 _ _ _ _ Hall Hp) as [-> | [-> | [-> | ->]]].
  - unfold reusable. rewrite Hs. cbn [andb].
    specialize (Hins AtLock Hp). cbn [carries_cause] in Hins.
    rewrite !Nat.add_0_r in Hins.
    unfold failed. cbn [shared goroutines].
    repeat split; try done; [congruence|]. apply Forall_insert; auto.
  - unfold Start_exclusive, reusable. rewrite Hs. cbn [andb].
    rewrite Start_provision_spec, Ho by done.
    destruct (with_paths_frame k paths (shared c)) as (P1 & P2 & P3 & _ & P5 & P6 & _).
    specialize (Hins (Returned (Some (Errorf_w (not_started_prefix k) None))) Hp).
    cbn [carries_cause Errorf_w] in Hins. rewrite !Nat.add_0_r in Hins.
    unfold failed, without_cause. cbn [shared goroutines].
    rewrite P1, P2, P3, P5, P6.
    repeat split; try done; [by rewrite <- Hn|]. apply Forall_insert; auto.
  - done.
  - done.
Qed.

Lemma run_failure_invariant (sched : list nat) :
  forall c, before s0 c \/ failed k cause s0 c ->
            before s0 (run w k paths sched c) \/ failed k cause s0 (run w k paths sched c).
Proof.
  induction sched as [|j sched IH]; intros c Hc; [done|].
  cbn [run foldl]. fold (run w k paths sched (step w k paths j c)).
  apply IH. destruct Hc as [Hc|Hc].
  - by apply step_before_failure.
  - right. by apply step_failed.
Qed.

End Failure.

(** X7.  The race on a broker that cannot be provisioned: when N goroutines
    call [Start] at once and provisioning fails, under every fair schedule
    exactly one attempt is made, all N return a not-started error, no
    reference is added, and exactly one of the errors wraps the cause; the
    others wrap nothing. *)
Theorem race_on_failing_provisioner (w : World) (k : Kind) (paths : list string)
  (s : Shared) (cause : error) (N : nat) (sched : list nat) :
  started s = false -> startOnce s = false ->
  provision w k (attempts s) = Down cause ->
  (0 < N)%nat ->
  (forall i, (i < N)%nat -> (3 <= turns i sched)%nat) ->
  let c := run w k paths sched (spawn N s) in
  attempts (shared c) = S (attempts s) /\
  started (shared c) = false /\
  refCount (shared c) = refCount s /\
  Forall (fun p => p = Returned (Some (with_cause k cause)) \/
                   p = Returned (Some (without_cause k))) (goroutines c) /\
  length (goroutines c) = N /\
  causes (goroutines c) = 1%nat.
Proof.
  intros Hs Ho Hd HN Hfair c.
  assert (before s c \/ failed k cause s c) as Hinv.
  { apply (run_failure_invariant w k paths s cause); try done.
    left. apply spawn_before. }
  assert (length (goroutines c) = N) as Hlen.
  { subst c. rewrite run_length. cbn. by rewrite length_replicate. }
  assert (forall i p, goroutines c !! i = Some p -> exists e, p = Returned e) as Hret.
  { intros i p Hp.
    assert (i < N)%nat as Hi by (apply lookup_lt_Some in Hp; lia).
    destruct (run_rank w k paths sched i (spawn N s) AtCheck) as (q & Hq & Hle).
    { destruct Hinv as [Hb|Hf]; [by eapply before_alive|by eapply failed_alive]. }
    { cbn. by apply lookup_replicate_2. }
    fold c in Hq. rewrite Hp in Hq. injection Hq as <-.
    specialize (Hfair i Hi). cbn in Hle.
    destruct p as [| | | |e|v]; cbn in Hle; try lia; [by exists e|].
    destruct Hinv as [[_ Hb]|(_ & _ & _ & _ & _ & _ & Hf)].
    - pose proof (Forall_lookup_1 _ _ _ _ Hb Hp) as [?|?]; done.
    - pose proof (Forall_lookup_1 _ _ _ _ Hf Hp) as [?|[?|[?|?]]]; done. }
  destruct Hinv as [[_ Hb]|(H1 & H2 & H3 & H4 & H5 & H6 & H7)].
  - exfalso. destruct (goroutines c) as [|p l] eqn:E; [cbn in Hlen; lia|].
    destruct (Hret 0%nat p eq_refl) as [e ->].
    apply Forall_cons in Hb as [[?|?] _]; done.
  - repeat split; try done.
    apply Forall_lookup_2. intros i p Hp.
    destruct (Hret i p Hp) as [e ->].
    pose proof (Forall_lookup_1 _ _ _ _ H7 Hp) as [?|[?|[?|?]]]; try done; auto.
Qed.

Lemma race_on_failing_provisioner_witness :
  let c := run world_down Elasticsearch [] two_goroutines (spawn 2 zero) in
  attempts (shared c) = 1%nat /\
  started (shared c) = false /\
  refCount (shared c) = 0 /\
  Forall (fun p =>
            p = Returned (Some (with_cause Elasticsearch
                                  (errorString "Cannot connect to the Docker daemon"))) \/
            p = Returned (Some (without_cause Elasticsearch))) (goroutines c) /\
  length (goroutines c) = 2%nat /\
  causes (goroutines c) = 1%nat.
Proof.
  assert (forall i, (i < 2)%nat -> (3 <= turns i two_goroutines)%nat) as Hfair
    by (intros [|[|i]] Hi; cbn; lia).
  exact (race_on_failing_provisioner world_down Elasticsearch [] zero
           (errorString "Cannot connect to the Docker daemon") 2 two_goroutines
           eq_refl eq_refl eq_refl (Nat.lt_0_succ 1) Hfair).
Defined.

End RaceFailureFacts.

Module BundleFacts.
Import Go Broker Builder Bundle Lifecycle GoFacts BrokerFacts BuilderFacts LifecycleFacts Samples.

Lemma order_facts (order : list Kind) :
  order ≡ₚ all_kinds -> NoDup order /\ forall k, k ∈ order.
Proof.
  intros Hperm. split.
  - rewrite Hperm. unfold all_kinds.
    repeat (apply NoDup_cons; split;
            [rewrite ?not_elem_of_cons; repeat split; try done; apply not_elem_of_nil|]).
    apply NoDup_nil_2.
  - intros k. rewrite Hperm. unfold all_kinds. rewrite !elem_of_cons.
    destruct k; auto.
Qed.

Lemma requested_facts (b : TestDependenciesBuilder) (order : list Kind) :
  order ≡ₚ all_kinds ->
  NoDup (requested b order) /\ forall k, k ∈ requested b order <-> needs b k = true.
Proof.
  intros Hperm. destruct (order_facts order Hperm) as [Hnd Hall]. split.
  - by apply NoDup_filter.
  - intros k. unfold requested. rewrite list_elem_of_filter.
    split; [by intros [? _]|]. intros Hk. split; [done|apply Hall].
Qed.

(** What a goroutine stores of its broker's client. *)
Lemma goroutine_conn (w : World) (k j : Kind) (b : TestDependenciesBuilder)
  (g : Globals) (errors : list error) :
  conn j (goroutine w k (b, g, errors, None)).1.1.1
  = if decide (j = k)
    then (if succeeds w b g k then GetClient (outcome w b g k).1 else conn j b)
    else conn j b.
Proof.
  unfold goroutine, succeeds, outcome.
  assert (start_args (referenced k b) k = start_args b k) as -> by (destruct k; done).
  destruct (Start w k (start_args b k) (broker k g)) as [s [[e|]|v]]; cbn;
    destruct k, j; done.
Qed.

Lemma goroutines_conn (w : World) (b : TestDependenciesBuilder) (g : Globals)
  (l : list Kind) :
  NoDup l ->
  (forall k, k ∈ l -> panics w b g k = None) ->
  forall j,
    conn j (foldl (fun st k => goroutine w k st) (b, g, [], None) l).1.1.1
    = if decide (j ∈ l)
      then (if succeeds w b g j then GetClient (outcome w b g j).1 else conn j b)
      else conn j b.
Proof.
  induction l as [|k l IH] using rev_ind; intros Hnd Hret j.
  - cbn. by rewrite decide_False by apply not_elem_of_nil.
  - apply NoDup_app in Hnd as (Hl & Hk & _).
    rewrite foldl_app. cbn [foldl].
    assert (forall i, i ∈ l -> panics w b g i = None) as Hret'
      by (intros i Hi; apply Hret, elem_of_app; by left).
    pose proof (goroutines_spec w b g l Hl Hret') as Hsp.
    specialize (IH Hl Hret' j).
    destruct (foldl _ _ l) as [[[b1 g1] e1] c1]. cbn [fst] in IH.
    destruct Hsp as (I1 & _ & _ & I4 & _ & _ & ->).
    assert (k ∉ l) as Hkl by (intros Hin; apply (Hk k Hin); by left).
    assert (outcome w b1 g1 k = outcome w b g k) as Ho.
    { apply outcome_ext; [done|]. rewrite I4. by rewrite decide_False. }
    assert (succeeds w b1 g1 k = succeeds w b g k) as Hsu
      by (unfold succeeds; by rewrite Ho).
    rewrite goroutine_conn, Hsu, Ho.
    destruct (decide (j = k)) as [->|Hne].
    + rewrite decide_True by (apply elem_of_app; right; by left).
      destruct (succeeds w b g k); [done|]. rewrite IH. by rewrite decide_False.
    + rewrite IH. destruct (decide (j ∈ l)) as [Hin|Hnin].
      * rewrite decide_True; [done|]. apply elem_of_app. by left.
      * rewrite decide_False; [done|].
        intros [?|?%list_elem_of_singleton]%elem_of_app; done.
Qed.

Lemma filter_all {A : Type} (f : A -> bool) (l : list A) :
  (forall x, x ∈ l -> f x = true) -> List.filter f l = l.
Proof.
  induction l as [|x l IH]; intros H; [done|]. cbn.
  rewrite (H x) by left. f_equal. apply IH. intros y Hy. apply H. by right.
Qed.

Lemma omap_none {A B : Type} (f : A -> option B) (l : list A) :
  (forall x, x ∈ l -> f x = None) -> omap f l = [].
Proof.
  induction l as [|x l IH]; intros H; [done|]. cbn.
  rewrite (H x) by left. apply IH. intros y Hy. apply H. by right.
Qed.

(** [Build] when every requested kind starts. *)
Lemma Build_success_spec (w : World) (order : list Kind) (b : nat) (p : Process)
  (bv : TestDependenciesBuilder) :
  order ≡ₚ all_kinds ->
  heap p !! b = Some bv -> built bv = false ->
  (forall k, needs bv k = true -> succeeds w bv (globals p) k = true) ->
  exists (g' : Globals) (b1 : TestDependenciesBuilder),
    Build w order b p
      = Some (mkProcess (<[b := set_built true b1]> (heap p) ++ [bundle (set_built true b1)]) g',
              Some (length (heap p)), Returns None) /\
    cleanupFuncs b1 = cleanupFuncs bv ++ requested bv order /\
    (forall k, conn k b1 = if needs bv k then GetClient (outcome w bv (globals p) k).1
                           else conn k bv) /\
    (forall k, broker k g' = if needs bv k then (outcome w bv (globals p) k).1
                             else broker k (globals p)).
Proof.
  intros Hperm Hb Hbuilt Hok.
  destruct (requested_facts bv order Hperm) as [Hnd Hl].
  unfold Build. rewrite Hb. cbn [mbind option_bind]. rewrite Hbuilt.
  fold (requested bv order).
  assert (forall k, k ∈ requested bv order -> panics w bv (globals p) k = None)
    as Hret by (intros k Hk; by apply succeeds_no_panic, Hok, Hl).
  pose proof (goroutines_spec w bv (globals p) (requested bv order) Hnd Hret) as Hg.
  pose proof (goroutines_conn w bv (globals p) (requested bv order) Hnd Hret) as Hcn.
  destruct (foldl _ _ (requested bv order)) as [[[b1 g1] errors] crash].
  cbn [fst] in Hcn.
  destruct Hg as (_ & _ & _ & G4 & G5 & G6 & ->).
  assert (errors = []) as ->.
  { rewrite G5. apply omap_none. intros k Hk. apply Hl in Hk.
    specialize (Hok k Hk). unfold failure, succeeds in *.
    by destruct (outcome w bv (globals p) k).2 as [[?|]|?]. }
  cbn [length Nat.ltb Nat.leb].
  exists g1, b1. split; [done|]. split; [|split].
  - rewrite G6. f_equal. apply filter_all. intros k Hk. apply Hok. by apply Hl.
  - intros k. rewrite Hcn. destruct (needs bv k) eqn:Hn.
    + rewrite decide_True by (by apply Hl). by rewrite Hok.
    + rewrite decide_False; [done|]. intros Hin. apply Hl in Hin. congruence.
  - intros k. rewrite G4. destruct (needs bv k) eqn:Hn.
    + by rewrite decide_True by (by apply Hl).
    + rewrite decide_False; [done|]. intros Hin. apply Hl in Hin. congruence.
Qed.

Lemma conn_bundle (k : Kind) (b : TestDependenciesBuilder) :
  conn k (bundle (set_built true b)) = conn k b.
Proof. by destruct k. Qed.

Lemma failing_or_all_succeed (w : World) (bv : TestDependenciesBuilder) (g : Globals) :
  (exists k0, needs bv k0 = true /\ succeeds w bv g k0 = false) \/
  (forall k, needs bv k = true -> succeeds w bv g k = true).
Proof.
  destruct (needs bv PostgreSQL && negb (succeeds w bv g PostgreSQL)) eqn:E1;
    [left; exists PostgreSQL; apply andb_true_iff in E1 as [? ?%negb_true_iff]; done|].
  destruct (needs bv MongoDB && negb (succeeds w bv g MongoDB)) eqn:E2;
    [left; exists MongoDB; apply andb_true_iff in E2 as [? ?%negb_true_iff]; done|].
  destruct (needs bv Elasticsearch && negb (succeeds w bv g Elasticsearch)) eqn:E3;
    [left; exists Elasticsearch; apply andb_true_iff in E3 as [? ?%negb_true_iff]; done|].
  right. intros [] Hn; rewrite Hn in *; cbn in *;
    by match goal with H : negb ?x = false |- ?x = true => destruct x end.
Qed.

(** X8.  A successful [Build]: when every requested service starts, [Build]
    returns a new instance, marked built, whose connection for each
    requested kind is the client of that kind's broker, now started and
    holding one more reference; one cleanup function per requested kind is
    registered, and the brokers and connections of the kinds not requested
    are untouched. *)
Theorem Build_success_bundle (w : World) (order : list Kind) (b : nat) (p : Process)
  (bv : TestDependenciesBuilder) :
  order ≡ₚ all_kinds ->
  heap p !! b = Some bv -> built bv = false ->
  (forall k, sound (broker k (globals p))) ->
  (forall k, needs bv k = true -> succeeds w bv (globals p) k = true) ->
  exists (p' : Process) (bnd : TestDependenciesBuilder),
    Build w order b p = Some (p', Some (length (heap p)), Returns None) /\
    heap p' !! length (heap p) = Some bnd /\
    built bnd = true /\
    cleanupFuncs bnd = cleanupFuncs bv ++ requested bv order /\
    (forall k, needs bv k = true ->
       exists h, conn k bnd = Some h /\
                 GetClient (broker k (globals p')) = Some h /\
                 started (broker k (globals p')) = true /\
                 refCount (broker k (globals p'))
                 = AddInt32 (refCount (broker k (globals p))) 1) /\
    (forall k, needs bv k = false ->
       broker k (globals p') = broker k (globals p) /\ conn k bnd = conn k bv).
Proof.
  intros Hperm Hb Hbuilt Hsound Hok.
  destruct (Build_success_spec w order b p bv Hperm Hb Hbuilt Hok)
    as (g' & b1 & HB & Hcf & Hcn & Hbr).
  eexists _, (bundle (set_built true b1)). split; [exact HB|].
  cbn [heap globals]. split.
  { rewrite lookup_app_r by (by rewrite length_insert).
    by rewrite length_insert, Nat.sub_diag. }
  split; [done|]. split; [done|]. split.
  - intros k Hn. rewrite conn_bundle, Hcn, Hbr, Hn.
    specialize (Hok k Hn). unfold succeeds, outcome in *.
    destruct (Start_sound w k (start_args bv k) (broker k (globals p)) (Hsound k))
      as [_ Hready].
    destruct (Start_spec w k (start_args bv k) (broker k (globals p))) as [Hc _].
    destruct (Start w k (start_args bv k) (broker k (globals p))) as [s1 [[e|]|v]];
      [done| |done]. cbn in *.
    destruct (Hready eq_refl) as [Hst Hcl]. unfold GetClient.
    destruct (client s1) as [h|]; [|done]. by exists h.
  - intros k Hn. by rewrite conn_bundle, Hcn, Hbr, Hn.
Qed.

Lemma Build_success_bundle_witness :
  exists (p' : Process) (bnd : TestDependenciesBuilder),
    Build world_no_reuse some_order 0 fresh_process
      = Some (p', Some (length (heap fresh_process)), Returns None) /\
    heap p' !! length (heap fresh_process) = Some bnd /\
    built bnd = true /\
    cleanupFuncs bnd
      = cleanupFuncs (WithElasticsearch (WithMongo NewTestDependenciesBuilder))
        ++ requested (WithElasticsearch (WithMongo NewTestDependenciesBuilder))
             some_order /\
    (forall k, needs (WithElasticsearch (WithMongo NewTestDependenciesBuilder)) k = true ->
       exists h, conn k bnd = Some h /\
                 GetClient (broker k (globals p')) = Some h /\
                 started (broker k (globals p')) = true /\
                 refCount (broker k (globals p'))
                 = AddInt32 (refCount (broker k (globals fresh_process))) 1) /\
    (forall k, needs (WithElasticsearch (WithMongo NewTestDependenciesBuilder)) k = false ->
       broker k (globals p') = broker k (globals fresh_process) /\
       conn k bnd = conn k (WithElasticsearch (WithMongo NewTestDependenciesBuilder))).
Proof.
  assert (forall k, sound (broker k (globals fresh_process))) as Hsound
    by (intros []; apply zero_sound).
  assert (forall k,
            needs (WithElasticsearch (WithMongo NewTestDependenciesBuilder)) k = true ->
            succeeds world_no_reuse
              (WithElasticsearch (WithMongo NewTestDependenciesBuilder))
              (globals fresh_process) k = true) as Hup
    by (intros [] H; vm_compute in H |- *; congruence).
  exact (Build_success_bundle world_no_reuse some_order 0 fresh_process
           (WithElasticsearch (WithMongo NewTestDependenciesBuilder))
           some_order_permutation eq_refl eq_refl Hsound Hup).
Defined.

(** A [Build] that returns met no panic. *)
Lemma Build_returns_no_panic (w : World) (order : list Kind) (b : nat)
  (p p' : Process) (bv : TestDependenciesBuilder) (r : option nat) (e : option error) :
  order ≡ₚ all_kinds ->
  heap p !! b = Some bv -> built bv = false ->
  Build w order b p = Some (p', r, Returns e) ->
  forall k, needs bv k = true -> panics w bv (globals p) k = None.
Proof.
  intros Hperm Hb Hbuilt HB k Hn.
  destruct (decide (k = Elasticsearch)) as [->|Hk]; [|by apply panics_Elasticsearch].
  destruct (panics w bv (globals p) Elasticsearch) as [v|] eqn:Hp; [|done].
  destruct (Build_panic_spec w order b p bv v Hperm Hb Hbuilt Hn Hp)
    as (? & ? & ? & _ & HB' & _). congruence.
Qed.

Lemma Cleanup_n_spec (w : World) (n : nat) (b : nat) (bv : TestDependenciesBuilder) :
  forall p : Process,
  heap p !! b = Some bv ->
  (forall k, is_int32 (refCount (broker k (globals p)))) ->
  exists p' : Process,
    Cleanup_n w n b p = Some p' /\ heap p' = heap p /\
    (forall k, refCount (broker k (globals p'))
               = wrap32 (refCount (broker k (globals p))
                         - Z.of_nat n * Z.of_nat (releases k (cleanupFuncs bv)))) /\
    (forall k, terminated (broker k (globals p')) = terminated (broker k (globals p))).
Proof.
  induction n as [|n IH]; intros p Hb Hint.
  - exists p. cbn. repeat split; try done. intros k.
    rewrite Z.sub_0_r. by rewrite wrap32_id.
  - cbn [Cleanup_n]. unfold Cleanup at 1. rewrite Hb. cbn [mbind option_bind].
    set (p1 := {| heap := heap p; globals := cleanup w bv (globals p) |}).
    assert (forall k, refCount (broker k (globals p1))
                      = wrap32 (refCount (broker k (globals p))
                                - Z.of_nat (releases k (cleanupFuncs bv))) /\
                      terminated (broker k (globals p1))
                      = terminated (broker k (globals p))) as H1.
    { intros k. subst p1. cbn [globals]. unfold cleanup.
      destruct (cleanup_counts w (reverse (cleanupFuncs bv)) (globals p) Hint k)
        as [-> ->]. by rewrite releases_reverse. }
    destruct (IH p1) as (p' & HC & Hh & Hc & Ht).
    + done.
    + intros k. destruct (H1 k) as [-> _]. apply wrap32_range.
    + exists p'. split; [done|]. split; [done|]. split; intros k.
      * rewrite Hc. destruct (H1 k) as [-> _].
        rewrite <- Z.add_opp_r, wrap32_add_l. f_equal. lia.
      * rewrite Ht. by destruct (H1 k) as [_ ->].
Qed.

Lemma releases_requested (bv : TestDependenciesBuilder) (order : list Kind) (k : Kind) :
  order ≡ₚ all_kinds ->
  releases k (requested bv order) = if needs bv k then 1%nat else 0%nat.
Proof.
  intros Hperm. destruct (requested_facts bv order Hperm) as [Hnd Hl].
  pose proof (releases_filter k (fun _ => true) (requested bv order) Hnd) as H.
  rewrite filter_all in H by done. rewrite H.
  destruct (needs bv k) eqn:Hn.
  - by rewrite decide_True by (by apply Hl).
  - rewrite decide_False; [done|]. intros Hin. apply Hl in Hin. congruence.
Qed.

(** X9.  [Cleanup] is not idempotent: called n times on the bundle of a
    successful [Build] of a new builder, it releases each requested broker
    n times, so the count ends at the count before [Build] plus 1 - n; no
    container is terminated. *)
Theorem Cleanup_releases_every_time (w : World) (order : list Kind) (b r : nat)
  (p p' : Process) (bv : TestDependenciesBuilder) (n : nat) :
  order ≡ₚ all_kinds ->
  heap p !! b = Some bv -> built bv = false -> cleanupFuncs bv = [] ->
  (forall k, is_int32 (refCount (broker k (globals p)))) ->
  Build w order b p = Some (p', Some r, Returns None) ->
  exists p'' : Process,
    Cleanup_n w n r p' = Some p'' /\
    (forall k, refCount (broker k (globals p''))
               = wrap32 (refCount (broker k (globals p))
                         + (if needs bv k then 1 - Z.of_nat n else 0))) /\
    (forall k, terminated (broker k (globals p'')) = terminated (broker k (globals p))).
Proof.
  intros Hperm Hb Hbuilt Hcf Hint HB.
  pose proof (Build_returns_no_panic w order b p p' bv _ _ Hperm Hb Hbuilt HB) as Hret.
  assert (forall k, needs bv k = true -> succeeds w bv (globals p) k = true) as Hok.
  { destruct (failing_or_all_succeed w bv (globals p)) as [(k0 & Hn & Hf)|Hok]; [|done].
    destruct (Build_failure_spec w order b p bv k0 Hperm Hb Hbuilt Hint Hret Hn Hf)
      as (? & ? & HB' & _). congruence. }
  destruct (Build_success_spec w order b p bv Hperm Hb Hbuilt Hok)
    as (g' & b1 & HB' & Hcf1 & _ & Hbr).
  rewrite HB in HB'. injection HB' as -> ->.
  set (bnd := bundle (set_built true b1)).
  assert (forall k, refCount (broker k g')
                    = (if needs bv k then AddInt32 (refCount (broker k (globals p))) 1
                       else refCount (broker k (globals p))) /\
                    terminated (broker k g') = terminated (broker k (globals p))) as Hst.
  { intros k. rewrite Hbr. destruct (needs bv k) eqn:Hn; [|done].
    specialize (Hok k Hn). unfold succeeds, outcome in *.
    destruct (Start_spec w k (start_args bv k) (broker k (globals p))) as [-> ->].
    by destruct (Start _ _ _ _).2 as [[?|]|?]. }
  destruct (Cleanup_n_spec w n (length (heap p)) bnd
              {| heap := <[b:=set_built true b1]> (heap p) ++ [bnd]; globals := g' |})
    as (p'' & HC & _ & Hc & Ht).
  - cbn [heap]. rewrite lookup_app_r by (by rewrite length_insert).
    by rewrite length_insert, Nat.sub_diag.
  - intros k. cbn [globals]. destruct (Hst k) as [-> _].
    destruct (needs bv k); [apply AddInt32_range|done].
  - exists p''. split; [done|]. split; intros k.
    + rewrite Hc. cbn [globals]. destruct (Hst k) as [-> _].
      subst bnd. cbn [cleanupFuncs bundle set_built]. rewrite Hcf1, Hcf. cbn [app].
      rewrite (releases_requested bv order k Hperm).
      destruct (needs bv k).
      * unfold AddInt32. rewrite <- Z.add_opp_r, wrap32_add_l. f_equal. lia.
      * f_equal. lia.
    + rewrite Ht. cbn [globals]. by destruct (Hst k) as [_ ->].
Qed.

Lemma Cleanup_releases_every_time_witness :
  exists p'' : Process,
    Cleanup_n world_no_reuse 3 1 built_process = Some p'' /\
    (forall k, refCount (broker k (globals p''))
               = wrap32 (refCount (broker k (globals fresh_process))
                         + (if needs (WithElasticsearch
                                        (WithMongo NewTestDependenciesBuilder)) k
                            then 1 - Z.of_nat 3 else 0))) /\
    (forall k, terminated (broker k (globals p''))
               = terminated (broker k (globals fresh_process))).
Proof.
  assert (all_kinds ≡ₚ all_kinds) as Hperm by reflexivity.
  assert (Build world_no_reuse all_kinds 0 fresh_process
          = Some (built_process, Some 1%nat, Returns None)) as Hbuilt
    by (vm_compute; reflexivity).
  exact (Cleanup_releases_every_time world_no_reuse all_kinds 0 1 fresh_process
           built_process (WithElasticsearch (WithMongo NewTestDependenciesBuilder)) 3
           Hperm eq_refl eq_refl eq_refl zero_counts_int32 Hbuilt).
Defined.

(** The builder a failed [Build] leaves on the heap. *)
Lemma Build_failure_heap (w : World) (order : list Kind) (b : nat) (p p1 : Process)
  (bv : TestDependenciesBuilder) (e : error) :
  order ≡ₚ all_kinds ->
  heap p !! b = Some bv -> built bv = false ->
  Build w order b p = Some (p1, None, Returns (Some e)) ->
  exists b1 : TestDependenciesBuilder,
    heap p1 !! b = Some b1 /\ built b1 = false /\
    sqlFilePaths b1 = sqlFilePaths bv /\
    (forall k, needs b1 k = needs bv k) /\
    cleanupFuncs b1
    = cleanupFuncs bv ++ List.filter (succeeds w bv (globals p)) (requested bv order).
Proof.
  intros Hperm Hb Hbuilt HB. destruct (requested_facts bv order Hperm) as [Hnd Hl].
  assert (forall k, k ∈ requested bv order -> panics w bv (globals p) k = None)
    as Hret.
  { intros k Hk.
    by apply (Build_returns_no_panic w order b p p1 bv _ _ Hperm Hb Hbuilt HB), Hl. }
  revert HB.
  unfold Build. rewrite Hb. cbn [mbind option_bind]. rewrite Hbuilt.
  fold (requested bv order).
  pose proof (goroutines_spec w bv (globals p) (requested bv order) Hnd Hret) as Hg.
  destruct (foldl _ _ (requested bv order)) as [[[b1 g1] errors] crash].
  destruct Hg as (G1 & G2 & G3 & _ & _ & G6 & ->).
  destruct (0 <? length errors)%nat; [|done].
  intros [= <- _]. exists b1. cbn [heap].
  rewrite list_lookup_insert_eq by (by eapply lookup_lt_Some).
  repeat split; try done. congruence.
Qed.

(** X10.  A failed [Build] leaves its cleanup functions registered: when
    [Build] fails twice in a row on the same new builder, the first failure
    restores every count, and the second leaves each broker that had
    started in the first one reference short. *)
Theorem failed_Build_retry_releases_again (w : World) (order order' : list Kind)
  (b : nat) (p p1 p2 : Process) (bv : TestDependenciesBuilder) (e1 e2 : error) :
  order ≡ₚ all_kinds -> order' ≡ₚ all_kinds ->
  heap p !! b = Some bv -> built bv = false -> cleanupFuncs bv = [] ->
  (forall k, is_int32 (refCount (broker k (globals p)))) ->
  Build w order b p = Some (p1, None, Returns (Some e1)) ->
  Build w order' b p1 = Some (p2, None, Returns (Some e2)) ->
  forall k,
    refCount (broker k (globals p1)) = refCount (broker k (globals p)) /\
    refCount (broker k (globals p2))
    = wrap32 (refCount (broker k (globals p))
              - (if needs bv k && succeeds w bv (globals p) k then 1 else 0)).
Proof.
  intros Hperm Hperm' Hb Hbuilt Hcf Hint HB1 HB2.
  destruct (requested_facts bv order Hperm) as [Hnd Hl].
  pose proof (Build_returns_no_panic w order b p p1 bv _ _ Hperm Hb Hbuilt HB1) as Hret.
  assert (forall k, refCount (broker k (globals p1)) = refCount (broker k (globals p)))
    as Hsame.
  { destruct (failing_or_all_succeed w bv (globals p)) as [(k0 & Hn & Hf)|Hok].
    - destruct (Build_failure_spec w order b p bv k0 Hperm Hb Hbuilt Hint Hret Hn Hf)
        as (p1' & ? & HB' & _ & _ & Hc & _).
      rewrite HB1 in HB'. injection HB' as <- _. intros k.
      rewrite Hc, Hcf. cbn. rewrite Z.sub_0_r. by apply wrap32_id.
    - destruct (Build_success_spec w order b p bv Hperm Hb Hbuilt Hok)
        as (? & ? & HB' & _). congruence. }
  destruct (Build_failure_heap w order b p p1 bv e1 Hperm Hb Hbuilt HB1)
    as (b1 & Hb1 & Hbuilt1 & _ & Hneeds1 & Hcf1).
  assert (forall k, is_int32 (refCount (broker k (globals p1)))) as Hint1
    by (intros k; by rewrite Hsame).
  pose proof (Build_returns_no_panic w order' b p1 p2 b1 _ _ Hperm' Hb1 Hbuilt1 HB2)
    as Hret1.
  intros k. split; [apply Hsame|].
  destruct (failing_or_all_succeed w b1 (globals p1)) as [(k0 & Hn & Hf)|Hok].
  - destruct (Build_failure_spec w order' b p1 b1 k0 Hperm' Hb1 Hbuilt1 Hint1 Hret1 Hn Hf)
      as (p2' & ? & HB' & _ & _ & Hc & _).
    rewrite HB2 in HB'. injection HB' as <- _.
    rewrite Hc, Hsame, Hcf1, Hcf. cbn [app].
    rewrite (releases_filter _ _ _ Hnd). f_equal. f_equal.
    destruct (needs bv k) eqn:Hnk.
    + rewrite decide_True by (by apply Hl). by destruct (succeeds w bv (globals p) k).
    + rewrite decide_False; [done|]. intros Hin. apply Hl in Hin. congruence.
  - destruct (Build_success_spec w order' b p1 b1 Hperm' Hb1 Hbuilt1 Hok)
      as (? & ? & HB' & _). congruence.
Qed.

Lemma failed_Build_retry_releases_again_witness :
  refCount (broker Elasticsearch (globals failed_once))
    = refCount (broker Elasticsearch (globals fresh_process)) /\
  refCount (broker Elasticsearch (globals failed_twice))
    = wrap32 (refCount (broker Elasticsearch (globals fresh_process))
              - (if needs (WithElasticsearch (WithMongo NewTestDependenciesBuilder))
                      Elasticsearch
                    && succeeds world_no_mongo
                         (WithElasticsearch (WithMongo NewTestDependenciesBuilder))
                         (globals fresh_process) Elasticsearch
                 then 1 else 0)).
Proof.
  assert (exists e1, Build world_no_mongo some_order 0 fresh_process
                     = Some (failed_once, None, Returns (Some e1))) as [e1 Hfirst]
    by (eexists; vm_compute; reflexivity).
  assert (exists e2, Build world_no_mongo some_order 0 failed_once
                     = Some (failed_twice, None, Returns (Some e2))) as [e2 Hsecond]
    by (eexists; vm_compute; reflexivity).
  exact (failed_Build_retry_releases_again world_no_mongo some_order some_order 0
           fresh_process failed_once failed_twice
           (WithElasticsearch (WithMongo NewTestDependenciesBuilder)) e1 e2
           some_order_permutation some_order_permutation eq_refl eq_refl eq_refl
           zero_counts_int32 Hfirst Hsecond Elasticsearch).
Defined.

End BundleFacts.

Module SearchDocumentsFacts.
Import Search SearchDocuments Samples.

Section WithFloat.
Context {float64 : Type}.

Lemma omap_cons_option_list {A B : Type} (f : A -> option B) (x : A) (l : list A) :
  omap f (x :: l) = option_list (f x) ++ omap f l.
Proof. destruct (f x) eqn:E; cbn; rewrite E; done. Qed.

Lemma omap_length_le {A B : Type} (f : A -> option B) (l : list A) :
  (length (omap f l) <= length l)%nat.
Proof.
  induction l as [|x l IH]; [done|].
  rewrite omap_cons_option_list. destruct (f x); cbn; lia.
Qed.

Lemma source_of_carries (hit : any float64) (d : gmap string (any float64)) :
  source_of hit = Some d <-> carries hit d.
Proof.
  unfold source_of, carries. split.
  - destruct hit as [| | | | |m]; try done.
    destruct (m !! "_source") as [[| | | | |d']|] eqn:E; try done.
    intros [= ->]. by exists m.
  - intros (m & -> & ->). done.
Qed.

Lemma collect_source_of (documents : list (gmap string (any float64)))
  (hit : any float64) :
  collect documents hit = documents ++ option_list (source_of hit).
Proof.
  unfold collect, source_of, index.
  destruct hit as [| | | | |m]; cbn; try by rewrite app_nil_r.
  destruct (m !! "_source") as [[| | | | |d']|]; cbn; try by rewrite app_nil_r.
  done.
Qed.

Lemma foldl_collect (hs : list (any float64)) :
  forall documents, foldl collect documents hs = documents ++ omap source_of hs.
Proof.
  induction hs as [|hit hs IH]; intros documents.
  - cbn. by rewrite app_nil_r.
  - cbn [foldl]. by rewrite IH, collect_source_of, omap_cons_option_list, <- app_assoc.
Qed.

Lemma Documents_omap (r : SearchResult float64) (hits : gmap string (any float64))
  (hs : list (any float64)) :
  response r !! "hits" = Some (AnyMap hits) ->
  hits !! "hits" = Some (AnySlice hs) ->
  Documents r = omap source_of hs.
Proof.
  intros Hh Hs. unfold Documents, index. rewrite Hh. cbn. rewrite Hs. cbn.
  by rewrite foldl_collect.
Qed.

(** X11.  [Documents] returns the [_source] objects of the hits that have
    one: never more documents than hits, a document is returned exactly
    when some hit carries it, and when every hit carries a document the
    result lines up with the hits one to one, in order. *)
Theorem Documents_are_sources (r : SearchResult float64)
  (hits : gmap string (any float64)) (hs : list (any float64)) :
  response r !! "hits" = Some (AnyMap hits) ->
  hits !! "hits" = Some (AnySlice hs) ->
  (length (Documents r) <= length hs)%nat /\
  (forall d, d ∈ Documents r <-> exists hit, hit ∈ hs /\ carries hit d) /\
  (Forall (fun hit => exists d, carries hit d) hs -> Forall2 carries hs (Documents r)).
Proof.
  intros Hh Hs. rewrite (Documents_omap r hits hs Hh Hs). split; [|split].
  - apply omap_length_le.
  - intros d. rewrite list_elem_of_omap. split.
    + intros (hit & Hin & Hsrc). exists hit. split; [done|]. by apply source_of_carries.
    + intros (hit & Hin & Hc). exists hit. split; [done|]. by apply source_of_carries.
  - clear Hh Hs. induction hs as [|hit hs' IH]; intros Hall; [constructor|].
    rewrite omap_cons_option_list.
    apply Forall_cons in Hall as [[d Hd] Hall].
    apply source_of_carries in Hd as Hsrc. rewrite Hsrc.
    constructor; [done|by apply IH].
Qed.

End WithFloat.

Lemma Documents_are_sources_witness :
  (length (Documents response_hits) <= length three_hits)%nat /\
  (forall d, d ∈ Documents response_hits <->
             exists hit, hit ∈ three_hits /\ carries hit d) /\
  (Forall (fun hit => exists d, carries hit d) three_hits ->
   Forall2 carries three_hits (Documents response_hits)).
Proof.
  assert (response response_hits !! "hits" = Some (AnyMap hits_object)) as Hhits
    by (vm_compute; reflexivity).
  assert (hits_object !! "hits" = Some (AnySlice three_hits)) as Harray
    by (vm_compute; reflexivity).
  exact (Documents_are_sources response_hits hits_object three_hits Hhits Harray).
Defined.

End SearchDocumentsFacts.

Module ProductFacts.
Import Go Search Product Samples.

Section WithFloat.
Context {float64 json_text : Type}.
Context (float_lt float_ge : float64 -> float64 -> bool) (float_zero : float64).
Context (Marshal : any float64 -> error + json_text).
Context (Unmarshal : json_text -> error + Product float64).

(** X12.  Tenant isolation of [GetByID]: a product is returned only if its
    tenant is the tenant asked for, and never together with an error. *)
Theorem GetByID_keeps_tenants_apart (do : error + Response float64)
  (id tenantID : string) (product : Product float64) (err : option error) :
  GetByID Marshal Unmarshal do id tenantID = (Some product, err) ->
  TenantID product = tenantID /\ err = None.
Proof.
  unfold GetByID. intros H.
  repeat match type of H with
         | context [match ?x with _ => _ end] => destruct x eqn:?; try done
         end.
  injection H as <- <-. split; [|done].
  apply String.eqb_eq. by apply negb_false_iff.
Qed.

Lemma product_of_decodes (hit : any float64) (product : Product float64) :
  product_of Marshal Unmarshal hit = Some product <-> decodes_to Marshal Unmarshal hit product.
Proof.
  unfold product_of, decodes_to. split.
  - destruct hit as [| | | | |m]; try done.
    destruct (m !! "_source") as [[| | | | |src]|] eqn:E; try done.
    destruct (Marshal (AnyMap src)) as [|js] eqn:EM; try done.
    destruct (Unmarshal js) as [|p] eqn:EU; try done.
    intros [= ->]. by exists m, src, js.
  - intros (m & src & js & -> & -> & -> & ->). done.
Qed.

Lemma collect_product_of (products : list (Product float64)) (hit : any float64) :
  collect_product Marshal Unmarshal products hit
  = products ++ option_list (product_of Marshal Unmarshal hit).
Proof.
  unfold collect_product, product_of, index.
  destruct hit as [| | | | |m]; cbn; try by rewrite app_nil_r.
  destruct (m !! "_source") as [[| | | | |src]|]; cbn; try by rewrite app_nil_r.
  destruct (Marshal (AnyMap src)) as [|js]; cbn; try by rewrite app_nil_r.
  destruct (Unmarshal js) as [|p]; cbn; try by rewrite app_nil_r.
  done.
Qed.

Lemma foldl_collect_product (hs : list (any float64)) :
  forall products,
    foldl (collect_product Marshal Unmarshal) products hs
    = products ++ omap (product_of Marshal Unmarshal) hs.
Proof.
  induction hs as [|hit hs IH]; intros products.
  - cbn. by rewrite app_nil_r.
  - cbn [foldl].
    by rewrite IH, collect_product_of,
         SearchDocumentsFacts.omap_cons_option_list, <- app_assoc.
Qed.

(** X13.  [SearchByCategory], on a response that is no error and has a hits
    array, returns no error and exactly the products the hits decode to:
    hits that do not decode are skipped, and the tenant of a decoded
    product is not checked on the client side. *)
Theorem SearchByCategory_returns_decodable_hits (res : Response float64)
  (searchResponse hits : gmap string (any float64)) (hs : list (any float64))
  (category tenantID : string) :
  IsError res = false -> Body res = inr searchResponse ->
  searchResponse !! "hits" = Some (AnyMap hits) ->
  hits !! "hits" = Some (AnySlice hs) ->
  exists products : list (Product float64),
    SearchByCategory Marshal Unmarshal (inr res) category tenantID = (products, None) /\
    (length products <= length hs)%nat /\
    (forall product, product ∈ products <->
                     exists hit, hit ∈ hs /\ decodes_to Marshal Unmarshal hit product).
Proof.
  intros He Hb Hh Hs. unfold SearchByCategory, index.
  rewrite He, Hb, Hh. cbn. rewrite Hs. cbn.
  eexists. split; [reflexivity|]. rewrite foldl_collect_product. cbn. split.
  - apply SearchDocumentsFacts.omap_length_le.
  - intros product. rewrite list_elem_of_omap. split.
    + intros (hit & Hin & Hp). exists hit. split; [done|]. by apply product_of_decodes.
    + intros (hit & Hin & Hp). exists hit. split; [done|]. by apply product_of_decodes.
Qed.

(** X14.  [CreateProduct] reaches the repository exactly when the name is
    not empty and the price is not below zero, with the product it was
    given, and then returns what the repository returned; when it does not
    reach the repository it returns an error. *)
Theorem CreateProduct_guards_repository (repo : Repository float64)
  (product : Product float64) :
  (Name product <> "" -> float_lt (Price product) float_zero = false ->
   CreateProduct float_lt float_zero repo product
   = (repo_Create repo product, [CallCreate product])) /\
  (forall c, c ∈ (CreateProduct float_lt float_zero repo product).2 ->
             c = CallCreate product /\ Name product <> "" /\
             float_lt (Price product) float_zero = false) /\
  ((CreateProduct float_lt float_zero repo product).2 = [] ->
   (CreateProduct float_lt float_zero repo product).1 <> None).
Proof.
  unfold CreateProduct.
  destruct (String.eqb_spec (Name product) "") as [Hn|Hn]; cbn [fst snd].
  - split; [done|]. split; [|done]. intros c Hc. by apply elem_of_nil in Hc.
  - destruct (float_lt (Price product) float_zero) eqn:Hp; cbn [fst snd].
    + split; [done|]. split; [|done]. intros c Hc. by apply elem_of_nil in Hc.
    + split; [done|]. split; [|done].
      intros c Hc. apply list_elem_of_singleton in Hc. done.
Qed.

Lemma foldl_keep_expensive (minPrice : float64) (l : list (Product float64)) :
  forall expensive,
    foldl (keep_expensive float_ge minPrice) expensive l
    = expensive ++ List.filter (fun p => float_ge (Price p) minPrice) l.
Proof.
  induction l as [|p l IH]; intros expensive; cbn [foldl List.filter].
  - by rewrite app_nil_r.
  - rewrite IH. unfold keep_expensive.
    destruct (float_ge (Price p) minPrice); [by rewrite <- app_assoc|done].
Qed.

Lemma filter_sublist {A : Type} (f : A -> bool) (l : list A) :
  sublist (List.filter f l) l.
Proof.
  induction l as [|x l IH]; cbn; [constructor|].
  destruct (f x); by constructor.
Qed.

(** X15.  [GetExpensiveProducts] asks the repository once, for the category
    [electronics] of the given tenant, and returns those of its products
    whose price is at least [minPrice], in the repository's order. *)
Theorem GetExpensiveProducts_filters_electronics (repo : Repository float64)
  (minPrice : float64) (tenantID : string) (electronics : list (Product float64)) :
  tenantID <> "" ->
  repo_SearchByCategory repo "electronics" tenantID = (electronics, None) ->
  exists expensive : list (Product float64),
    GetExpensiveProducts float_ge repo minPrice tenantID
    = (expensive, None, [CallSearchByCategory "electronics" tenantID]) /\
    sublist expensive electronics /\
    (forall p, p ∈ expensive <->
               p ∈ electronics /\ float_ge (Price p) minPrice = true).
Proof.
  intros Ht Hs. unfold GetExpensiveProducts.
  destruct (String.eqb_spec tenantID "") as [|_]; [done|]. rewrite Hs.
  eexists. split; [reflexivity|]. rewrite foldl_keep_expensive. cbn [app].
  split; [apply filter_sublist|].
  intros p. rewrite list_elem_of_In, List.filter_In, <- list_elem_of_In. done.
Qed.

(** X16.  The reads of the service never pass an empty id, category or
    tenant to the repository: every call a read makes is the one it wraps,
    with arguments that are not empty. *)
Theorem service_validates_arguments (repo : Repository float64)
  (id category tenantID : string) (minPrice : float64) :
  (forall c, c ∈ (GetProductByID repo id tenantID).2 ->
             c = CallGetByID id tenantID /\ id <> "" /\ tenantID <> "") /\
  (forall c, c ∈ (GetProductsByCategory repo category tenantID).2 ->
             c = CallSearchByCategory category tenantID /\
             category <> "" /\ tenantID <> "") /\
  (forall c, c ∈ (GetExpensiveProducts float_ge repo minPrice tenantID).2 ->
             c = CallSearchByCategory "electronics" tenantID /\ tenantID <> "").
Proof.
  split; [|split]; intros c.
  - unfold GetProductByID.
    destruct (String.eqb_spec id "") as [Hi|Hi]; cbn [snd];
      [intros Hc; by apply elem_of_nil in Hc|].
    destruct (String.eqb_spec tenantID "") as [Ht|Ht]; cbn [snd];
      [intros Hc; by apply elem_of_nil in Hc|].
    destruct (repo_GetByID repo id tenantID). cbn [snd].
    intros Hc. apply list_elem_of_singleton in Hc. done.
  - unfold GetProductsByCategory.
    destruct (String.eqb_spec category "") as [Hi|Hi]; cbn [snd];
      [intros Hc; by apply elem_of_nil in Hc|].
    destruct (String.eqb_spec tenantID "") as [Ht|Ht]; cbn [snd];
      [intros Hc; by apply elem_of_nil in Hc|].
    destruct (repo_SearchByCategory repo category tenantID). cbn [snd].
    intros Hc. apply list_elem_of_singleton in Hc. done.
  - unfold GetExpensiveProducts.
    destruct (String.eqb_spec tenantID "") as [Ht|Ht]; cbn [snd];
      [intros Hc; by apply elem_of_nil in Hc|].
    destruct (repo_SearchByCategory repo "electronics" tenantID) as [? [?|]];
      cbn [snd]; intros Hc; apply list_elem_of_singleton in Hc; done.
Qed.

End WithFloat.

Lemma GetByID_keeps_tenants_apart_witness :
  TenantID Laptop = "test_a" /\ @None error = None.
Proof.
  assert (GetByID Marshal Unmarshal got_laptop "p1" "test_a" = (Some Laptop, None))
    as Hgot by (vm_compute; reflexivity).
  exact (GetByID_keeps_tenants_apart Marshal Unmarshal got_laptop "p1" "test_a"
           Laptop None Hgot).
Defined.

Lemma SearchByCategory_returns_decodable_hits_witness :
  exists products : list (Product Z),
    SearchByCategory Marshal Unmarshal (inr search_answer) "electronics" "test_a"
      = (products, None) /\
    (length products <= length three_hits)%nat /\
    (forall product, product ∈ products <->
                     exists hit, hit ∈ three_hits /\
                                 decodes_to Marshal Unmarshal hit product).
Proof.
  assert (found !! "hits" = Some (AnyMap hits_object)) as Hhits
    by (vm_compute; reflexivity).
  assert (hits_object !! "hits" = Some (AnySlice three_hits)) as Harray
    by (vm_compute; reflexivity).
  exact (SearchByCategory_returns_decodable_hits Marshal Unmarshal search_answer
           found hits_object three_hits "electronics" "test_a"
           eq_refl eq_refl Hhits Harray).
Defined.

Lemma GetExpensiveProducts_filters_electronics_witness :
  exists expensive : list (Product Z),
    GetExpensiveProducts Z.geb stocked 1000 "test_a"
      = (expensive, None, [CallSearchByCategory "electronics" "test_a"]) /\
    sublist expensive [Laptop; Cable] /\
    (forall p, p ∈ expensive <->
               p ∈ [Laptop; Cable] /\ Z.geb (Price p) 1000 = true).
Proof.
  assert ("test_a" <> EmptyString) as Htenant by discriminate.
  exact (GetExpensiveProducts_filters_electronics Z.geb stocked 1000 "test_a"
           [Laptop; Cable] Htenant eq_refl).
Defined.

End ProductFacts.

Module ElasticCleanFacts.
Import Go Search Broker Debug ElasticClean Samples.

Lemma deleted_app (l1 l2 : list event) : deleted (l1 ++ l2) = deleted l1 ++ deleted l2.
Proof. apply omap_app. Qed.

Lemma deleted_Printf (ls : list line) : deleted (map Printf ls) = [].
Proof. by induction ls. Qed.

Section WithFloat.
Context {float64 : Type}.
Context (env : environ) (delete : string -> option error).

Lemma index_names (row : gmap string (any float64)) (indexName : string) :
  index row "index" = AnyString indexName <-> names row indexName.
Proof.
  unfold index, names. destruct (row !! "index") as [v|]; cbn.
  - split; [by intros ->|by intros [= ->]].
  - split; intros; discriminate.
Qed.

(** One turn of the loop on a row that names an index. *)
Lemma delete_indices_cons (row : gmap string (any float64)) (indexName : string)
  (rest : list (gmap string (any float64))) :
  names row indexName ->
  exists here,
    delete_indices env delete (row :: rest)
    = (here ++ (delete_indices env delete rest).1,
       (delete_indices env delete rest).2) /\
    deleted here = List.filter user_index [indexName] /\
    (forall ms, Sleep ms ∉ here).
Proof.
  intros Hn. apply index_names in Hn. cbn [delete_indices]. rewrite Hn.
  destruct (delete_indices env delete rest) as [later panicked].
  eexists. split; [reflexivity|]. unfold user_index. cbn [List.filter].
  destruct (String.prefix "." indexName); cbn [negb].
  - split; [done|]. intros ms H. by apply elem_of_nil in H.
  - split.
    + change (deleted (?x :: ?l)) with (deleted ([x] ++ l)).
      by rewrite deleted_app, deleted_Printf.
    + intros ms H. apply elem_of_cons in H as [H|H]; [done|].
      apply list_elem_of_fmap in H as (l & Hl & _). done.
Qed.

Lemma delete_indices_named (indices : list (gmap string (any float64)))
  (ns : list string) (rest : list (gmap string (any float64))) :
  Forall2 names indices ns ->
  exists events,
    delete_indices env delete (indices ++ rest)
    = (events ++ (delete_indices env delete rest).1,
       (delete_indices env delete rest).2) /\
    deleted events = List.filter user_index ns /\
    (forall ms, Sleep ms ∉ events).
Proof.
  induction 1 as [|row n indices ns Hn _ (events & IH & Hd & Hs)].
  - exists []. cbn [app]. split; [by destruct (delete_indices env delete rest)|].
    split; [done|]. intros ms H. by apply elem_of_nil in H.
  - destruct (delete_indices_cons row n (indices ++ rest) Hn) as (here & E & Hh & Hsh).
    exists (here ++ events). rewrite <- app_comm_cons, E, IH. cbn [fst snd].
    split; [by rewrite app_assoc|]. split.
    + rewrite deleted_app, Hh, Hd. cbn [List.filter].
      by destruct (user_index n).
    + intros ms H. apply elem_of_app in H as [H|H]; [by apply (Hsh ms)|by apply (Hs ms)].
Qed.

Lemma delete_indices_sound (indices : list (gmap string (any float64)))
  (indexName : string) :
  indexName ∈ deleted (delete_indices env delete indices).1 ->
  String.prefix "." indexName = false /\
  exists row, row ∈ indices /\ names row indexName.
Proof.
  induction indices as [|row rest IH]; cbn [delete_indices].
  - intros H. by apply elem_of_nil in H.
  - destruct (index row "index") as [| | |n| |] eqn:E;
      try (intros H; by apply elem_of_nil in H).
    apply index_names in E.
    destruct (delete_indices env delete rest) as [later panicked]. cbn [fst] in *.
    rewrite deleted_app. intros H. apply elem_of_app in H as [H|H].
    + destruct (String.prefix "." n) eqn:Hp; [by apply elem_of_nil in H|].
      change (deleted (?x :: ?l)) with (deleted ([x] ++ l)) in H.
      rewrite deleted_app, deleted_Printf in H.
      apply list_elem_of_singleton in H as ->.
      split; [done|]. exists row. split; [apply list_elem_of_here|done].
    + destruct (IH H) as (Hp & row' & Hin & Hn).
      split; [done|]. exists row'. split; [by apply list_elem_of_further|done].
Qed.

(** X17.  [CleanIndices] never asks for the deletion of an index whose name
    starts with a dot, nor of one the listing did not name. *)
Theorem CleanIndices_spares_system_indices (cat : error + CatResponse float64)
  (s : Shared) (indexName : string) :
  indexName ∈ deleted (CleanIndices env cat delete s).2 ->
  String.prefix "." indexName = false /\
  exists res indices row,
    cat = inr res /\ Body res = inr indices /\
    row ∈ indices /\ names row indexName.
Proof.
  unfold CleanIndices.
  destruct (GetClient s); [|intros H; by apply elem_of_nil in H].
  destruct cat as [err|res]; [intros H; by apply elem_of_nil in H|].
  destruct (IsError res); [intros H; by apply elem_of_nil in H|].
  destruct (Body res) as [err|indices] eqn:Hb; [intros H; by apply elem_of_nil in H|].
  pose proof (delete_indices_sound indices indexName) as Hs.
  destruct (delete_indices env delete indices) as [events panicked]. cbn [fst] in Hs.
  intros H.
  assert (indexName ∈ deleted events) as Hin.
  { destruct panicked; cbn [snd] in H.
    - exact H.
    - change (deleted (?x :: ?l)) with (deleted ([x] ++ l)) in H.
      rewrite !deleted_app in H. cbn in H. by rewrite app_nil_r in H. }
  destruct (Hs Hin) as (Hp & row & Hrow & Hn).
  split; [done|]. by exists res, indices, row.
Qed.

(** X18.  When every row of the listing names its index, [CleanIndices]
    deletes the indices whose name does not start with a dot, in the order
    listed, sleeps 100ms and returns nil, whatever the cluster answers to
    the deletions. *)
Theorem CleanIndices_deletes_every_user_index (cat : error + CatResponse float64)
  (s : Shared) (h : Handle) (res : CatResponse float64)
  (indices : list (gmap string (any float64))) (ns : list string) :
  GetClient s = Some h -> cat = inr res -> IsError res = false ->
  Body res = inr indices -> Forall2 names indices ns ->
  exists events,
    CleanIndices env cat delete s = (Done None, events) /\
    deleted events = List.filter user_index ns /\
    last events = Some (Sleep 100).
Proof.
  intros Hc -> He Hb Hn. unfold CleanIndices. rewrite Hc, He, Hb.
  destruct (delete_indices_named indices ns [] Hn) as (events & E & Hd & _).
  rewrite app_nil_r in E. cbn in E. rewrite app_nil_r in E. rewrite E.
  eexists. split; [reflexivity|]. split.
  - change (deleted (?x :: ?l)) with (deleted ([x] ++ l)).
    rewrite !deleted_app, Hd. cbn. by rewrite app_nil_r.
  - change (CatIndices :: events ++ [Sleep 100])
      with ((CatIndices :: events) ++ [Sleep 100]).
    apply last_snoc.
Qed.

(** X19.  A row of the listing without a string under [index] makes
    [CleanIndices] panic: the indices listed before it are already
    deleted, and the sleep is never reached. *)
Theorem CleanIndices_panics_on_unnamed_row (cat : error + CatResponse float64)
  (s : Shared) (h : Handle) (res : CatResponse float64)
  (good rest : list (gmap string (any float64))) (bad : gmap string (any float64))
  (ns : list string) :
  GetClient s = Some h -> cat = inr res -> IsError res = false ->
  Body res = inr (good ++ bad :: rest) -> Forall2 names good ns ->
  (forall indexName, ~ names bad indexName) ->
  exists events,
    CleanIndices env cat delete s = (Panic, events) /\
    deleted events = List.filter user_index ns /\
    (forall ms, Sleep ms ∉ events).
Proof.
  intros Hc -> He Hb Hn Hbad. unfold CleanIndices. rewrite Hc, He, Hb.
  destruct (delete_indices_named good ns (bad :: rest) Hn) as (events & E & Hd & Hs).
  assert (delete_indices env delete (bad :: rest) = ([], true)) as Eb.
  { cbn [delete_indices].
    destruct (index bad "index") as [| | |n| |] eqn:Ei; try done.
    apply index_names in Ei. by destruct (Hbad n). }
  rewrite Eb in E. cbn [fst snd] in E. rewrite app_nil_r in E. rewrite E.
  eexists. split; [reflexivity|]. split.
  - change (deleted (?x :: ?l)) with (deleted ([x] ++ l)).
    by rewrite deleted_app, Hd.
  - intros ms H. apply elem_of_cons in H as [H|H]; [done|by apply (Hs ms)].
Qed.

End WithFloat.

Lemma CleanIndices_spares_system_indices_witness :
  String.prefix "." "products" = false /\
  exists res indices row,
    @inr error _ listing = inr res /\ Body res = inr indices /\
    row ∈ indices /\ names row "products".
Proof.
  assert ("products" ∈ deleted (CleanIndices ∅ (inr listing) refuse running).2)
    as Hdeleted by (vm_compute; apply list_elem_of_here).
  exact (CleanIndices_spares_system_indices ∅ refuse (inr listing) running
           "products" Hdeleted).
Defined.

Lemma CleanIndices_deletes_every_user_index_witness :
  exists events,
    CleanIndices ∅ (inr listing) refuse running = (Done None, events) /\
    deleted events = List.filter user_index [".kibana_1"; "products"] /\
    last events = Some (Sleep 100).
Proof.
  assert (Forall2 names [row ".kibana_1"; row "products"] [".kibana_1"; "products"])
    as Hnames by (repeat constructor).
  exact (CleanIndices_deletes_every_user_index ∅ refuse (inr listing) running
           0%nat listing [row ".kibana_1"; row "products"] [".kibana_1"; "products"]
           eq_refl eq_refl eq_refl eq_refl Hnames).
Defined.

Lemma CleanIndices_panics_on_unnamed_row_witness :
  exists events,
    CleanIndices ∅ (inr broken_listing) refuse running = (Panic, events) /\
    deleted events = List.filter user_index ["orders"] /\
    (forall ms, Sleep ms ∉ events).
Proof.
  assert (Forall2 names [row "orders"] ["orders"]) as Hnames by (repeat constructor).
  assert (forall indexName, ~ names (∅ : gmap string (any Z)) indexName) as Hbad
    by (intros indexName H; unfold names in H; by rewrite lookup_empty in H).
  exact (CleanIndices_panics_on_unnamed_row ∅ refuse (inr broken_listing) running
           0%nat broken_listing [row "orders"] [row "products"] ∅ ["orders"]
           eq_refl eq_refl eq_refl eq_refl Hnames Hbad).
Defined.

End ElasticCleanFacts.

Module MongoCleanFacts.
Import Go Broker Debug MongoClean Samples.

Lemma dropped_app (db : Handle) (l1 l2 : list event) :
  dropped db (l1 ++ l2) = dropped db l1 ++ dropped db l2.
Proof. apply omap_app. Qed.

Lemma dropped_Printf (db : Handle) (ls : list line) : dropped db (map Printf ls) = [].
Proof. by induction ls. Qed.

Lemma dropped_drop_all (env : environ) (drop : Handle -> string -> option error)
  (what : string) (db db' : Handle) (collections : list string) :
  dropped db (drop_all env drop what db' collections)
  = if Nat.eqb db db' then collections else [].
Proof.
  induction collections as [|c cs IH]; cbn [drop_all flat_map].
  - by destruct (Nat.eqb db db').
  - change (flat_map _ cs) with (drop_all env drop what db' cs).
    change ((?x :: ?l) ++ ?r) with ([x] ++ l ++ r).
    rewrite !dropped_app, dropped_Printf, IH. cbn.
    by destruct (Nat.eqb db db').
Qed.

(** X20.  MongoDB [CleanDatabase], on a broker with a client, returns nil
    exactly when each database that is set can be listed; a drop that
    fails never changes the result. *)
Theorem CleanDatabase_nil_iff_listings_succeed (env : environ)
  (list_names : Handle -> error + list string)
  (drop : Handle -> string -> option error) (s : Shared) (dbs : Databases)
  (c : Handle) :
  GetClient s = Some c ->
  (CleanDatabase env list_names drop s dbs).1 = None <->
  (forall db, database dbs = Some db -> exists cs, list_names db = inr cs) /\
  (forall db, databaseDW dbs = Some db -> exists cs, list_names db = inr cs).
Proof.
  intros Hc. unfold CleanDatabase. rewrite Hc.
  destruct (database dbs) as [d|]; destruct (databaseDW dbs) as [dw|];
    try destruct (list_names d) as [e|cs] eqn:Ed;
    try destruct (list_names dw) as [e'|cs'] eqn:Edw; cbn [fst];
    (split;
     [ intros H; try discriminate; split; intros db [= <-]; eauto
     | intros [H1 H2]; try done;
       try (destruct (H1 _ eq_refl) as [? ?]; congruence);
       try (destruct (H2 _ eq_refl) as [? ?]; congruence) ]).
Qed.

(** X21.  MongoDB [CleanDatabase] is not all-or-nothing: when the DW database
    cannot be listed it returns the listing error after every collection
    of the main database has been dropped, and drops nothing of DW. *)
Theorem CleanDatabase_fails_after_dropping_main (env : environ)
  (list_names : Handle -> error + list string)
  (drop : Handle -> string -> option error) (s : Shared) (dbs : Databases)
  (c d dw : Handle) (cs : list string) (e : error) :
  GetClient s = Some c -> database dbs = Some d -> databaseDW dbs = Some dw ->
  d <> dw -> list_names d = inr cs -> list_names dw = inl e ->
  exists events,
    CleanDatabase env list_names drop s dbs
    = (Some (Errorf_w "failed to list DW collections: " (Some e)), events) /\
    dropped d events = cs /\ dropped dw events = [].
Proof.
  intros Hc Hd Hdw Hne Hl Hl'. unfold CleanDatabase. rewrite Hc, Hd, Hdw, Hl, Hl'.
  eexists. split; [reflexivity|].
  change (?x :: ?l) with ([x] ++ l).
  rewrite !dropped_app, !dropped_drop_all. cbn.
  rewrite Nat.eqb_refl, app_nil_r.
  destruct (Nat.eqb_spec dw d) as [->|_]; done.
Qed.

Lemma CleanDatabase_nil_iff_listings_succeed_witness :
  (CleanDatabase ∅ both_listings (fun _ _ => None) running both_databases).1 = None.
Proof.
  apply (proj2 (CleanDatabase_nil_iff_listings_succeed ∅ both_listings
                  (fun _ _ => None) running both_databases 0%nat eq_refl)).
  split; intros db [= <-]; eexists; reflexivity.
Defined.

Lemma CleanDatabase_fails_after_dropping_main_witness :
  exists events,
    CleanDatabase ∅ no_DW_listing (fun _ _ => None) running both_databases
    = (Some (Errorf_w "failed to list DW collections: "
               (Some (errorString "not authorized on testdb_dw"))), events) /\
    dropped 1%nat events = ["surveys"; "tickets"] /\ dropped 2%nat events = [].
Proof.
  assert (1%nat <> 2%nat) as Hdistinct by discriminate.
  exact (CleanDatabase_fails_after_dropping_main ∅ no_DW_listing (fun _ _ => None)
           running both_databases 0%nat 1%nat 2%nat ["surveys"; "tickets"]
           (errorString "not authorized on testdb_dw")
           eq_refl eq_refl eq_refl Hdistinct eq_refl eq_refl).
Defined.

End MongoCleanFacts.

Module PostgresCleanFacts.
Import Go Broker Debug PostgresClean Samples.

Lemma sent_app (l1 l2 : list event) : sent (l1 ++ l2) = sent l1 ++ sent l2.
Proof. apply omap_app. Qed.

Lemma sent_Printf (ls : list line) : sent (map Printf ls) = [].
Proof. by induction ls. Qed.

Lemma sent_truncate_all (env : environ) (exec : string -> option error)
  (tables : list string) :
  sent (truncate_all env exec tables) = map Truncate tables.
Proof.
  induction tables as [|t ts IH]; [done|]. cbn [truncate_all flat_map].
  change (flat_map _ ts) with (truncate_all env exec ts).
  change ((?x :: ?l) ++ ?r) with ([x] ++ l ++ r).
  rewrite !sent_app, sent_Printf, IH. done.
Qed.

Lemma scan_elem (rows : list (error + string)) (table : string) :
  table ∈ scan rows <-> inr table ∈ rows.
Proof.
  unfold scan. rewrite list_elem_of_omap. split.
  - intros ([e|t] & Hin & H); [done|]. by injection H as ->.
  - intros H. by exists (inr table).
Qed.

Lemma CleanDatabase_sent (env : environ) (query : error + list (error + string))
  (exec : string -> option error) (s : Shared) (c : Handle)
  (rows : list (error + string)) :
  GetClient s = Some c -> query = inr rows -> scan rows <> [] ->
  exec (sql SetReplica) = None ->
  exists events,
    CleanDatabase env query exec s = (None, events) /\
    sent events = SetReplica :: map Truncate (scan rows) ++ [SetDefault].
Proof.
  intros Hc -> Hne Hx. unfold CleanDatabase. rewrite Hc.
  destruct (scan rows) as [|t ts] eqn:Es; [done|].
  cbn [length Nat.ltb Nat.leb]. rewrite Hx.
  eexists. split; [reflexivity|].
  rewrite !sent_app, sent_truncate_all.
  change (Exec SetDefault :: ?l) with ([Exec SetDefault] ++ l).
  rewrite sent_app, sent_Printf. done.
Qed.

(** X22.  PostgreSQL [CleanDatabase], when there are tables and the switch to
    the replica role is accepted, sends the switch, one TRUNCATE per
    scanned table in order, and the switch back, and returns nil whatever
    the server answers to the TRUNCATEs and to the switch back. *)
Theorem CleanDatabase_truncates_between_role_switches (env : environ)
  (query : error + list (error + string)) (exec : string -> option error)
  (s : Shared) (c : Handle) (rows : list (error + string)) :
  GetClient s = Some c -> query = inr rows -> scan rows <> [] ->
  exec (sql SetReplica) = None ->
  exists events,
    CleanDatabase env query exec s = (None, events) /\
    sent events = SetReplica :: map Truncate (scan rows) ++ [SetDefault].
Proof. apply CleanDatabase_sent. Qed.

(** X23.  PostgreSQL [CleanDatabase] truncates a table only if the listing
    returned it and the switch to the replica role was accepted; in every
    such run the switch back to the default role is sent and nil is
    returned. *)
Theorem CleanDatabase_never_truncates_with_keys_enforced (env : environ)
  (query : error + list (error + string)) (exec : string -> option error)
  (s : Shared) (table : string) :
  Truncate table ∈ sent (CleanDatabase env query exec s).2 ->
  exec (sql SetReplica) = None /\
  (exists rows, query = inr rows /\ inr table ∈ rows) /\
  SetDefault ∈ sent (CleanDatabase env query exec s).2 /\
  (CleanDatabase env query exec s).1 = None.
Proof.
  destruct (GetClient s) as [c|] eqn:Hc;
    [|unfold CleanDatabase; rewrite Hc; intros H; by apply elem_of_nil in H].
  destruct query as [err|rows];
    [unfold CleanDatabase; rewrite Hc; intros H; by apply elem_of_nil in H|].
  destruct (scan rows) as [|t ts] eqn:Es;
    [unfold CleanDatabase; rewrite Hc, Es; intros H; by apply elem_of_nil in H|].
  destruct (exec (sql SetReplica)) as [err|] eqn:Hx.
  { unfold CleanDatabase. rewrite Hc, Es, Hx. cbn.
    intros H. apply elem_of_cons in H as [H|H]; [done|by apply elem_of_nil in H]. }
  destruct (CleanDatabase_sent env (inr rows) exec s c rows Hc eq_refl) as (events & E & Hs);
    [by rewrite Es|done|].
  rewrite E. cbn [fst snd]. rewrite Hs. intros H.
  split; [done|]. split; [|split; [|done]].
  - exists rows. split; [done|]. apply scan_elem.
    apply elem_of_cons in H as [H|H]; [done|].
    apply elem_of_app in H as [H|H].
    + apply list_elem_of_fmap in H as (t' & [= ->] & Hin). done.
    + apply list_elem_of_singleton in H. done.
  - apply list_elem_of_further, elem_of_app. right. apply list_elem_of_here.
Qed.

Lemma files_read_cons2 (p text : string) (events : list file_event) :
  files_read (ReadFile p :: ExecScript text :: events) = p :: files_read events.
Proof. done. Qed.

Lemma run_files_stops (ReadFile_ : string -> error + string)
  (Exec_ : string -> option error) (ran : list string) (path : string)
  (rest : list string) (cause : error) :
  Forall (runs ReadFile_ Exec_) ran -> fails ReadFile_ Exec_ path cause ->
  exists err events,
    run_files ReadFile_ Exec_ (ran ++ path :: rest) = (Some err, events) /\
    Unwrap err = Some cause /\ files_read events = ran ++ [path].
Proof.
  intros Hran Hf. induction Hran as [|p ran (text & Hr & Hx) _ (err & events & IH & Hu & Hfr)].
  - cbn [app run_files]. destruct Hf as [Hf|(text & Hr & Hx)].
    + rewrite Hf. by eexists _, _.
    + rewrite Hr, Hx. by eexists _, _.
  - cbn [app run_files]. rewrite Hr, Hx.
    change (ran ++ path :: rest) with (ran ++ path :: rest) in IH. rewrite IH.
    exists err, (ReadFile p :: ExecScript text :: events).
    split; [done|]. split; [done|]. by rewrite files_read_cons2, Hfr.
Qed.

(** X24.  [executeInitialSQL] stops at the first script that cannot be read
    or run: it returns an error that wraps the cause, having read the
    scripts before it and the failing one, and none of those after it. *)
Theorem executeInitialSQL_stops_at_first_failure
  (ReadFile_ : string -> error + string) (Exec_ : string -> option error)
  (s : Shared) (ran : list string) (path : string) (rest : list string)
  (cause : error) :
  sqlFilePaths s = ran ++ path :: rest ->
  Forall (runs ReadFile_ Exec_) ran -> fails ReadFile_ Exec_ path cause ->
  exists err events,
    executeInitialSQL_files ReadFile_ Exec_ s = (Some err, events) /\
    Unwrap err = Some cause /\ files_read events = ran ++ [path].
Proof.
  intros Hp Hran Hf. unfold executeInitialSQL_files. rewrite Hp.
  rewrite bool_decide_eq_false_2; [by apply run_files_stops|].
  rewrite length_app. cbn. lia.
Qed.

Lemma CleanDatabase_truncates_between_role_switches_witness :
  exists events,
    CleanDatabase ∅ (inr table_rows) accept_role_switch running = (None, events) /\
    sent events = SetReplica :: map Truncate (scan table_rows) ++ [SetDefault].
Proof.
  assert (scan table_rows <> []) as Hrows by discriminate.
  assert (accept_role_switch (sql SetReplica) = None) as Hrole
    by (vm_compute; reflexivity).
  exact (CleanDatabase_truncates_between_role_switches ∅ (inr table_rows)
           accept_role_switch running 0%nat table_rows eq_refl eq_refl Hrows Hrole).
Defined.

Lemma CleanDatabase_never_truncates_with_keys_enforced_witness :
  accept_role_switch (sql SetReplica) = None /\
  (exists rows, @inr error _ table_rows = inr rows /\ inr "orders" ∈ rows) /\
  SetDefault ∈ sent (CleanDatabase ∅ (inr table_rows) accept_role_switch running).2 /\
  (CleanDatabase ∅ (inr table_rows) accept_role_switch running).1 = None.
Proof.
  assert (Truncate "orders"
          ∈ sent (CleanDatabase ∅ (inr table_rows) accept_role_switch running).2)
    as Hsent
    by (vm_compute; apply list_elem_of_further, list_elem_of_further,
          list_elem_of_here).
  exact (CleanDatabase_never_truncates_with_keys_enforced ∅ (inr table_rows)
           accept_role_switch running "orders" Hsent).
Defined.

Lemma executeInitialSQL_stops_at_first_failure_witness :
  exists err events,
    executeInitialSQL_files read_script run_script three_scripts = (Some err, events) /\
    Unwrap err = Some (errorString "open seed.sql: no such file or directory") /\
    files_read events = ["schema.sql"] ++ ["seed.sql"].
Proof.
  assert (Forall (runs read_script run_script) ["schema.sql"]) as Hran
    by (repeat constructor; by exists "-- schema.sql").
  assert (fails read_script run_script "seed.sql"
            (errorString "open seed.sql: no such file or directory")) as Hfails
    by (left; reflexivity).
  exact (executeInitialSQL_stops_at_first_failure read_script run_script
           three_scripts ["schema.sql"] "seed.sql" ["views.sql"]
           (errorString "open seed.sql: no such file or directory")
           eq_refl Hran Hfails).
Defined.

End PostgresCleanFacts.

Module RefreshFacts.
Import Go Broker Suite.

Ltac break_down :=
  repeat match goal with
         | |- _ <-> _ => split
         | |- _ /\ _ => split
         | |- _ -> _ => intro
         | |- _ <> _ => intro
         | |- ~ _ => intro
         | H : _ /\ _ |- _ => destruct H
         | H : _ \/ _ |- _ => destruct H
         | H : exists _, _ |- _ => destruct H
         | H : False |- _ => destruct H
         | H : _ ∈ _ |- _ => progress rewrite ?elem_of_cons, ?elem_of_nil in H
         | H : _ = _ |- _ => discriminate H
         end.

(** X25.  [WaitForIndexing] of the suite integrated with the builder.
    On a suite whose [sharedES] is nil, as its constructor leaves it when
    the builder holds no Elasticsearch connection, the call panics on the
    nil pointer and does nothing else.  Otherwise it does not panic: it
    refreshes [_all] when the broker has a client, sleeps 50ms exactly when
    the refresh succeeded, and fails the test in every other case. *)
Theorem WaitForIndexing_refreshes_then_sleeps_or_fails (resp : refresh_response)
  (s : IntegrationTestSuite) :
  match sharedES s with
  | None => WaitForIndexing_builder_suite resp s = [RuntimePanic nil_dereference]
  | Some broker =>
      (IndicesRefresh "_all" ∈ WaitForIndexing_builder_suite resp s <->
       GetClient broker <> None) /\
      (Sleep 50 ∈ WaitForIndexing_builder_suite resp s <->
       GetClient broker <> None /\ resp = RefreshDone) /\
      ((exists msg, FailNow msg ∈ WaitForIndexing_builder_suite resp s) <->
       ~ (GetClient broker <> None /\ resp = RefreshDone)) /\
      (forall msg, RuntimePanic msg ∉ WaitForIndexing_builder_suite resp s)
  end.
Proof.
  unfold WaitForIndexing_builder_suite, refresh_and_wait, RefreshIndices.
  destruct (sharedES s) as [broker|]; [|done].
  destruct (GetClient broker) as [h|]; [destruct resp|]; cbn [app];
    break_down; try done;
    try (exfalso; match goal with H : ~ _ |- _ => apply H end; by split);
    try (rewrite ?elem_of_cons; by eauto);
    try (eexists; rewrite ?elem_of_cons; by eauto).
Qed.

End RefreshFacts.
